(** * Pong: the simulation core of pong-bci, embedded and verified

    The development follows the Python sources module by module:
    [game_config.py] (GameConfig), [game_state.py] (GameState,
    ScoreManager), [game_objects.py] (Difficulty, Paddle, Ball,
    BotController), [ui_renderer.py] (the button layout only) and
    [game.py] (PongGame).

    Conventions of the embedding.
    - A Python [int] is a [Z].  A Python [float] is idealised as an exact
      rational [Q]: rounding of binary64 arithmetic is not modelled, and
      equality of computed floats is [Qeq] ([==]).
    - Objects that Python mutates in place are records passed and returned
      explicitly.
    - A Python exception ends the run (main.py only prints it), so a
      raising call is a [Raise] of the error type and carries no state.
    - The module-level generator of [random] is an explicit entropy tape
      with a cursor, threaded through every call that draws from it.
    - [pygame.time.get_ticks()] and the pointer position are inputs. *)

From Stdlib Require Import ZArith QArith Qabs Qround Qpower Lqa Lia.
From stdpp Require Import base gmap strings list.

Local Open Scope Z_scope.

(** ** Python built-ins *)

Module Py.

Inductive exn : Set :=
| ZeroDivisionError
| AttributeError
| ValueError.

Inductive result (A : Type) : Type :=
| Ok (a : A)
| Raise (e : exn).
Arguments Ok {A} a.
Arguments Raise {A} e.

Definition bind {A B : Type} (m : result A) (k : A -> result B) : result B :=
  match m with
  | Ok a => k a
  | Raise e => Raise e
  end.

(** Attribute access on an [Optional] object: [None.attr] raises. *)
Definition attr {A : Type} (o : option A) : result A :=
  match o with
  | Some a => Ok a
  | None => Raise AttributeError
  end.

(** [a / b] on numbers. *)
Definition truediv (a b : Q) : result Q :=
  if Qeq_bool b 0 then Raise ZeroDivisionError else Ok (a / b)%Q.

(** [a < b] and [a <= b] on numbers. *)
Definition le (a b : Q) : bool := Qle_bool a b.
Definition lt (a b : Q) : bool := negb (Qle_bool b a).

(** [int(q)]: truncation toward zero. *)
Definition int (q : Q) : Z := Z.quot (Qnum q) (Zpos (Qden q)).

End Py.

Global Instance result_ret : MRet Py.result := @Py.Ok.
Global Instance result_bind : MBind Py.result := fun A B k m => Py.bind m k.

(** ** The parts of pygame the core relies on

  [pygame.Rect] stores four C ints; float arguments are truncated.
  [colliderect] and [collidepoint] follow pygame's rect.c. *)

Module pygame.

Record Rect : Set := mkRect { left : Z; top : Z; w : Z; h : Z }.

Definition Rect_of (x y width height : Q) : Rect :=
  mkRect (Py.int x) (Py.int y) (Py.int width) (Py.int height).

(** Truth value of a Rect: both sizes nonzero. *)
Definition truthy (r : Rect) : bool :=
  negb (w r =? 0) && negb (h r =? 0).

Definition colliderect (a b : Rect) : bool :=
  if (w a =? 0) || (h a =? 0) || (w b =? 0) || (h b =? 0) then false
  else
    (Z.min (left a) (left a + w a) <? Z.max (left b) (left b + w b))
    && (Z.min (top a) (top a + h a) <? Z.max (top b) (top b + h b))
    && (Z.min (left b) (left b + w b) <? Z.max (left a) (left a + w a))
    && (Z.min (top b) (top b + h b) <? Z.max (top a) (top a + h a)).

Definition collidepoint (r : Rect) (p : Z * Z) : bool :=
  (left r <=? fst p) && (fst p <? left r + w r)
  && (top r <=? snd p) && (snd p <? top r + h r).

Inductive Key : Set := K_w | K_UP | K_s | K_DOWN | K_ESCAPE | K_other.

Global Instance Key_eq_dec : EqDecision Key.
Proof. solve_decision. Defined.

(** The events [handle_input] looks at; [mouse_pos] is what
    [pygame.mouse.get_pos()] answers while the event is handled. *)
Inductive Event : Set :=
| QUIT
| VIDEORESIZE (ew eh : Z)
| MOUSEBUTTONDOWN (mouse_pos : Z * Z)
| KEYDOWN (key : Key)
| KEYUP (key : Key)
| OTHER.

End pygame.

(** ** The random module

  The generator is a tape of raw non-negative integers.  [random()]
  is a 53-bit integer over 2^53, [_randbelow n] a value below [n];
  [uniform], [choice] and [randint] are built from them as in
  CPython's random.py. *)

Module random.

Record Random : Type := mkRandom { entropy : nat -> Z; cursor : nat }.

Definition next (r : Random) : Z * Random :=
  (entropy r (cursor r), mkRandom (entropy r) (S (cursor r))).

Definition random (r : Random) : Q * Random :=
  let '(k, r') := next r in
  ((k mod 2 ^ 53) # (2 ^ 53), r').

Definition randbelow (n : Z) (r : Random) : Z * Random :=
  let '(k, r') := next r in (k mod n, r').

Definition uniform (a b : Q) (r : Random) : Q * Random :=
  let '(u, r') := random r in ((a + (b - a) * u)%Q, r').

(** [choice([a, b])] *)
Definition choice2 (a b : Z) (r : Random) : Z * Random :=
  let '(i, r') := randbelow 2 r in
  ((if i =? 0 then a else b), r').

Definition randint (a b : Z) (r : Random) : Py.result (Z * Random) :=
  let width := b + 1 - a in
  if width <=? 0 then Py.Raise Py.ValueError
  else let '(k, r') := randbelow width r in Py.Ok (a + k, r').

End random.

(** ** game_objects.py *)

Inductive Difficulty : Set := VERY_EASY | EASY | MEDIUM | HARD.

Global Instance Difficulty_eq_dec : EqDecision Difficulty.
Proof. solve_decision. Defined.

Definition Color : Set := (Z * Z * Z)%type.

Module Paddle.

Record t : Set := mk {
  x : Q; y : Q; width : Q; height : Q; color : Color;
  speed : Q; velocity : Q; target_y : Q
}.

(** [Paddle(x, y, width, height, color, speed)] *)
Definition init (x y width height : Q) (color : Color) (speed : Q) : t :=
  mk x y width height color speed 0 y.

Definition set_y (self : t) (v : Q) : t :=
  mk (x self) v (width self) (height self) (color self)
     (speed self) (velocity self) (target_y self).
Definition set_velocity (self : t) (v : Q) : t :=
  mk (x self) (y self) (width self) (height self) (color self)
     (speed self) v (target_y self).
Definition set_target_y (self : t) (v : Q) : t :=
  mk (x self) (y self) (width self) (height self) (color self)
     (speed self) (velocity self) v.

Definition move (self : t) (direction : Z) (screen_height : Z) : t :=
  let self := set_velocity self (inject_Z direction * speed self) in
  let self := set_y self (y self + velocity self) in
  if Py.lt (y self) 0 then set_y self 0
  else if Py.lt (inject_Z screen_height) (y self + height self)
       then set_y self (inject_Z screen_height - height self)
       else self.

Definition smooth_move_to (self : t) (target : Q) (smoothing : Q)
    (screen_height : Z) : t :=
  let self := set_target_y self target in
  let diff := (target_y self - y self)%Q in
  let self := set_y self (y self + diff * smoothing) in
  if Py.lt (y self) 0 then set_y self 0
  else if Py.lt (inject_Z screen_height) (y self + height self)
       then set_y self (inject_Z screen_height - height self)
       else self.

Definition get_rect (self : t) : pygame.Rect :=
  pygame.Rect_of (x self) (y self) (width self) (height self).

End Paddle.

Module Ball.

Record t : Set := mk {
  x : Q; y : Q; width : Q; height : Q; color : Color;
  radius : Q; base_speed : Q; velocity_x : Q; velocity_y : Q;
  initial_x : Q; initial_y : Q
}.

(** [Ball(x, y, radius, color, speed)] *)
Definition init (x y radius : Q) (color : Color) (speed : Q) : t :=
  mk x y (radius * 2) (radius * 2) color radius speed 0 0 x y.

Definition set_pos (self : t) (nx ny : Q) : t :=
  mk nx ny (width self) (height self) (color self) (radius self)
     (base_speed self) (velocity_x self) (velocity_y self)
     (initial_x self) (initial_y self).
Definition set_velocity (self : t) (vx vy : Q) : t :=
  mk (x self) (y self) (width self) (height self) (color self)
     (radius self) (base_speed self) vx vy
     (initial_x self) (initial_y self).

Definition reset_position (self : t) (direction : Z) (target_y : option Q)
    (rng : random.Random) : Py.result (t * random.Random) :=
  let self := set_pos self (initial_x self) (initial_y self) in
  let '(direction, rng) :=
    if direction =? 0 then random.choice2 (-1) 1 rng else (direction, rng) in
  let self :=
    set_velocity self (base_speed self * inject_Z direction) (velocity_y self) in
  match target_y with
  | Some target_y =>
      let y_diff := (target_y - y self)%Q in
      let edge := if direction <? 0 then 0%Q else (initial_x self * 2)%Q in
      r ← Py.truediv y_diff (Qabs (initial_x self - edge));
      Py.Ok (set_velocity self (velocity_x self)
               (r * base_speed self * (6 # 10)), rng)
  | None =>
      let '(s, rng) := random.choice2 (-1) 1 rng in
      let '(u, rng) := random.uniform (5 # 10) 1 rng in
      Py.Ok (set_velocity self (velocity_x self)
               (base_speed self * inject_Z s * u), rng)
  end.

Definition move (self : t) (screen_width screen_height : Z) : t :=
  let self := set_pos self (x self + velocity_x self) (y self + velocity_y self) in
  if Py.le (y self - radius self) 0
     || Py.le (inject_Z screen_height) (y self + radius self)
  then
    let self := set_velocity self (velocity_x self) (velocity_y self * (-1 # 1)) in
    if Py.le (y self - radius self) 0
    then set_pos self (x self) (radius self)
    else set_pos self (x self) (inject_Z screen_height - radius self)
  else self.

Definition bounce_off_paddle (self : t) (paddle : Paddle.t) : Py.result t :=
  let self := set_velocity self (velocity_x self * (-1 # 1)) (velocity_y self) in
  let paddle_center := (Paddle.y paddle + Paddle.height paddle / 2)%Q in
  hit_pos ← Py.truediv (y self - paddle_center) (Paddle.height paddle / 2);
  Py.Ok (set_velocity self (velocity_x self) (hit_pos * base_speed self * (8 # 10))).

Definition check_paddle_collision (self : t) (paddle : Paddle.t) : bool :=
  let ball_rect :=
    pygame.Rect_of (x self - radius self) (y self - radius self)
                   (radius self * 2) (radius self * 2) in
  pygame.colliderect ball_rect (Paddle.get_rect paddle).

End Ball.

Module BotController.

Record t : Set := mk {
  difficulty : Difficulty;
  smoothing_factor : Q;
  accuracy : Q;
  reaction_delay : Z;
  max_reaction_delay : Z
}.

Definition _get_smoothing_factor (d : Difficulty) : Q :=
  match d with
  | VERY_EASY => 25 # 1000
  | EASY => 4 # 100
  | MEDIUM => 8 # 100
  | HARD => 14 # 100
  end.

Definition _get_accuracy (d : Difficulty) : Q :=
  match d with
  | VERY_EASY => 45 # 100
  | EASY => 65 # 100
  | MEDIUM => 85 # 100
  | HARD => 97 # 100
  end.

Definition _get_max_delay (d : Difficulty) : Z :=
  match d with
  | VERY_EASY => 22
  | EASY => 14
  | MEDIUM => 6
  | HARD => 1
  end.

(** [BotController(difficulty)] *)
Definition init (d : Difficulty) : t :=
  mk d (_get_smoothing_factor d) (_get_accuracy d) 0 (_get_max_delay d).

Definition set_reaction_delay (self : t) (v : Z) : t :=
  mk (difficulty self) (smoothing_factor self) (accuracy self) v
     (max_reaction_delay self).

Definition error_range (d : Difficulty) : Q :=
  if decide (d = VERY_EASY) then 60
  else if decide (d = EASY) then 30
  else if decide (d = MEDIUM) then 16 else 7.

(** [update] mutates the controller and the paddle it is given; it
    returns both, with the generator. *)
Definition update (self : t) (paddle : Paddle.t) (ball : Ball.t)
    (screen_height : Z) (rng : random.Random)
    : Py.result (t * Paddle.t * random.Random) :=
  if 0 <? reaction_delay self then
    let self := set_reaction_delay self (reaction_delay self - 1) in
    let paddle :=
      Paddle.smooth_move_to paddle (Paddle.target_y paddle)
        (smoothing_factor self) screen_height in
    Py.Ok (self, paddle, rng)
  else
    let target_y := (Ball.y ball - Paddle.height paddle / 2)%Q in
    let '(roll, rng) := random.random rng in
    let '(target_y, rng) :=
      if Py.lt (accuracy self) roll then
        let '(e, rng) :=
          random.uniform (- error_range (difficulty self))
                         (error_range (difficulty self)) rng in
        ((target_y + e)%Q, rng)
      else (target_y, rng) in
    let paddle :=
      Paddle.smooth_move_to paddle target_y (smoothing_factor self)
        screen_height in
    '(d, rng) ← random.randint 0 (max_reaction_delay self) rng;
    Py.Ok (set_reaction_delay self d, paddle, rng).

End BotController.

(** ** game_config.py *)

Module GameConfig.

Definition MIN_WIDTH : Z := 600.
Definition MIN_HEIGHT : Z := 400.
Definition FPS : Z := 60.
Definition COLOR_WHITE : Color := (255, 255, 255).
Definition PADDLE_WIDTH_RATIO : Q := 1875 # 100000.
Definition PADDLE_HEIGHT_RATIO : Q := 1667 # 10000.
Definition PADDLE_OFFSET_RATIO : Q := 375 # 10000.
Definition PLAYER_SPEED_RATIO : Q := 875 # 100000.
Definition BALL_RADIUS_RATIO : Q := 1 # 100.
Definition WINNING_SCORE : Z := 10.
Definition SCORE_FONT_SIZE_RATIO : Q := 9 # 100.
Definition SCORE_Y_POSITION_RATIO : Q := 167 # 1000.
Definition SCORE_X_OFFSET_RATIO : Q := 125 # 1000.
Definition BUTTON_WIDTH_RATIO : Q := 25 # 100.
Definition BUTTON_HEIGHT_RATIO : Q := 1 # 10.
Definition BUTTON_SPACING_RATIO : Q := 5 # 100.
Definition MENU_FONT_SIZE_RATIO : Q := 6 # 100.
Definition BUTTON_FONT_SIZE_RATIO : Q := 4 # 100.
Definition PAUSE_FONT_SIZE_RATIO : Q := 8 # 100.
Definition RESET_DELAY_MS : Z := 2000.

Record Settings : Set := mkSettings { ball_speed : Q; bot_speed : Q }.

Definition DIFFICULTY_SETTINGS (d : Difficulty) : Settings :=
  match d with
  | VERY_EASY => mkSettings (22 # 10) (15 # 10)
  | EASY => mkSettings (35 # 10) (22 # 10)
  | MEDIUM => mkSettings 6 4
  | HARD => mkSettings (84 # 10) (65 # 10)
  end.

(** The instance attributes set by [update_screen_size]. *)
Record t : Set := mk {
  SCREEN_WIDTH : Z;
  SCREEN_HEIGHT : Z;
  PADDLE_WIDTH : Z;
  PADDLE_HEIGHT : Z;
  PADDLE_OFFSET : Z;
  PLAYER_SPEED : Q;
  BALL_RADIUS : Z;
  SCORE_FONT_SIZE : Z;
  SCORE_Y_POSITION : Z;
  SCORE_X_OFFSET : Z;
  BUTTON_WIDTH : Z;
  BUTTON_HEIGHT : Z;
  BUTTON_SPACING : Z;
  MENU_FONT_SIZE : Z;
  BUTTON_FONT_SIZE : Z;
  PAUSE_FONT_SIZE : Z
}.

Definition update_screen_size (self : t) (width height : Z) : t :=
  let sw := Z.max width MIN_WIDTH in
  let sh := Z.max height MIN_HEIGHT in
  mk sw sh
     (Py.int (inject_Z sw * PADDLE_WIDTH_RATIO))
     (Py.int (inject_Z sh * PADDLE_HEIGHT_RATIO))
     (Py.int (inject_Z sw * PADDLE_OFFSET_RATIO))
     (inject_Z sw * PLAYER_SPEED_RATIO)
     (Py.int (inject_Z sw * BALL_RADIUS_RATIO))
     (Py.int (inject_Z sw * SCORE_FONT_SIZE_RATIO))
     (Py.int (inject_Z sh * SCORE_Y_POSITION_RATIO))
     (Py.int (inject_Z sw * SCORE_X_OFFSET_RATIO))
     (Py.int (inject_Z sw * BUTTON_WIDTH_RATIO))
     (Py.int (inject_Z sh * BUTTON_HEIGHT_RATIO))
     (Py.int (inject_Z sh * BUTTON_SPACING_RATIO))
     (Py.int (inject_Z sw * MENU_FONT_SIZE_RATIO))
     (Py.int (inject_Z sw * BUTTON_FONT_SIZE_RATIO))
     (Py.int (inject_Z sw * PAUSE_FONT_SIZE_RATIO)).

(** The class attributes an instance shows before [__init__] has run. *)
Definition class_defaults : t :=
  mk 800 600 0 0 0 0 0 0 0 0 0 0 0 0 0 0.

(** [GameConfig(width, height)] *)
Definition init (width height : Z) : t :=
  update_screen_size class_defaults width height.

(** What a caller can hand to [get_difficulty_settings].  The table
    [DIFFICULTY_SETTINGS] is keyed by the members of the class
    [Difficulty] that game_config.py imports from the module
    [ponggame.game_objects]; game.py takes its [Difficulty] from the
    module [game_objects].  These are two modules, each with an Enum
    class of its own, and a member of one class equals no member of the
    other, whatever its name and value.  So a key is a member of the
    class of the table, a member of the class of game.py, or [None]. *)
Inductive SettingsKey : Set :=
| ponggame_Difficulty (d : Difficulty)
| game_objects_Difficulty (d : Difficulty)
| Py_None.

(** [DIFFICULTY_SETTINGS.get(difficulty, DIFFICULTY_SETTINGS[EASY])]: only
    a member of the class of the table finds its entry. *)
Definition get_difficulty_settings (self : t) (difficulty : SettingsKey)
    : Settings :=
  match difficulty with
  | ponggame_Difficulty d => DIFFICULTY_SETTINGS d
  | game_objects_Difficulty _ | Py_None => DIFFICULTY_SETTINGS EASY
  end.

Definition scale_speed (self : t) (base_speed : Q) : Q :=
  let scale_factor := (inject_Z (SCREEN_WIDTH self) / 800)%Q in
  (base_speed * scale_factor)%Q.

End GameConfig.

(** ** game_state.py *)

Inductive GameState : Set := MENU | PLAYING | PAUSED | GAME_OVER.

Global Instance GameState_eq_dec : EqDecision GameState.
Proof. solve_decision. Defined.

Module ScoreManager.

Record t : Set := mk {
  player_score : Z;
  bot_score : Z;
  winning_score : Z
}.

Definition init (winning_score : Z) : t := mk 0 0 winning_score.

Definition increment_player_score (self : t) : t :=
  mk (player_score self + 1) (bot_score self) (winning_score self).

Definition increment_bot_score (self : t) : t :=
  mk (player_score self) (bot_score self + 1) (winning_score self).

Definition reset (self : t) : t := mk 0 0 (winning_score self).

Definition check_winner (self : t) : option string :=
  if winning_score self <=? player_score self then Some "Player"%string
  else if winning_score self <=? bot_score self then Some "Bot"%string
  else None.

Definition get_scores (self : t) : Z * Z := (player_score self, bot_score self).

End ScoreManager.

(** ** ui_renderer.py: the button rectangles the draw methods return *)

Module UIRenderer.

Import GameConfig.

Definition button_at (config : GameConfig.t) (start_y i : Z) : pygame.Rect :=
  let button_y := start_y + i * (BUTTON_HEIGHT config + BUTTON_SPACING config) in
  pygame.mkRect (SCREEN_WIDTH config / 2 - BUTTON_WIDTH config / 2) button_y
                (BUTTON_WIDTH config) (BUTTON_HEIGHT config).

Definition draw_menu (config : GameConfig.t) : list (pygame.Rect * Difficulty) :=
  let start_y := Py.int (inject_Z (SCREEN_HEIGHT config) * (40 # 100)) in
  [ (button_at config start_y 0, VERY_EASY);
    (button_at config start_y 1, EASY);
    (button_at config start_y 2, MEDIUM);
    (button_at config start_y 3, HARD) ].

Definition draw_pause_menu (config : GameConfig.t) : gmap string pygame.Rect :=
  let start_y := Py.int (inject_Z (SCREEN_HEIGHT config) * (45 # 100)) in
  <["new_game"%string := button_at config start_y 1]>
    (<["resume"%string := button_at config start_y 0]> ∅).

Definition draw_game_over (config : GameConfig.t) : pygame.Rect :=
  pygame.mkRect (SCREEN_WIDTH config / 2 - BUTTON_WIDTH config / 2)
                (Py.int (inject_Z (SCREEN_HEIGHT config) * (5 # 10)))
                (BUTTON_WIDTH config) (BUTTON_HEIGHT config).

End UIRenderer.

(** ** game.py *)

Module PongGame.

Import pygame.

(** The attributes of a [PongGame]; [screen] is the size of the display
    surface, [rng] the state of the [random] module.  The clock and the
    renderer's fonts play no part in the simulation. *)
Record t : Type := mk {
  config : GameConfig.t;
  screen : Z * Z;
  state : GameState;
  score_manager : ScoreManager.t;
  player_paddle : option Paddle.t;
  bot_paddle : option Paddle.t;
  ball : option Ball.t;
  bot_controller : option BotController.t;
  keys_pressed : gset string;
  current_difficulty : option Difficulty;
  menu_buttons : list (pygame.Rect * Difficulty);
  pause_buttons : gmap string pygame.Rect;
  play_again_button : option pygame.Rect;
  winner : option string;
  reset_timer : Z;
  waiting_for_reset : bool;
  last_scorer : option string;
  rng : random.Random
}.

Definition set_config (self : t) (v : GameConfig.t) : t :=
  mk v (screen self) (state self) (score_manager self) (player_paddle self)
     (bot_paddle self) (ball self) (bot_controller self) (keys_pressed self)
     (current_difficulty self) (menu_buttons self) (pause_buttons self)
     (play_again_button self) (winner self) (reset_timer self)
     (waiting_for_reset self) (last_scorer self) (rng self).
Definition set_screen (self : t) (v : Z * Z) : t :=
  mk (config self) v (state self) (score_manager self) (player_paddle self)
     (bot_paddle self) (ball self) (bot_controller self) (keys_pressed self)
     (current_difficulty self) (menu_buttons self) (pause_buttons self)
     (play_again_button self) (winner self) (reset_timer self)
     (waiting_for_reset self) (last_scorer self) (rng self).
Definition set_state (self : t) (v : GameState) : t :=
  mk (config self) (screen self) v (score_manager self) (player_paddle self)
     (bot_paddle self) (ball self) (bot_controller self) (keys_pressed self)
     (current_difficulty self) (menu_buttons self) (pause_buttons self)
     (play_again_button self) (winner self) (reset_timer self)
     (waiting_for_reset self) (last_scorer self) (rng self).
Definition set_score_manager (self : t) (v : ScoreManager.t) : t :=
  mk (config self) (screen self) (state self) v (player_paddle self)
     (bot_paddle self) (ball self) (bot_controller self) (keys_pressed self)
     (current_difficulty self) (menu_buttons self) (pause_buttons self)
     (play_again_button self) (winner self) (reset_timer self)
     (waiting_for_reset self) (last_scorer self) (rng self).
Definition set_player_paddle (self : t) (v : option Paddle.t) : t :=
  mk (config self) (screen self) (state self) (score_manager self) v
     (bot_paddle self) (ball self) (bot_controller self) (keys_pressed self)
     (current_difficulty self) (menu_buttons self) (pause_buttons self)
     (play_again_button self) (winner self) (reset_timer self)
     (waiting_for_reset self) (last_scorer self) (rng self).
Definition set_bot_paddle (self : t) (v : option Paddle.t) : t :=
  mk (config self) (screen self) (state self) (score_manager self)
     (player_paddle self) v (ball self) (bot_controller self) (keys_pressed
     self) (current_difficulty self) (menu_buttons self) (pause_buttons
     self) (play_again_button self) (winner self) (reset_timer self)
     (waiting_for_reset self) (last_scorer self) (rng self).
Definition set_ball (self : t) (v : option Ball.t) : t :=
  mk (config self) (screen self) (state self) (score_manager self)
     (player_paddle self) (bot_paddle self) v (bot_controller self)
     (keys_pressed self) (current_difficulty self) (menu_buttons self)
     (pause_buttons self) (play_again_button self) (winner self)
     (reset_timer self) (waiting_for_reset self) (last_scorer self) (rng
     self).
Definition set_bot_controller (self : t) (v : option BotController.t) : t :=
  mk (config self) (screen self) (state self) (score_manager self)
     (player_paddle self) (bot_paddle self) (ball self) v (keys_pressed
     self) (current_difficulty self) (menu_buttons self) (pause_buttons
     self) (play_again_button self) (winner self) (reset_timer self)
     (waiting_for_reset self) (last_scorer self) (rng self).
Definition set_keys_pressed (self : t) (v : gset string) : t :=
  mk (config self) (screen self) (state self) (score_manager self)
     (player_paddle self) (bot_paddle self) (ball self) (bot_controller
     self) v (current_difficulty self) (menu_buttons self) (pause_buttons
     self) (play_again_button self) (winner self) (reset_timer self)
     (waiting_for_reset self) (last_scorer self) (rng self).
Definition set_current_difficulty (self : t) (v : option Difficulty) : t :=
  mk (config self) (screen self) (state self) (score_manager self)
     (player_paddle self) (bot_paddle self) (ball self) (bot_controller
     self) (keys_pressed self) v (menu_buttons self) (pause_buttons self)
     (play_again_button self) (winner self) (reset_timer self)
     (waiting_for_reset self) (last_scorer self) (rng self).
Definition set_menu_buttons (self : t) (v : list (pygame.Rect * Difficulty)) : t :=
  mk (config self) (screen self) (state self) (score_manager self)
     (player_paddle self) (bot_paddle self) (ball self) (bot_controller
     self) (keys_pressed self) (current_difficulty self) v (pause_buttons
     self) (play_again_button self) (winner self) (reset_timer self)
     (waiting_for_reset self) (last_scorer self) (rng self).
Definition set_pause_buttons (self : t) (v : gmap string pygame.Rect) : t :=
  mk (config self) (screen self) (state self) (score_manager self)
     (player_paddle self) (bot_paddle self) (ball self) (bot_controller
     self) (keys_pressed self) (current_difficulty self) (menu_buttons self)
     v (play_again_button self) (winner self) (reset_timer self)
     (waiting_for_reset self) (last_scorer self) (rng self).
Definition set_play_again_button (self : t) (v : option pygame.Rect) : t :=
  mk (config self) (screen self) (state self) (score_manager self)
     (player_paddle self) (bot_paddle self) (ball self) (bot_controller
     self) (keys_pressed self) (current_difficulty self) (menu_buttons self)
     (pause_buttons self) v (winner self) (reset_timer self)
     (waiting_for_reset self) (last_scorer self) (rng self).
Definition set_winner (self : t) (v : option string) : t :=
  mk (config self) (screen self) (state self) (score_manager self)
     (player_paddle self) (bot_paddle self) (ball self) (bot_controller
     self) (keys_pressed self) (current_difficulty self) (menu_buttons self)
     (pause_buttons self) (play_again_button self) v (reset_timer self)
     (waiting_for_reset self) (last_scorer self) (rng self).
Definition set_reset_timer (self : t) (v : Z) : t :=
  mk (config self) (screen self) (state self) (score_manager self)
     (player_paddle self) (bot_paddle self) (ball self) (bot_controller
     self) (keys_pressed self) (current_difficulty self) (menu_buttons self)
     (pause_buttons self) (play_again_button self) (winner self) v
     (waiting_for_reset self) (last_scorer self) (rng self).
Definition set_waiting_for_reset (self : t) (v : bool) : t :=
  mk (config self) (screen self) (state self) (score_manager self)
     (player_paddle self) (bot_paddle self) (ball self) (bot_controller
     self) (keys_pressed self) (current_difficulty self) (menu_buttons self)
     (pause_buttons self) (play_again_button self) (winner self)
     (reset_timer self) v (last_scorer self) (rng self).
Definition set_last_scorer (self : t) (v : option string) : t :=
  mk (config self) (screen self) (state self) (score_manager self)
     (player_paddle self) (bot_paddle self) (ball self) (bot_controller
     self) (keys_pressed self) (current_difficulty self) (menu_buttons self)
     (pause_buttons self) (play_again_button self) (winner self)
     (reset_timer self) (waiting_for_reset self) v (rng self).
Definition set_rng (self : t) (v : random.Random) : t :=
  mk (config self) (screen self) (state self) (score_manager self)
     (player_paddle self) (bot_paddle self) (ball self) (bot_controller
     self) (keys_pressed self) (current_difficulty self) (menu_buttons self)
     (pause_buttons self) (play_again_button self) (winner self)
     (reset_timer self) (waiting_for_reset self) (last_scorer self) v.

(** [PongGame()]; the display is opened at the configured size. *)
Definition init (rng : random.Random) : t :=
  let config := GameConfig.init 800 600 in
  mk config (GameConfig.SCREEN_WIDTH config, GameConfig.SCREEN_HEIGHT config)
     MENU (ScoreManager.init GameConfig.WINNING_SCORE)
     None None None None ∅ None [] ∅ None None 0 false None rng.

(** A difficulty attribute of the game as the argument of
    [get_difficulty_settings]: a member of the [Difficulty] of game.py,
    or [None] before a level has been chosen. *)
Definition settings_key (difficulty : option Difficulty) : GameConfig.SettingsKey :=
  match difficulty with
  | Some d => GameConfig.game_objects_Difficulty d
  | None => GameConfig.Py_None
  end.

Definition initialize_game_objects (self : t) (difficulty : Difficulty)
    : Py.result t :=
  let self := set_current_difficulty self (Some difficulty) in
  let cfg := config self in
  let settings :=
    GameConfig.get_difficulty_settings cfg
      (GameConfig.game_objects_Difficulty difficulty) in
  let ball_speed := GameConfig.scale_speed cfg (GameConfig.ball_speed settings) in
  let bot_speed := GameConfig.scale_speed cfg (GameConfig.bot_speed settings) in
  let self := set_player_paddle self (Some (Paddle.init
    (inject_Z (GameConfig.PADDLE_OFFSET cfg))
    (inject_Z (GameConfig.SCREEN_HEIGHT cfg / 2 - GameConfig.PADDLE_HEIGHT cfg / 2))
    (inject_Z (GameConfig.PADDLE_WIDTH cfg))
    (inject_Z (GameConfig.PADDLE_HEIGHT cfg))
    GameConfig.COLOR_WHITE
    (GameConfig.PLAYER_SPEED cfg))) in
  let self := set_bot_paddle self (Some (Paddle.init
    (inject_Z (GameConfig.SCREEN_WIDTH cfg - GameConfig.PADDLE_OFFSET cfg
               - GameConfig.PADDLE_WIDTH cfg))
    (inject_Z (GameConfig.SCREEN_HEIGHT cfg / 2 - GameConfig.PADDLE_HEIGHT cfg / 2))
    (inject_Z (GameConfig.PADDLE_WIDTH cfg))
    (inject_Z (GameConfig.PADDLE_HEIGHT cfg))
    GameConfig.COLOR_WHITE
    bot_speed)) in
  let ball := Ball.init
    (inject_Z (GameConfig.SCREEN_WIDTH cfg / 2))
    (inject_Z (GameConfig.SCREEN_HEIGHT cfg / 2))
    (inject_Z (GameConfig.BALL_RADIUS cfg))
    GameConfig.COLOR_WHITE
    ball_speed in
  '(ball, rng) ← Ball.reset_position ball 0 None (rng self);
  let self := set_rng (set_ball self (Some ball)) rng in
  let self := set_bot_controller self (Some (BotController.init difficulty)) in
  let self := set_score_manager self (ScoreManager.reset (score_manager self)) in
  let self := set_waiting_for_reset self false in
  let self := set_reset_timer self 0 in
  let self := set_last_scorer self None in
  Py.Ok self.

Definition resize_game_objects (self : t) : Py.result t :=
  match player_paddle self, bot_paddle self, ball self with
  | Some pp, Some bp, Some b =>
      let cfg := config self in
      let screen_width := inject_Z (fst (screen self)) in
      let screen_height := inject_Z (snd (screen self)) in
      player_y_ratio ← Py.truediv (Paddle.y pp) screen_height;
      bot_y_ratio ← Py.truediv (Paddle.y bp) screen_height;
      ball_x_ratio ← Py.truediv (Ball.x b) screen_width;
      ball_y_ratio ← Py.truediv (Ball.y b) screen_height;
      let settings :=
        GameConfig.get_difficulty_settings cfg
          (settings_key (current_difficulty self)) in
      let ball_speed := GameConfig.scale_speed cfg (GameConfig.ball_speed settings) in
      let bot_speed := GameConfig.scale_speed cfg (GameConfig.bot_speed settings) in
      let pp := Paddle.mk
        (inject_Z (GameConfig.PADDLE_OFFSET cfg))
        (player_y_ratio * inject_Z (GameConfig.SCREEN_HEIGHT cfg))
        (inject_Z (GameConfig.PADDLE_WIDTH cfg))
        (inject_Z (GameConfig.PADDLE_HEIGHT cfg))
        (Paddle.color pp)
        (GameConfig.PLAYER_SPEED cfg)
        (Paddle.velocity pp) (Paddle.target_y pp) in
      let bp := Paddle.mk
        (inject_Z (GameConfig.SCREEN_WIDTH cfg - GameConfig.PADDLE_OFFSET cfg
                   - GameConfig.PADDLE_WIDTH cfg))
        (bot_y_ratio * inject_Z (GameConfig.SCREEN_HEIGHT cfg))
        (inject_Z (GameConfig.PADDLE_WIDTH cfg))
        (inject_Z (GameConfig.PADDLE_HEIGHT cfg))
        (Paddle.color bp)
        bot_speed
        (Paddle.velocity bp) (Paddle.target_y bp) in
      speed_ratio ← Py.truediv ball_speed (GameConfig.ball_speed settings);
      let b := Ball.mk
        (ball_x_ratio * inject_Z (GameConfig.SCREEN_WIDTH cfg))
        (ball_y_ratio * inject_Z (GameConfig.SCREEN_HEIGHT cfg))
        (Ball.width b) (Ball.height b) (Ball.color b)
        (inject_Z (GameConfig.BALL_RADIUS cfg))
        ball_speed
        (Ball.velocity_x b * speed_ratio)
        (Ball.velocity_y b * speed_ratio)
        (inject_Z (GameConfig.SCREEN_WIDTH cfg / 2))
        (inject_Z (GameConfig.SCREEN_HEIGHT cfg / 2)) in
      Py.Ok (set_ball (set_bot_paddle (set_player_paddle self (Some pp)) (Some bp))
                      (Some b))
  | _, _, _ => Py.Ok self
  end.

(** The loop over [menu_buttons] of the Menu branch. *)
Fixpoint click_menu (self : t) (mouse_pos : Z * Z)
    (buttons : list (Rect * Difficulty)) : Py.result t :=
  match buttons with
  | [] => Py.Ok self
  | (button_rect, difficulty) :: rest =>
      if collidepoint button_rect mouse_pos then
        self ← initialize_game_objects self difficulty;
        Py.Ok (set_state self PLAYING)
      else click_menu self mouse_pos rest
  end.

(** [name in self.pause_buttons and self.pause_buttons[name].collidepoint(pos)] *)
Definition pause_button_hit (self : t) (name : string) (mouse_pos : Z * Z) : bool :=
  match pause_buttons self !! name with
  | Some r => collidepoint r mouse_pos
  | None => false
  end.

Definition play_again_hit (self : t) (mouse_pos : Z * Z) : bool :=
  match play_again_button self with
  | Some r => truthy r && collidepoint r mouse_pos
  | None => false
  end.

(** The body of the event loop of [handle_input], for an event other
    than [QUIT]. *)
Definition handle_event (self : t) (event : Event) : Py.result t :=
  self ← match event with
         | VIDEORESIZE ew eh =>
             let self := set_screen self (ew, eh) in
             let self :=
               set_config self (GameConfig.update_screen_size (config self) ew eh) in
             if bool_decide (state self = PLAYING)
                && bool_decide (is_Some (player_paddle self))
             then resize_game_objects self
             else Py.Ok self
         | _ => Py.Ok self
         end;
  match state self with
  | MENU =>
      match event with
      | MOUSEBUTTONDOWN mouse_pos => click_menu self mouse_pos (menu_buttons self)
      | _ => Py.Ok self
      end
  | PAUSED =>
      match event with
      | MOUSEBUTTONDOWN mouse_pos =>
          if pause_button_hit self "resume" mouse_pos
          then Py.Ok (set_state self PLAYING)
          else if pause_button_hit self "new_game" mouse_pos
          then Py.Ok (set_state self MENU)
          else Py.Ok self
      | KEYDOWN key =>
          if bool_decide (key = K_ESCAPE) then Py.Ok (set_state self PLAYING)
          else Py.Ok self
      | _ => Py.Ok self
      end
  | GAME_OVER =>
      match event with
      | MOUSEBUTTONDOWN mouse_pos =>
          if play_again_hit self mouse_pos then Py.Ok (set_state self MENU)
          else Py.Ok self
      | _ => Py.Ok self
      end
  | PLAYING =>
      match event with
      | KEYDOWN key =>
          if bool_decide (key = K_w) || bool_decide (key = K_UP)
          then Py.Ok (set_keys_pressed self ({["up"%string]} ∪ keys_pressed self))
          else if bool_decide (key = K_s) || bool_decide (key = K_DOWN)
          then Py.Ok (set_keys_pressed self ({["down"%string]} ∪ keys_pressed self))
          else if bool_decide (key = K_ESCAPE)
          then Py.Ok (set_state self PAUSED)
          else Py.Ok self
      | KEYUP key =>
          if bool_decide (key = K_w) || bool_decide (key = K_UP)
          then Py.Ok (set_keys_pressed self (keys_pressed self ∖ {["up"%string]}))
          else if bool_decide (key = K_s) || bool_decide (key = K_DOWN)
          then Py.Ok (set_keys_pressed self (keys_pressed self ∖ {["down"%string]}))
          else Py.Ok self
      | _ => Py.Ok self
      end
  end.

(** [handle_input]: the events of one frame, in order; [QUIT] returns
    [False] at once. *)
Fixpoint handle_input (self : t) (events : list Event) : Py.result (t * bool) :=
  match events with
  | [] => Py.Ok (self, true)
  | QUIT :: _ => Py.Ok (self, false)
  | event :: rest =>
      self ← handle_event self event;
      handle_input self rest
  end.

(** [update]; [now] is the answer of [pygame.time.get_ticks()]. *)
Definition update (self : t) (now : Z) : Py.result t :=
  if negb (bool_decide (state self = PLAYING)) then Py.Ok self
  else if waiting_for_reset self then
    let current_time := now in
    if GameConfig.RESET_DELAY_MS <=? current_time - reset_timer self then
      '(direction, target_y) ←
        (if bool_decide (last_scorer self = Some "bot"%string) then
           pp ← Py.attr (player_paddle self);
           Py.Ok (-1, (Paddle.y pp + Paddle.height pp / 2)%Q)
         else
           bp ← Py.attr (bot_paddle self);
           Py.Ok (1, (Paddle.y bp + Paddle.height bp / 2)%Q));
      b ← Py.attr (ball self);
      '(b, rng) ← Ball.reset_position b direction (Some target_y) (rng self);
      let self := set_rng (set_ball self (Some b)) rng in
      Py.Ok (set_waiting_for_reset self false)
    else Py.Ok self
  else
    let cfg := config self in
    let direction :=
      if bool_decide ("up"%string ∈ keys_pressed self) then -1
      else if bool_decide ("down"%string ∈ keys_pressed self) then 1
      else 0 in
    pp ← Py.attr (player_paddle self);
    let pp := Paddle.move pp direction (GameConfig.SCREEN_HEIGHT cfg) in
    bc ← Py.attr (bot_controller self);
    bp ← Py.attr (bot_paddle self);
    b ← Py.attr (ball self);
    '(bc, bp, rng) ←
      BotController.update bc bp b (GameConfig.SCREEN_HEIGHT cfg) (rng self);
    let b := Ball.move b (GameConfig.SCREEN_WIDTH cfg) (GameConfig.SCREEN_HEIGHT cfg) in
    b ← (if Ball.check_paddle_collision b pp && Py.lt (Ball.velocity_x b) 0
         then Ball.bounce_off_paddle b pp else Py.Ok b);
    b ← (if Ball.check_paddle_collision b bp && Py.lt 0 (Ball.velocity_x b)
         then Ball.bounce_off_paddle b bp else Py.Ok b);
    let self := set_player_paddle self (Some pp) in
    let self := set_bot_controller self (Some bc) in
    let self := set_bot_paddle self (Some bp) in
    let self := set_rng self rng in
    let self := set_ball self (Some b) in
    let home (b : Ball.t) :=
      Ball.set_velocity
        (Ball.set_pos b (inject_Z (GameConfig.SCREEN_WIDTH cfg / 2))
                        (inject_Z (GameConfig.SCREEN_HEIGHT cfg / 2))) 0 0 in
    let self :=
      if Py.lt (Ball.x b - Ball.radius b) 0 then
        let self :=
          set_score_manager self
            (ScoreManager.increment_bot_score (score_manager self)) in
        let self := set_last_scorer self (Some "bot"%string) in
        let self := set_ball self (Some (home b)) in
        let self := set_waiting_for_reset self true in
        set_reset_timer self now
      else if Py.lt (inject_Z (GameConfig.SCREEN_WIDTH cfg)) (Ball.x b + Ball.radius b) then
        let self :=
          set_score_manager self
            (ScoreManager.increment_player_score (score_manager self)) in
        let self := set_last_scorer self (Some "player"%string) in
        let self := set_ball self (Some (home b)) in
        let self := set_waiting_for_reset self true in
        set_reset_timer self now
      else self in
    match ScoreManager.check_winner (score_manager self) with
    | Some winner => Py.Ok (set_state (set_winner self (Some winner)) GAME_OVER)
    | None => Py.Ok self
    end.

(** [render], as far as the game's attributes go: the draw methods
    return the button rectangles that the next [handle_input] tests. *)
Definition render (self : t) : Py.result t :=
  match state self with
  | MENU => Py.Ok (set_menu_buttons self (UIRenderer.draw_menu (config self)))
  | PLAYING =>
      _ ← Py.attr (player_paddle self);
      _ ← Py.attr (bot_paddle self);
      _ ← Py.attr (ball self);
      Py.Ok self
  | PAUSED =>
      _ ← Py.attr (player_paddle self);
      _ ← Py.attr (bot_paddle self);
      _ ← Py.attr (ball self);
      Py.Ok (set_pause_buttons self (UIRenderer.draw_pause_menu (config self)))
  | GAME_OVER =>
      Py.Ok (set_play_again_button self
               (Some (UIRenderer.draw_game_over (config self))))
  end.

(** One iteration of the loop of [run]: the pending events and the
    clock reading of that iteration. *)
Record Frame : Set := mkFrame { events : list Event; ticks : Z }.

Definition frame (self : t) (f : Frame) : Py.result (t * bool) :=
  '(self, running) ← handle_input self (events f);
  self ← update self (ticks f);
  self ← render self;
  Py.Ok (self, running).

(** [run] over the frames the environment supplies. *)
Fixpoint run (self : t) (frames : list Frame) : Py.result t :=
  match frames with
  | [] => Py.Ok self
  | f :: rest =>
      '(self, running) ← frame self f;
      if running : bool then run self rest else Py.Ok self
  end.

End PongGame.

(** * Vocabulary of the properties *)

(** The paddle lies within a screen of height [screen_height]. *)
Definition on_screen (p : Paddle.t) (screen_height : Z) : Prop :=
  (0 <= Paddle.y p /\ Paddle.y p <= inject_Z screen_height - Paddle.height p)%Q.

(** ** Sample objects, on the 800 by 600 screen the game opens with *)

Definition sample_rng : random.Random :=
  random.mkRandom (fun n => (Z.of_nat n * 7919 + 3)%Z) 0.

(** The player's paddle where [initialize_game_objects] puts it. *)
Definition sample_paddle : Paddle.t :=
  Paddle.init 30 250 15 100 GameConfig.COLOR_WHITE 7.

(** The ball at home, at the speed of the Easy level. *)
Definition sample_ball : Ball.t :=
  Ball.init 400 300 8 GameConfig.COLOR_WHITE (35 # 10).

(** A paddle at the top of the screen and a ball that touches it just
    below its lower edge, flying left. *)
Definition edge_paddle : Paddle.t :=
  Paddle.init 30 0 15 100 GameConfig.COLOR_WHITE 7.

Definition edge_ball : Ball.t :=
  Ball.set_velocity
    (Ball.set_pos (Ball.init 400 300 8 GameConfig.COLOR_WHITE 5) 50 105)
    (-5) 3.


(** [n] smooth steps toward the target the paddle already has. *)
Fixpoint approach (n : nat) (p : Paddle.t) (smoothing : Q) (screen_height : Z)
    : Paddle.t :=
  match n with
  | O => p
  | S n =>
      approach n
        (Paddle.smooth_move_to p (Paddle.target_y p) smoothing screen_height)
        smoothing screen_height
  end.

(** The direction [update] derives from the pressed keys. *)
Definition player_direction (keys : gset string) : Z :=
  if bool_decide ("up"%string ∈ keys) then -1
  else if bool_decide ("down"%string ∈ keys) then 1
  else 0.

(** The game once Easy has been chosen in the menu of a fresh session. *)
Definition sample_game : PongGame.t :=
  match PongGame.initialize_game_objects (PongGame.init sample_rng) EASY with
  | Py.Ok g => PongGame.set_state g PLAYING
  | Py.Raise _ => PongGame.init sample_rng
  end.


(** The same game with only the down key held. *)
Definition down_key_game : PongGame.t :=
  PongGame.set_keys_pressed sample_game {["down"%string]}.

(** The vertical centre of a paddle, where [update] aims the relaunch. *)
Definition paddle_center (p : Paddle.t) : Q :=
  (Paddle.y p + Paddle.height p / 2)%Q.




(** Both paddles fit the configured screen height. *)
Definition paddles_fit (g : PongGame.t) : Prop :=
  forall p : Paddle.t,
    PongGame.player_paddle g = Some p \/ PongGame.bot_paddle g = Some p ->
    (Paddle.height p
     <= inject_Z (GameConfig.SCREEN_HEIGHT (PongGame.config g)))%Q.

(** Both paddles lie within the configured screen height. *)
Definition paddles_on_screen (g : PongGame.t) : Prop :=
  forall p : Paddle.t,
    PongGame.player_paddle g = Some p \/ PongGame.bot_paddle g = Some p ->
    on_screen p (GameConfig.SCREEN_HEIGHT (PongGame.config g)).

(** ** The session as a labelled transition system *)

(** What the loop of [run] does to the game, one step at a time: handle
    one input event, run one tick, or render. *)
Inductive Step : Set :=
| Input (event : pygame.Event)
| Tick (now : Z)
| Render.

Definition step (g : PongGame.t) (s : Step) : Py.result PongGame.t :=
  match s with
  | Input event => PongGame.handle_event g event
  | Tick now => PongGame.update g now
  | Render => PongGame.render g
  end.

(** The transitions taken along a sequence of steps, and the final game. *)
Fixpoint trace (g : PongGame.t) (steps : list Step)
    : Py.result (list (PongGame.t * Step * PongGame.t) * PongGame.t) :=
  match steps with
  | [] => Py.Ok ([], g)
  | s :: rest =>
      g' ← step g s;
      '(tr, final) ← trace g' rest;
      Py.Ok ((g, s, g') :: tr, final)
  end.

(** The events [handle_input] gets to before a [QUIT]. *)
Fixpoint before_quit (events : list pygame.Event) : list pygame.Event :=
  match events with
  | [] => []
  | pygame.QUIT :: _ => []
  | event :: rest => event :: before_quit rest
  end.

(** The steps of one iteration of [run]. *)
Definition frame_steps (f : PongGame.Frame) : list Step :=
  map Input (before_quit (PongGame.events f))
  ++ [Tick (PongGame.ticks f); Render].

(** A click at [pos] lands on the menu button of [d]. *)
Definition menu_click_selects (g : PongGame.t) (pos : Z * Z) (d : Difficulty)
    : Prop :=
  exists r : pygame.Rect,
    In (r, d) (PongGame.menu_buttons g) /\ pygame.collidepoint r pos = true.

(** The transitions of the session state the specification allows. *)
Definition allowed (g : PongGame.t) (s : Step) (g' : PongGame.t) : Prop :=
  match PongGame.state g with
  | MENU =>
      PongGame.state g' = MENU
      \/ (PongGame.state g' = PLAYING
          /\ exists (pos : Z * Z) (d : Difficulty),
               s = Input (pygame.MOUSEBUTTONDOWN pos)
               /\ menu_click_selects g pos d
               /\ PongGame.current_difficulty g' = Some d)
  | PLAYING =>
      PongGame.state g' = PLAYING
      \/ (PongGame.state g' = GAME_OVER
          /\ (exists now : Z, s = Tick now)
          /\ ScoreManager.check_winner (PongGame.score_manager g') <> None)
      \/ (PongGame.state g' = PAUSED
          /\ s = Input (pygame.KEYDOWN pygame.K_ESCAPE))
  | PAUSED =>
      PongGame.state g' = PAUSED
      \/ (PongGame.state g' = PLAYING
          /\ (s = Input (pygame.KEYDOWN pygame.K_ESCAPE)
              \/ exists pos : Z * Z,
                   s = Input (pygame.MOUSEBUTTONDOWN pos)
                   /\ PongGame.pause_button_hit g "resume" pos = true))
      \/ (PongGame.state g' = MENU
          /\ exists pos : Z * Z,
               s = Input (pygame.MOUSEBUTTONDOWN pos)
               /\ PongGame.pause_button_hit g "new_game" pos = true)
  | GAME_OVER =>
      PongGame.state g' = GAME_OVER
      \/ (PongGame.state g' = MENU
          /\ exists pos : Z * Z,
               s = Input (pygame.MOUSEBUTTONDOWN pos)
               /\ PongGame.play_again_hit g pos = true)
  end.

(** A finished match: the player has won and the game-over screen has
    been rendered. *)
Definition over_game : PongGame.t :=
  let g := PongGame.set_state sample_game GAME_OVER in
  let g := PongGame.set_winner g (Some "Player"%string) in
  PongGame.set_play_again_button g
    (Some (UIRenderer.draw_game_over (PongGame.config g))).

(** The game on the 800 by 600 screen with the player's paddle at 0.4 of
    the screen height. *)
Definition ratio_game : PongGame.t :=
  PongGame.set_player_paddle sample_game
    (option_map (fun p => Paddle.set_y p 240) (PongGame.player_paddle sample_game)).

(** ** The states the game can be in *)

(** What holds of every game the loop reaches from [PongGame.init]: the
    configuration was resolved from some window size; a match in play or
    paused has its entities; the ball's home abscissa and base speed are
    positive; the controller can draw a delay; and a post-score wait
    knows who scored. *)
Definition well_formed (g : PongGame.t) : Prop :=
  (exists (c : GameConfig.t) (width height : Z),
      PongGame.config g = GameConfig.update_screen_size c width height)
  /\ (PongGame.state g = PLAYING \/ PongGame.state g = PAUSED ->
      exists (pp bp : Paddle.t) (bc : BotController.t) (b : Ball.t),
        PongGame.player_paddle g = Some pp
        /\ PongGame.bot_paddle g = Some bp
        /\ PongGame.bot_controller g = Some bc
        /\ PongGame.ball g = Some b)
  /\ (forall b : Ball.t,
        PongGame.ball g = Some b ->
        (0 < Ball.initial_x b /\ 0 < Ball.base_speed b)%Q)
  /\ (forall bc : BotController.t,
        PongGame.bot_controller g = Some bc ->
        0 <= BotController.max_reaction_delay bc)
  /\ (PongGame.waiting_for_reset g = true ->
      PongGame.last_scorer g = Some "bot"%string
      \/ PongGame.last_scorer g = Some "player"%string).

(** ** Sessions *)

(** An event other than a resize of the window. *)
Definition no_resize (event : pygame.Event) : Prop :=
  match event with
  | pygame.VIDEORESIZE _ _ => False
  | _ => True
  end.

(** A session in which the window is never resized. *)
Definition no_resizes (frames : list PongGame.Frame) : Prop :=
  Forall (fun f => Forall no_resize (PongGame.events f)) frames.

(** A session that reaches the post-score wait in three frames: the menu
    is shown; Easy is clicked; the window is dragged out and back, which
    arrives as one batch of resize events, nine at 1600 by 1200 and one
    at 800 by 600.  Each of the nine doubles the ball's velocity, and
    the tick of the third frame, at time 33, carries the ball past the
    right edge: the player scores. *)
Definition scoring_session : list PongGame.Frame :=
  [PongGame.mkFrame [] 0;
   PongGame.mkFrame [pygame.MOUSEBUTTONDOWN (400, 350)] 16;
   PongGame.mkFrame
     (repeat (pygame.VIDEORESIZE 1600 1200) 9 ++ [pygame.VIDEORESIZE 800 600])
     33].

(** The same session with a fourth frame, at time 50, in which the
    window is resized during the wait. *)
Definition resized_in_wait (ew eh : Z) : list PongGame.Frame :=
  scoring_session ++ [PongGame.mkFrame [pygame.VIDEORESIZE ew eh] 50].




(** The home and the base speed of a ball never change in play. *)
Definition same_ball_constants (b b' : Ball.t) : Prop :=
  Ball.initial_x b' = Ball.initial_x b
  /\ Ball.initial_y b' = Ball.initial_y b
  /\ Ball.base_speed b' = Ball.base_speed b
  /\ Ball.radius b' = Ball.radius b.


(** ** Vocabulary of the further properties *)

(** The name [handle_input] files a movement key under. *)
Definition key_name (key : pygame.Key) : gset string :=
  match key with
  | pygame.K_w | pygame.K_UP => {["up"%string]}
  | pygame.K_s | pygame.K_DOWN => {["down"%string]}
  | _ => ∅
  end.

(** The rectangle lies within a screen of the given size. *)
Definition rect_on_screen (r : pygame.Rect) (width height : Z) : Prop :=
  (0 <= pygame.left r /\ pygame.left r + pygame.w r <= width
   /\ 0 <= pygame.top r /\ pygame.top r + pygame.h r <= height
   /\ 0 < pygame.w r /\ 0 < pygame.h r)%Z.

(** The scores a session state goes with: in a match in play or paused
    no side has reached the winning score; when the match is over
    exactly one side has, and it is the winner shown. *)
Definition match_scores (g : PongGame.t) : Prop :=
  let s := PongGame.score_manager g in
  let player := ScoreManager.player_score s in
  let bot := ScoreManager.bot_score s in
  let goal := ScoreManager.winning_score s in
  (goal = GameConfig.WINNING_SCORE /\ 0 <= player <= goal /\ 0 <= bot <= goal
   /\ match PongGame.state g with
      | PLAYING | PAUSED => player < goal /\ bot < goal
      | GAME_OVER =>
          (player = goal /\ bot < goal
           /\ PongGame.winner g = Some "Player"%string)
          \/ (bot = goal /\ player < goal
              /\ PongGame.winner g = Some "Bot"%string)
      | MENU => True
      end)%Z.

(** A resize event carries a window of positive size. *)
Definition resize_positive (event : pygame.Event) : Prop :=
  match event with
  | pygame.VIDEORESIZE ew eh => (0 < ew /\ 0 < eh)%Z
  | _ => True
  end.

(** The levels in the order the menu lists them. *)
Definition level (d : Difficulty) : Z :=
  match d with VERY_EASY => 0 | EASY => 1 | MEDIUM => 2 | HARD => 3 end.

(** * Properties *)

Local Open Scope Q_scope.

(** ** Comparisons and division of the Python layer *)

Lemma lt_true (a b : Q) : Py.lt a b = true <-> a < b.
Proof.
  unfold Py.lt. rewrite negb_true_iff. split; intros H.
  - apply Qnot_le_lt. intros Hle. apply Qle_bool_iff in Hle. congruence.
  - destruct (Qle_bool b a) eqn:E; [|reflexivity].
    apply Qle_bool_iff in E. exfalso. apply (Qlt_not_le _ _ H E).
Qed.

Lemma lt_false (a b : Q) : Py.lt a b = false <-> b <= a.
Proof.
  unfold Py.lt. rewrite negb_false_iff. apply Qle_bool_iff.
Qed.

Lemma le_true (a b : Q) : Py.le a b = true <-> a <= b.
Proof. apply Qle_bool_iff. Qed.

Lemma le_false (a b : Q) : Py.le a b = false <-> b < a.
Proof.
  unfold Py.le. split; intros H.
  - apply Qnot_le_lt. intros Hle. apply Qle_bool_iff in Hle. congruence.
  - destruct (Qle_bool a b) eqn:E; [|reflexivity].
    apply Qle_bool_iff in E. exfalso. apply (Qlt_not_le _ _ H E).
Qed.

(** Case analysis on [a < b], leaving the order fact. *)
Ltac py_cmp a b :=
  let E := fresh "E" in
  destruct (Py.lt a b) eqn:E; [ apply lt_true in E | apply lt_false in E ].

Lemma truediv_ok (a b : Q) : ~ b == 0 -> Py.truediv a b = Py.Ok (a / b).
Proof.
  intros Hb. unfold Py.truediv.
  destruct (Qeq_bool b 0) eqn:E; [|reflexivity].
  apply Qeq_bool_iff in E. contradiction.
Qed.

Lemma truediv_raises (a b : Q) :
  b == 0 -> Py.truediv a b = Py.Raise Py.ZeroDivisionError.
Proof.
  intros Hb. unfold Py.truediv.
  apply Qeq_bool_iff in Hb. now rewrite Hb.
Qed.

Lemma truediv_inv (a b q : Q) :
  Py.truediv a b = Py.Ok q -> ~ b == 0 /\ q = a / b.
Proof.
  unfold Py.truediv. destruct (Qeq_bool b 0) eqn:E; [discriminate|].
  intros [= <-]. split; [|reflexivity].
  intros Hb. apply Qeq_bool_iff in Hb. congruence.
Qed.

Lemma bind_ok {A B : Type} (m : Py.result A) (k : A -> Py.result B) (b : B) :
  m ≫= k = Py.Ok b -> exists a, m = Py.Ok a /\ k a = Py.Ok b.
Proof.
  destruct m as [a|e]; cbn; [eauto|discriminate].
Qed.

Lemma attr_ok {A : Type} (o : option A) (a : A) :
  Py.attr o = Py.Ok a -> o = Some a.
Proof. destruct o; cbn; congruence. Qed.

(** Peel the binds of a computation known to return. *)
Ltac peel H :=
  repeat
    (let a := fresh "v" in
     let E := fresh "E" in
     apply bind_ok in H as (a & E & H);
     try apply attr_ok in E;
     repeat match type of H with
            | context [let '(_, _) := ?p in _] => destruct p
            | (match ?p with (_, _) => _ end) = _ => destruct p
            end;
     cbv beta in H).

(** ** The generator *)

Lemma random_unit (r : random.Random) :
  0 <= fst (random.random r) /\ fst (random.random r) < 1.
Proof.
  unfold random.random, random.next. cbn [fst].
  pose proof (Z.mod_pos_bound (random.entropy r (random.cursor r)) (2 ^ 53)
                ltac:(reflexivity)) as [Hlo Hhi].
  unfold Qle, Qlt. cbn [Qnum Qden].
  change (Z.pos (2 ^ 53)) with (2 ^ 53)%Z. lia.
Qed.


(** Every value of the range is drawn for some state of the generator. *)
Lemma randint_onto (a b k : Z) :
  (a <= k <= b)%Z ->
  exists r r', random.randint a b r = Py.Ok (k, r').
Proof.
  intros Hk. exists (random.mkRandom (fun _ => (k - a)%Z) 0). eexists.
  unfold random.randint, random.randbelow, random.next. cbn.
  destruct (Z.leb_spec (b + 1 - a) 0) as [|Hw]; [lia|].
  rewrite Z.mod_small by lia. f_equal. f_equal. lia.
Qed.


Lemma choice2_sign (r : random.Random) :
  fst (random.choice2 (-1) 1 r) = (-1)%Z \/ fst (random.choice2 (-1) 1 r) = 1%Z.
Proof.
  unfold random.choice2, random.randbelow, random.next. cbn [fst].
  destruct (_ =? 0)%Z; auto.
Qed.

Lemma uniform_range (a b : Q) (r : random.Random) :
  a <= b ->
  a <= fst (random.uniform a b r) /\ fst (random.uniform a b r) <= b.
Proof.
  intros Hab. unfold random.uniform.
  pose proof (random_unit r) as [Hlo Hhi].
  destruct (random.random r) as [u r']. cbn [fst] in *.
  assert (0 <= (b - a) * u) by (apply Qmult_le_0_compat; lra).
  assert (0 <= (b - a) * (1 - u)) by (apply Qmult_le_0_compat; lra).
  lra.
Qed.

(** ** Paddle *)

(** Reading a field of a ball or a paddle that was just written. *)
Ltac fields :=
  cbn [Ball.set_pos Ball.set_velocity Ball.x Ball.y Ball.width Ball.height
       Ball.color Ball.radius Ball.base_speed Ball.velocity_x Ball.velocity_y
       Ball.initial_x Ball.initial_y
       Paddle.set_y Paddle.set_velocity Paddle.set_target_y Paddle.x Paddle.y
       Paddle.width Paddle.height Paddle.color Paddle.speed Paddle.velocity
       Paddle.target_y] in *.

(** Both boundary checks leave the paddle on screen once it fits. *)
Lemma boundary_check_on_screen (p : Paddle.t) (screen_height : Z) :
  Paddle.height p <= inject_Z screen_height ->
  on_screen
    (if Py.lt (Paddle.y p) 0 then Paddle.set_y p 0
     else if Py.lt (inject_Z screen_height) (Paddle.y p + Paddle.height p)
          then Paddle.set_y p (inject_Z screen_height - Paddle.height p)
          else p)
    screen_height.
Proof.
  intros Hfit. unfold on_screen.
  py_cmp (Paddle.y p) 0; [cbn; lra|].
  py_cmp (inject_Z screen_height) (Paddle.y p + Paddle.height p); cbn; lra.
Qed.

Lemma move_on_screen (p : Paddle.t) (direction screen_height : Z) :
  Paddle.height p <= inject_Z screen_height ->
  on_screen (Paddle.move p direction screen_height) screen_height.
Proof.
  intros Hfit. unfold Paddle.move.
  apply boundary_check_on_screen. exact Hfit.
Qed.

Lemma smooth_move_to_on_screen (p : Paddle.t) (target smoothing : Q)
    (screen_height : Z) :
  Paddle.height p <= inject_Z screen_height ->
  on_screen (Paddle.smooth_move_to p target smoothing screen_height) screen_height.
Proof.
  intros Hfit. unfold Paddle.smooth_move_to.
  apply boundary_check_on_screen. exact Hfit.
Qed.

Lemma move_height (p : Paddle.t) (direction screen_height : Z) :
  Paddle.height (Paddle.move p direction screen_height) = Paddle.height p.
Proof.
  unfold Paddle.move. cbv zeta.
  repeat match goal with |- context [if ?c then _ else _] => destruct c end;
    reflexivity.
Qed.

Lemma smooth_move_to_height (p : Paddle.t) (target smoothing : Q)
    (screen_height : Z) :
  Paddle.height (Paddle.smooth_move_to p target smoothing screen_height)
  = Paddle.height p.
Proof.
  unfold Paddle.smooth_move_to. cbv zeta.
  repeat match goal with |- context [if ?c then _ else _] => destruct c end;
    reflexivity.
Qed.

Lemma smooth_move_to_target (p : Paddle.t) (target smoothing : Q)
    (screen_height : Z) :
  Paddle.target_y (Paddle.smooth_move_to p target smoothing screen_height)
  = target.
Proof.
  unfold Paddle.smooth_move_to. cbv zeta.
  repeat match goal with |- context [if ?c then _ else _] => destruct c end;
    reflexivity.
Qed.

(** One smooth step, before and after the boundary check. *)
Lemma smooth_step (p : Paddle.t) (target s : Q) (screen_height : Z) :
  0 <= s -> s <= 1 -> on_screen p screen_height ->
  let p' := Paddle.smooth_move_to p target s screen_height in
  (Paddle.y p <= target ->
   Paddle.y p <= Paddle.y p' /\ Paddle.y p' <= target
   /\ Paddle.y p' <= Paddle.y p + (target - Paddle.y p) * s)
  /\ (target <= Paddle.y p ->
      target <= Paddle.y p' /\ Paddle.y p' <= Paddle.y p
      /\ Paddle.y p + (target - Paddle.y p) * s <= Paddle.y p')
  /\ (0 <= target -> target <= inject_Z screen_height - Paddle.height p ->
      Paddle.y p' == Paddle.y p + (target - Paddle.y p) * s).
Proof.
  intros Hs0 Hs1 [Hlo Hhi]. unfold Paddle.smooth_move_to. cbv zeta. fields.
  set (y := Paddle.y p) in *. set (h := Paddle.height p) in *.
  set (d := (target - y) * s).
  assert (Hup : y <= target -> 0 <= d /\ d <= target - y).
  { intros Hle. subst d.
    assert (0 <= (target - y) * s) by (apply Qmult_le_0_compat; lra).
    assert (0 <= (target - y) * (1 - s)) by (apply Qmult_le_0_compat; lra).
    lra. }
  assert (Hdown : target <= y -> d <= 0 /\ target - y <= d).
  { intros Hle. subst d.
    assert (0 <= (y - target) * s) by (apply Qmult_le_0_compat; lra).
    assert (0 <= (y - target) * (1 - s)) by (apply Qmult_le_0_compat; lra).
    lra. }
  clearbody d.
  py_cmp (y + d) 0; fields;
    [|py_cmp (inject_Z screen_height) (y + d + h); fields];
    (split; [|split]); intros;
    try (destruct (Hup ltac:(assumption)));
    try (destruct (Hdown ltac:(assumption)));
    try (destruct (Qlt_le_dec y target) as [Hlt|Hge];
         [destruct (Hup ltac:(lra)) | destruct (Hdown Hge)]);
    repeat split; lra.
Qed.

(** ** Ball *)

(** C10. [Ball.move] leaves [velocity_x], [radius], [base_speed],
    [initial_x] and [initial_y] as they were and advances [x] by exactly
    [velocity_x], whatever the screen dimensions; only [y] and
    [velocity_y] can change besides. *)
Theorem ball_move_frame :
  forall (b : Ball.t) (screen_width screen_height : Z),
    let b' := Ball.move b screen_width screen_height in
    Ball.velocity_x b' = Ball.velocity_x b
    /\ Ball.radius b' = Ball.radius b
    /\ Ball.base_speed b' = Ball.base_speed b
    /\ Ball.initial_x b' = Ball.initial_x b
    /\ Ball.initial_y b' = Ball.initial_y b
    /\ Ball.x b' = Ball.x b + Ball.velocity_x b
    /\ Ball.width b' = Ball.width b
    /\ Ball.height b' = Ball.height b
    /\ Ball.color b' = Ball.color b.
Proof.
  intros b screen_width screen_height. unfold Ball.move. cbv zeta.
  repeat match goal with |- context [if ?c then _ else _] => destruct c end;
    cbn; repeat split; reflexivity.
Qed.

Lemma move_keeps (b : Ball.t) (screen_width screen_height : Z) :
  same_ball_constants b (Ball.move b screen_width screen_height).
Proof.
  unfold Ball.move, same_ball_constants. cbv zeta.
  repeat match goal with |- context [if ?c then _ else _] => destruct c end;
    cbn; auto.
Qed.

Lemma bounce_keeps (b b' : Ball.t) (p : Paddle.t) :
  Ball.bounce_off_paddle b p = Py.Ok b' -> same_ball_constants b b'.
Proof.
  unfold Ball.bounce_off_paddle, same_ball_constants. intros H. peel H.
  injection H as <-. cbn. auto.
Qed.

Lemma maybe_bounce_keeps (c : bool) (b b' : Ball.t) (p : Paddle.t) :
  (if c then Ball.bounce_off_paddle b p else Py.Ok b) = Py.Ok b' ->
  same_ball_constants b b'.
Proof.
  destruct c.
  - apply bounce_keeps.
  - intros [= <-]. unfold same_ball_constants. auto.
Qed.

Lemma reset_position_keeps (b b' : Ball.t) (direction : Z)
    (target_y : option Q) (rng rng' : random.Random) :
  Ball.reset_position b direction target_y rng = Py.Ok (b', rng') ->
  same_ball_constants b b'.
Proof.
  unfold Ball.reset_position, same_ball_constants. cbv zeta.
  destruct (if (direction =? 0)%Z then _ else _) as [d rng1].
  destruct target_y as [target|].
  - intros H. peel H. injection H as <- <-. cbn. auto.
  - destruct (random.choice2 _ _ rng1) as [s rng2].
    destruct (random.uniform _ _ rng2) as [u rng3].
    intros [= <- <-]. cbn. auto.
Qed.

Lemma same_ball_constants_trans (a b c : Ball.t) :
  same_ball_constants a b -> same_ball_constants b c -> same_ball_constants a c.
Proof.
  unfold same_ball_constants. intros (? & ? & ? & ?) (? & ? & ? & ?).
  repeat split; congruence.
Qed.

(** The direction [reset_position] launches in: the one asked for, or a
    drawn one when it is 0; with the generator afterwards. *)
Lemma reset_position_direction (direction : Z) (rng : random.Random) :
  (direction = -1 \/ direction = 0 \/ direction = 1)%Z ->
  let d := fst (if (direction =? 0)%Z then random.choice2 (-1) 1 rng
                else (direction, rng)) in
  (d = -1 \/ d = 1)%Z.
Proof.
  intros [-> | [-> | ->]]; cbn; auto.
  apply choice2_sign.
Qed.

Lemma Qabs_times_sign (s : Q) (d : Z) :
  (d = -1 \/ d = 1)%Z -> Qabs (s * inject_Z d) == Qabs s.
Proof.
  intros [-> | ->].
  - assert (E : s * inject_Z (-1) == - s) by ring.
    rewrite E. apply Qabs_opp.
  - assert (E : s * inject_Z 1 == s) by ring.
    rewrite E. reflexivity.
Qed.

(** The divisor of the aimed launch is the distance from home to the
    edge the ball flies to: [|initial_x|] either way. *)
Lemma edge_distance (ix : Q) (d : Z) :
  Qabs (ix - (if (d <? 0)%Z then 0 else ix * 2)) == Qabs ix.
Proof.
  destruct (d <? 0)%Z.
  - assert (E : ix - 0 == ix) by ring. rewrite E. reflexivity.
  - assert (E : ix - ix * 2 == - ix) by ring. rewrite E. apply Qabs_opp.
Qed.

Lemma Qabs_zero_iff (q : Q) : Qabs q == 0 <-> q == 0.
Proof.
  split; intros H.
  - revert H. apply Qabs_case; intros; lra.
  - rewrite H. reflexivity.
Qed.

(** An aimed launch, to the left or to the right. *)
Lemma reset_position_aimed (b : Ball.t) (d : Z) (target : Q)
    (rng : random.Random) :
  (d = -1 \/ d = 1)%Z ->
  ~ Ball.initial_x b == 0 ->
  exists b' : Ball.t,
    Ball.reset_position b d (Some target) rng = Py.Ok (b', rng)
    /\ Ball.x b' = Ball.initial_x b
    /\ Ball.y b' = Ball.initial_y b
    /\ Ball.velocity_x b' = Ball.base_speed b * inject_Z d
    /\ Ball.velocity_y b'
       == (target - Ball.initial_y b) / Qabs (Ball.initial_x b)
          * Ball.base_speed b * (6 # 10)
    /\ Ball.initial_x b' = Ball.initial_x b
    /\ Ball.initial_y b' = Ball.initial_y b
    /\ Ball.base_speed b' = Ball.base_speed b
    /\ Ball.radius b' = Ball.radius b.
Proof.
  intros Hd Hix. unfold Ball.reset_position.
  replace (d =? 0)%Z with false by (destruct Hd as [-> | ->]; reflexivity).
  cbv zeta. fields.
  rewrite truediv_ok by (rewrite edge_distance, Qabs_zero_iff; exact Hix).
  cbn [mbind result_bind Py.bind]. eexists. split; [reflexivity|]. fields.
  repeat split; try reflexivity.
  rewrite edge_distance. reflexivity.
Qed.

(** C6. A call of [Ball.reset_position] with direction -1, 0 or 1 (0:
    the direction is drawn) leaves the ball at its home position with
    [|velocity_x| == |base_speed|], that is [|velocity_x| == base_speed]
    for a base speed that is not negative.  The call returns unless it is
    aimed ([target_y] given) from a home abscissa of 0, where the aim
    divides by zero. *)
Theorem reset_position_home_and_speed :
  forall (b : Ball.t) (direction : Z) (target_y : option Q)
         (rng : random.Random),
    (direction = -1 \/ direction = 0 \/ direction = 1)%Z ->
    (forall b' rng',
        Ball.reset_position b direction target_y rng = Py.Ok (b', rng') ->
        Ball.x b' = Ball.initial_x b' /\ Ball.y b' = Ball.initial_y b'
        /\ Qabs (Ball.velocity_x b') == Qabs (Ball.base_speed b')
        /\ (0 <= Ball.base_speed b' ->
            Qabs (Ball.velocity_x b') == Ball.base_speed b')
        /\ Ball.initial_x b' = Ball.initial_x b
        /\ Ball.initial_y b' = Ball.initial_y b
        /\ Ball.base_speed b' = Ball.base_speed b)
    /\ ((target_y = None \/ ~ Ball.initial_x b == 0) ->
        exists b' rng',
          Ball.reset_position b direction target_y rng = Py.Ok (b', rng')).
Proof.
  intros b direction target_y rng Hdir.
  pose proof (reset_position_direction direction rng Hdir) as Hd.
  unfold Ball.reset_position. cbv zeta in *.
  destruct (if (direction =? 0)%Z then random.choice2 (-1) 1 rng
            else (direction, rng)) as [d rng1].
  cbn [fst] in Hd.
  pose proof (Qabs_times_sign (Ball.base_speed b) d Hd) as Hvx.
  assert (Hpos : 0 <= Ball.base_speed b ->
                 Qabs (Ball.base_speed b * inject_Z d) == Ball.base_speed b).
  { intros Hs. rewrite Hvx. apply Qabs_pos. exact Hs. }
  destruct target_y as [target|].
  - fields. split.
    + intros b' rng'.
      destruct (Py.truediv _ _) as [r|e] eqn:Ediv; cbn; [|discriminate].
      intros [= <- <-]. cbn. repeat split; try reflexivity; assumption.
    + intros [Hnone | Hix]; [discriminate|].
      rewrite truediv_ok.
      * cbn. eauto.
      * rewrite edge_distance. rewrite Qabs_zero_iff. exact Hix.
  - destruct (random.choice2 (-1) 1 rng1) as [s rng2].
    destruct (random.uniform (5 # 10) 1 rng2) as [u rng3].
    split.
    + intros b' rng' [= <- <-]. cbn. repeat split; try reflexivity; assumption.
    + intros _. eauto.
Qed.

(** Witness: the ball of the Easy level, aimed left at y = 250. *)
Lemma reset_position_home_and_speed_witness :
  exists b' rng',
    Ball.reset_position sample_ball (-1) (Some 250) sample_rng = Py.Ok (b', rng')
    /\ Ball.x b' = Ball.initial_x b' /\ Ball.y b' = Ball.initial_y b'
    /\ Qabs (Ball.velocity_x b') == 35 # 10.
Proof.
  destruct (reset_position_home_and_speed sample_ball (-1) (Some 250) sample_rng)
    as [Hpost Hreturns].
  - left. reflexivity.
  - destruct Hreturns as (b' & rng' & E).
    + right. cbn. lra.
    + exists b', rng'. split; [exact E|].
      apply Hpost in E as (Hx & Hy & _ & Hvx & _ & _ & Hbs).
      split; [exact Hx|]. split; [exact Hy|].
      rewrite Hvx; rewrite Hbs; cbn; [reflexivity | lra].
Defined.

(** A rectangle that collides has sides that are not 0. *)
Lemma colliderect_sizes (a b : pygame.Rect) :
  pygame.colliderect a b = true -> pygame.h b <> 0%Z.
Proof.
  unfold pygame.colliderect.
  destruct (pygame.w a =? 0)%Z, (pygame.h a =? 0)%Z, (pygame.w b =? 0)%Z;
    cbn; try discriminate.
  destruct (Z.eqb_spec (pygame.h b) 0); [discriminate|auto].
Qed.

Lemma int_zero (q : Q) : q == 0 -> Py.int q = 0%Z.
Proof.
  unfold Qeq, Py.int. cbn. intros H.
  replace (Qnum q) with 0%Z by lia. reflexivity.
Qed.

Lemma collision_height (b : Ball.t) (p : Paddle.t) :
  Ball.check_paddle_collision b p = true -> ~ Paddle.height p == 0.
Proof.
  unfold Ball.check_paddle_collision. intros H Hz.
  apply colliderect_sizes in H. apply H.
  unfold Paddle.get_rect, pygame.Rect_of. cbn. apply int_zero. exact Hz.
Qed.

Lemma bounce_after_collision (b : Ball.t) (p : Paddle.t) :
  Ball.check_paddle_collision b p = true ->
  exists b', Ball.bounce_off_paddle b p = Py.Ok b'.
Proof.
  intros Hcol. pose proof (collision_height b p Hcol) as Hh.
  unfold Ball.bounce_off_paddle. cbv zeta. rewrite truediv_ok.
  - cbn. eauto.
  - intros E. apply Hh.
    assert (E2 : Paddle.height p == Paddle.height p / 2 * 2) by field.
    rewrite E2, E. ring.
Qed.

(** The hit position stays within [-1, 1] for a ball whose centre is
    level with the paddle. *)
Lemma hit_pos_bound (y py h : Q) :
  0 < h -> py <= y -> y <= py + h ->
  -1 <= (y - (py + h / 2)) / (h / 2) /\ (y - (py + h / 2)) / (h / 2) <= 1.
Proof.
  intros Hh Hlo Hhi.
  assert (Hk : h == 2 * (h / 2)) by field.
  generalize dependent (h / 2). intros k Hk.
  assert (Hhalf : 0 < k) by lra.
  split.
  - apply Qle_shift_div_l; [exact Hhalf|]. lra.
  - apply Qle_shift_div_r; [exact Hhalf|]. lra.
Qed.

Lemma scaled_hit_bound (hit s : Q) :
  -1 <= hit -> hit <= 1 -> 0 <= s ->
  Qabs (hit * s * (8 # 10)) <= (8 # 10) * s.
Proof.
  intros Hlo Hhi Hs.
  assert (H1 : 0 <= (1 - hit) * s) by (apply Qmult_le_0_compat; lra).
  assert (H2 : 0 <= (1 + hit) * s) by (apply Qmult_le_0_compat; lra).
  apply Qabs_case; intros _; lra.
Qed.

(** C2, the bound as claimed fails: the ball's square overlaps the paddle
    while its centre is 5 below the paddle's lower edge, the hit position
    is 1.1 and the new vertical velocity 4.4, above 0.8 * 5. *)
Lemma bounce_below_edge_exceeds_bound :
  Ball.check_paddle_collision edge_ball edge_paddle = true
  /\ ~ Ball.velocity_x edge_ball == 0
  /\ exists b',
       Ball.bounce_off_paddle edge_ball edge_paddle = Py.Ok b'
       /\ Ball.velocity_y b' == 44 # 10
       /\ (8 # 10) * Ball.base_speed edge_ball < Qabs (Ball.velocity_y b').
Proof.
  split; [reflexivity|]. split; [cbn; lra|].
  eexists. split; [reflexivity|]. split; vm_compute; reflexivity.
Qed.

(** C2, as the code has it. When the ball collides with the paddle and
    [velocity_x] is not 0, [bounce_off_paddle] returns, the sign of
    [velocity_x] flips, and [velocity_y] is
    [((y - paddleCenterY) / (paddleHeight / 2)) * baseSpeed * 0.8]
    whatever the incoming vertical velocity was.  The bound
    [|velocity_y| <= 0.8 * baseSpeed] holds when the ball's centre is
    level with the paddle ([paddle.y <= y <= paddle.y + height]) and the
    base speed is not negative. *)
Theorem bounce_off_paddle_response :
  forall (b : Ball.t) (p : Paddle.t),
    Ball.check_paddle_collision b p = true ->
    ~ Ball.velocity_x b == 0 ->
    exists b',
      Ball.bounce_off_paddle b p = Py.Ok b'
      /\ Ball.velocity_x b' == - Ball.velocity_x b
      /\ (0 < Ball.velocity_x b -> Ball.velocity_x b' < 0)
      /\ (Ball.velocity_x b < 0 -> 0 < Ball.velocity_x b')
      /\ Ball.velocity_y b'
         == ((Ball.y b - (Paddle.y p + Paddle.height p / 2))
             / (Paddle.height p / 2)) * Ball.base_speed b * (8 # 10)
      /\ (forall vy : Q,
            Ball.bounce_off_paddle
              (Ball.set_velocity b (Ball.velocity_x b) vy) p = Py.Ok b')
      /\ (0 <= Ball.base_speed b ->
          Paddle.y p <= Ball.y b ->
          Ball.y b <= Paddle.y p + Paddle.height p ->
          Qabs (Ball.velocity_y b') <= (8 # 10) * Ball.base_speed b).
Proof.
  intros b p Hcol Hvx.
  pose proof (collision_height b p Hcol) as Hh.
  assert (Hhalf : ~ Paddle.height p / 2 == 0).
  { intros E. apply Hh. 
    assert (E2 : Paddle.height p == Paddle.height p / 2 * 2) by field.
    rewrite E2, E. ring. }
  unfold Ball.bounce_off_paddle. cbv zeta. fields.
  eexists. split.
  { rewrite truediv_ok by exact Hhalf. cbn. reflexivity. }
  fields.
  assert (Hflip : Ball.velocity_x b * (-1 # 1) == - Ball.velocity_x b) by ring.
  split; [exact Hflip|]. split; [intros; lra|]. split; [intros; lra|].
  split; [reflexivity|]. split.
  - intros vy. rewrite truediv_ok by exact Hhalf. reflexivity.
  - intros Hs Hlo Hhi.
    assert (Hpos : 0 < Paddle.height p) by lra.
    destruct (hit_pos_bound _ _ _ Hpos Hlo Hhi).
    apply scaled_hit_bound; assumption.
Qed.

(** Witness: the ball level with the middle of the sample paddle. *)
Lemma bounce_off_paddle_response_witness :
  exists b',
    Ball.bounce_off_paddle
      (Ball.set_velocity (Ball.set_pos sample_ball 50 300) (-5) 3)
      sample_paddle = Py.Ok b'
    /\ Ball.velocity_x b' == 5
    /\ Qabs (Ball.velocity_y b') <= (8 # 10) * (35 # 10).
Proof.
  destruct (bounce_off_paddle_response
              (Ball.set_velocity (Ball.set_pos sample_ball 50 300) (-5) 3)
              sample_paddle)
    as (b' & E & Hvx & _ & _ & _ & _ & Hbound).
  - reflexivity.
  - cbn. lra.
  - exists b'. split; [exact E|]. split.
    + rewrite Hvx. reflexivity.
    + apply Hbound; cbn; lra.
Defined.

(** ** GameConfig *)

(** C8. [update_screen_size] clamps the dimensions to at least 600 by
    400; the resulting configuration depends on the clamped dimensions
    only (not on the configuration it overwrites, nor on the unclamped
    inputs), so resolving again with the same inputs changes nothing; and
    [scale_speed base == base * width / 800] for the resolved width. *)
Theorem config_resolver_contract :
  forall (c : GameConfig.t) (width height : Z),
    let r := GameConfig.update_screen_size c width height in
    GameConfig.SCREEN_WIDTH r = Z.max width 600
    /\ GameConfig.SCREEN_HEIGHT r = Z.max height 400
    /\ (forall (c' : GameConfig.t) (width' height' : Z),
          Z.max width' 600 = Z.max width 600 ->
          Z.max height' 400 = Z.max height 400 ->
          GameConfig.update_screen_size c' width' height' = r)
    /\ GameConfig.update_screen_size r width height = r
    /\ GameConfig.update_screen_size r (GameConfig.SCREEN_WIDTH r)
         (GameConfig.SCREEN_HEIGHT r) = r
    /\ (forall base : Q,
          GameConfig.scale_speed r base
          == base * inject_Z (GameConfig.SCREEN_WIDTH r) / 800).
Proof.
  intros c width height r.
  assert (Hpure : forall (c' : GameConfig.t) (width' height' : Z),
             Z.max width' 600 = Z.max width 600 ->
             Z.max height' 400 = Z.max height 400 ->
             GameConfig.update_screen_size c' width' height' = r).
  { intros c' width' height' Hw Hh. subst r.
    unfold GameConfig.update_screen_size, GameConfig.MIN_WIDTH,
      GameConfig.MIN_HEIGHT. cbv zeta. rewrite Hw, Hh. reflexivity. }
  split; [reflexivity|]. split; [reflexivity|]. split; [exact Hpure|].
  split; [apply Hpure; reflexivity|]. split.
  - apply Hpure; subst r; cbn [GameConfig.update_screen_size
      GameConfig.SCREEN_WIDTH GameConfig.SCREEN_HEIGHT];
      unfold GameConfig.MIN_WIDTH, GameConfig.MIN_HEIGHT; lia.
  - intros base. unfold GameConfig.scale_speed. cbv zeta. field.
Qed.

Lemma int_ratio_bounds (n : Z) (r : Q) :
  (0 <= n)%Z -> 0 <= r -> r <= 1 ->
  (0 <= Py.int (inject_Z n * r) <= n)%Z.
Proof.
  intros Hn Hr0 Hr1. unfold Py.int.
  destruct r as [a d]. unfold Qle in *. cbn in *.
  assert (Ha : (0 <= a)%Z) by lia.
  assert (Had : (a <= Z.pos d)%Z) by lia.
  rewrite Z.quot_div_nonneg by nia.
  split.
  - apply Z.div_pos; nia.
  - apply Z.div_le_upper_bound; nia.
Qed.

Lemma scale_speed_pos (c cfg : GameConfig.t) (width height : Z)
    (d : GameConfig.SettingsKey) (pick : GameConfig.Settings -> Q) :
  cfg = GameConfig.update_screen_size c width height ->
  (pick = GameConfig.ball_speed \/ pick = GameConfig.bot_speed) ->
  0 < GameConfig.scale_speed cfg (pick (GameConfig.get_difficulty_settings cfg d)).
Proof.
  intros -> Hpick. unfold GameConfig.scale_speed. cbv zeta.
  cbn [GameConfig.update_screen_size GameConfig.SCREEN_WIDTH].
  unfold GameConfig.MIN_WIDTH.
  assert (Hw : 0 < inject_Z (Z.max width 600) / 800).
  { apply Qlt_shift_div_l; [reflexivity|].
    assert (E : 0 * 800 == inject_Z 0) by reflexivity. rewrite E.
    rewrite <- Zlt_Qlt. lia. }
  assert (Hs : 0 < pick (GameConfig.get_difficulty_settings
                           (GameConfig.update_screen_size c width height) d)).
  { destruct Hpick as [-> | ->]; destruct d as [[]|[]|]; reflexivity. }
  apply Qmult_lt_0_compat; assumption.
Qed.

Lemma half_width_pos (c : GameConfig.t) (width height : Z) :
  0 < inject_Z (GameConfig.SCREEN_WIDTH
                  (GameConfig.update_screen_size c width height) / 2).
Proof.
  cbn [GameConfig.update_screen_size GameConfig.SCREEN_WIDTH].
  unfold GameConfig.MIN_WIDTH. change 0 with (inject_Z 0).
  rewrite <- Zlt_Qlt. apply Z.div_str_pos. lia.
Qed.

(** ** BotController *)

Lemma error_range_pos (d : Difficulty) : 0 <= BotController.error_range d.
Proof. destruct d; vm_compute; discriminate. Qed.

Lemma max_delay_pos (d : Difficulty) :
  (0 <= BotController.max_reaction_delay (BotController.init d))%Z.
Proof. destruct d; cbn; lia. Qed.


(** One call while the delay is pending. *)
Lemma update_pending (bc : BotController.t) (p : Paddle.t) (b : Ball.t)
    (screen_height : Z) (rng : random.Random) :
  (0 < BotController.reaction_delay bc)%Z ->
  BotController.update bc p b screen_height rng
  = Py.Ok (BotController.set_reaction_delay bc
             (BotController.reaction_delay bc - 1),
           Paddle.smooth_move_to p (Paddle.target_y p)
             (BotController.smoothing_factor bc) screen_height,
           rng).
Proof.
  intros Hd. unfold BotController.update.
  destruct (Z.ltb_spec 0 (BotController.reaction_delay bc)); [reflexivity|lia].
Qed.


(** One call once the delay has run out: a fresh target, then a fresh
    delay. *)
Lemma update_recompute (bc : BotController.t) (p : Paddle.t) (b : Ball.t)
    (screen_height : Z) (rng : random.Random) :
  (BotController.reaction_delay bc <= 0)%Z ->
  (0 <= BotController.max_reaction_delay bc)%Z ->
  exists (bc' : BotController.t) (p' : Paddle.t) (rng1 rng' : random.Random)
         (e : Q),
    BotController.update bc p b screen_height rng = Py.Ok (bc', p', rng')
    /\ Qabs e <= BotController.error_range (BotController.difficulty bc)
    /\ Paddle.target_y p' == Ball.y b - Paddle.height p / 2 + e
    /\ p' = Paddle.smooth_move_to p (Paddle.target_y p')
              (BotController.smoothing_factor bc) screen_height
    /\ bc' = BotController.set_reaction_delay bc
               (BotController.reaction_delay bc')
    /\ random.randint 0 (BotController.max_reaction_delay bc) rng1
       = Py.Ok (BotController.reaction_delay bc', rng').
Proof.
  intros Hd Hmax. unfold BotController.update.
  destruct (Z.ltb_spec 0 (BotController.reaction_delay bc)); [lia|].
  destruct (random.random rng) as [roll rng1].
  pose proof (error_range_pos (BotController.difficulty bc)) as Her.
  set (er := BotController.error_range (BotController.difficulty bc)) in *.
  assert (Hdraw : forall r, exists k r',
             random.randint 0 (BotController.max_reaction_delay bc) r
             = Py.Ok (k, r')).
  { intros r. unfold random.randint.
    destruct (Z.leb_spec (BotController.max_reaction_delay bc + 1 - 0) 0);
      [lia|].
    destruct (random.randbelow _ r) as [k r']. eauto. }
  destruct (Py.lt (BotController.accuracy bc) roll).
  - pose proof (uniform_range (- er) er rng1 ltac:(lra)) as [Hlo Hhi].
    destruct (random.uniform (- er) er rng1) as [e rng2]. cbn [fst] in *.
    destruct (Hdraw rng2) as (k & rng3 & Ek). rewrite Ek. cbn.
    eexists _, _, rng2, _, e. split; [reflexivity|].
    rewrite smooth_move_to_target. cbn.
    split; [apply Qabs_Qle_condition; split; lra|].
    split; [reflexivity|]. split; [reflexivity|]. split; [reflexivity|].
    exact Ek.
  - destruct (Hdraw rng1) as (k & rng3 & Ek). rewrite Ek. cbn.
    eexists _, _, rng1, _, 0. split; [reflexivity|].
    rewrite smooth_move_to_target. cbn.
    split; [exact Her|].
    split; [ring|]. split; [reflexivity|]. split; [reflexivity|].
    exact Ek.
Qed.

Lemma bot_update_returns (bc : BotController.t) (p : Paddle.t) (b : Ball.t)
    (screen_height : Z) (rng : random.Random) :
  (0 < BotController.reaction_delay bc
   \/ 0 <= BotController.max_reaction_delay bc)%Z ->
  exists (bc' : BotController.t) (p' : Paddle.t) (rng' : random.Random)
         (target : Q),
    BotController.update bc p b screen_height rng = Py.Ok (bc', p', rng')
    /\ p' = Paddle.smooth_move_to p target
              (BotController.smoothing_factor bc) screen_height.
Proof.
  intros Hd.
  destruct (Z.lt_ge_cases 0 (BotController.reaction_delay bc)) as [Hpos|Hzero].
  - rewrite update_pending by exact Hpos. eauto 8.
  - destruct (update_recompute bc p b screen_height rng Hzero ltac:(lia))
      as (bc' & p' & _ & rng' & _ & E & _ & _ & Hp & _).
    eauto 8.
Qed.

(** The paddle a controller hands back is the one it was given, moved
    smoothly toward some target. *)
Lemma bot_update_paddle (bc bc' : BotController.t) (p p' : Paddle.t)
    (b : Ball.t) (screen_height : Z) (rng rng' : random.Random) :
  BotController.update bc p b screen_height rng = Py.Ok (bc', p', rng') ->
  exists target : Q,
    p' = Paddle.smooth_move_to p target
           (BotController.smoothing_factor bc) screen_height.
Proof.
  unfold BotController.update.
  destruct (0 <? BotController.reaction_delay bc)%Z.
  - intros [= <- <- <-]. eauto.
  - destruct (random.random rng) as [roll rng1].
    destruct (Py.lt _ roll).
    + destruct (random.uniform _ _ rng1) as [e rng2].
      intros H. peel H. injection H as <- <- <-. eauto.
    + intros H. peel H. injection H as <- <- <-. eauto.
Qed.

Lemma bot_update_max_delay (bc bc' : BotController.t) (p p' : Paddle.t)
    (b : Ball.t) (screen_height : Z) (rng rng' : random.Random) :
  BotController.update bc p b screen_height rng = Py.Ok (bc', p', rng') ->
  BotController.max_reaction_delay bc' = BotController.max_reaction_delay bc.
Proof.
  unfold BotController.update.
  destruct (0 <? BotController.reaction_delay bc)%Z.
  - intros [= <- <- <-]. reflexivity.
  - destruct (random.random rng) as [roll rng1].
    destruct (Py.lt _ roll).
    + destruct (random.uniform _ _ rng1) as [e rng2].
      intros H. peel H. injection H as <- <- <-. reflexivity.
    + intros H. peel H. injection H as <- <- <-. reflexivity.
Qed.




(** ** PongGame.update *)

(** Reading a field of a game that was just written. *)
Ltac game_fields :=
  cbn [PongGame.set_config PongGame.set_screen PongGame.set_state
       PongGame.set_score_manager PongGame.set_player_paddle
       PongGame.set_bot_paddle PongGame.set_ball PongGame.set_bot_controller
       PongGame.set_keys_pressed PongGame.set_current_difficulty
       PongGame.set_menu_buttons PongGame.set_pause_buttons
       PongGame.set_play_again_button PongGame.set_winner
       PongGame.set_reset_timer PongGame.set_waiting_for_reset
       PongGame.set_last_scorer PongGame.set_rng
       PongGame.config PongGame.screen PongGame.state PongGame.score_manager
       PongGame.player_paddle PongGame.bot_paddle PongGame.ball
       PongGame.bot_controller PongGame.keys_pressed
       PongGame.current_difficulty PongGame.menu_buttons
       PongGame.pause_buttons PongGame.play_again_button PongGame.winner
       PongGame.reset_timer PongGame.waiting_for_reset PongGame.last_scorer
       PongGame.rng] in *.

(** The scoring and winner part of a tick, by cases. *)
Ltac finish_tick H :=
  repeat match type of H with
         | context [if Py.lt ?a ?b then _ else _] =>
             let C := fresh "C" in destruct (Py.lt a b) eqn:C
         end;
  game_fields;
  match type of H with
  | context [ScoreManager.check_winner ?s] =>
      let W := fresh "W" in destruct (ScoreManager.check_winner s) eqn:W
  end;
  injection H as <-; game_fields.

Lemma update_not_playing (g : PongGame.t) (now : Z) :
  PongGame.state g <> PLAYING -> PongGame.update g now = Py.Ok g.
Proof.
  intros Hs. unfold PongGame.update.
  rewrite bool_decide_eq_false_2 by exact Hs. reflexivity.
Qed.

(** What a tick does outside the post-score wait. *)
Lemma update_moving (g g' : PongGame.t) (now : Z) :
  PongGame.state g = PLAYING ->
  PongGame.waiting_for_reset g = false ->
  PongGame.update g now = Py.Ok g' ->
  exists (pp bp bp' : Paddle.t) (bc bc' : BotController.t) (b : Ball.t)
         (rng' : random.Random),
    PongGame.player_paddle g = Some pp
    /\ PongGame.bot_paddle g = Some bp
    /\ PongGame.bot_controller g = Some bc
    /\ PongGame.ball g = Some b
    /\ BotController.update bc bp b
         (GameConfig.SCREEN_HEIGHT (PongGame.config g)) (PongGame.rng g)
       = Py.Ok (bc', bp', rng')
    /\ PongGame.player_paddle g'
       = Some (Paddle.move pp (player_direction (PongGame.keys_pressed g))
                 (GameConfig.SCREEN_HEIGHT (PongGame.config g)))
    /\ PongGame.bot_paddle g' = Some bp'
    /\ PongGame.bot_controller g' = Some bc'
    /\ PongGame.config g' = PongGame.config g
    /\ PongGame.keys_pressed g' = PongGame.keys_pressed g.
Proof.
  intros Hs Hw. unfold PongGame.update. rewrite Hs, Hw.
  cbn [bool_decide decide_rel negb].
  intros H. peel H. finish_tick H;
    eexists _, _, _, _, _, _, _; repeat split; eassumption || reflexivity.
Qed.

(** The ball and the wait flag after a tick outside the post-score wait. *)
Lemma update_moving_ball (g g' : PongGame.t) (now : Z) :
  PongGame.state g = PLAYING ->
  PongGame.waiting_for_reset g = false ->
  PongGame.update g now = Py.Ok g' ->
  exists b b' : Ball.t,
    PongGame.ball g = Some b
    /\ PongGame.ball g' = Some b'
    /\ same_ball_constants b b'
    /\ (PongGame.waiting_for_reset g' = true ->
        PongGame.last_scorer g' = Some "bot"%string
        \/ PongGame.last_scorer g' = Some "player"%string).
Proof.
  intros Hs Hw. unfold PongGame.update. rewrite Hs, Hw.
  cbn [bool_decide decide_rel negb].
  intros H. peel H.
  apply maybe_bounce_keeps in E4, E5.
  pose proof (same_ball_constants_trans _ _ _
                (same_ball_constants_trans _ _ _ (move_keeps v2 _ _) E4) E5)
    as Hk.
  finish_tick H; eexists _, _; (split; [eassumption|]);
    (split; [reflexivity|]); (split; [exact Hk || (destruct Hk as (?&?&?&?);
       unfold same_ball_constants; cbn; auto) |]); auto; congruence.
Qed.

(** The state after a tick outside the post-score wait: Playing, or
    GameOver with a winner reported. *)
Lemma update_moving_state (g g' : PongGame.t) (now : Z) :
  PongGame.state g = PLAYING ->
  PongGame.waiting_for_reset g = false ->
  PongGame.update g now = Py.Ok g' ->
  (PongGame.state g' = PLAYING
   /\ ScoreManager.check_winner (PongGame.score_manager g') = None)
  \/ (PongGame.state g' = GAME_OVER
      /\ PongGame.winner g'
         = ScoreManager.check_winner (PongGame.score_manager g')
      /\ ScoreManager.check_winner (PongGame.score_manager g') <> None).
Proof.
  intros Hs Hw. unfold PongGame.update. rewrite Hs, Hw.
  cbn [bool_decide decide_rel negb].
  intros H. peel H.
  finish_tick H; rewrite ?W; try (left; split; [exact Hs | reflexivity]);
    right; repeat split; discriminate.
Qed.

(** A tick outside the post-score wait returns once the entities exist
    and the controller can draw a delay. *)
Lemma update_returns (g : PongGame.t) (now : Z) (pp bp : Paddle.t)
    (bc : BotController.t) (b : Ball.t) :
  PongGame.state g = PLAYING ->
  PongGame.waiting_for_reset g = false ->
  PongGame.player_paddle g = Some pp ->
  PongGame.bot_paddle g = Some bp ->
  PongGame.bot_controller g = Some bc ->
  PongGame.ball g = Some b ->
  (0 < BotController.reaction_delay bc
   \/ 0 <= BotController.max_reaction_delay bc)%Z ->
  exists g', PongGame.update g now = Py.Ok g'.
Proof.
  intros Hs Hw Hpp Hbp Hbc Hb Hd. unfold PongGame.update.
  rewrite Hs, Hw, Hpp, Hbp, Hbc, Hb. cbn [bool_decide decide_rel negb Py.attr].
  destruct (bot_update_returns bc bp b
              (GameConfig.SCREEN_HEIGHT (PongGame.config g)) (PongGame.rng g) Hd)
    as (bc' & bp' & rng' & target & E & _).
  cbn [mbind result_bind Py.bind]. rewrite E. cbn [mbind result_bind Py.bind].
  match goal with
  | |- context [if ?c then Ball.bounce_off_paddle ?x ?y else _] =>
      destruct c eqn:C1;
      [ apply andb_prop in C1 as [C1 _];
        destruct (bounce_after_collision x y C1) as (b1 & ->)
      | ]
  end; cbn [mbind result_bind Py.bind];
  match goal with
  | |- context [if ?c then Ball.bounce_off_paddle ?x ?y else _] =>
      destruct c eqn:C2;
      [ apply andb_prop in C2 as [C2 _];
        destruct (bounce_after_collision x y C2) as (b2 & ->)
      | ]
  end; cbn [mbind result_bind Py.bind];
  match goal with
  | |- context [ScoreManager.check_winner ?s] =>
      destruct (ScoreManager.check_winner s)
  end; eauto.
Qed.

(** A tick during the post-score wait touches nothing but the ball, the
    generator and the wait flag. *)
Lemma update_waiting (g g' : PongGame.t) (now : Z) :
  PongGame.state g = PLAYING ->
  PongGame.waiting_for_reset g = true ->
  PongGame.update g now = Py.Ok g' ->
  PongGame.player_paddle g' = PongGame.player_paddle g
  /\ PongGame.bot_paddle g' = PongGame.bot_paddle g
  /\ PongGame.config g' = PongGame.config g
  /\ PongGame.state g' = PLAYING
  /\ PongGame.score_manager g' = PongGame.score_manager g.
Proof.
  intros Hs Hw. unfold PongGame.update. rewrite Hs, Hw.
  cbn [bool_decide decide_rel negb].
  destruct (_ <=? _)%Z.
  - intros H. peel H. injection H as <-. game_fields. rewrite Hs. auto.
  - intros [= <-]. rewrite Hs. auto.
Qed.


(** Every tick keeps paddles that fit the screen on it, and a tick that
    moves them puts them there. *)
Lemma tick_paddles (g g' : PongGame.t) (now : Z) :
  paddles_fit g ->
  PongGame.update g now = Py.Ok g' ->
  paddles_fit g'
  /\ (paddles_on_screen g -> paddles_on_screen g')
  /\ (PongGame.state g = PLAYING -> PongGame.waiting_for_reset g = false ->
      paddles_on_screen g').
Proof.
  intros Hfit E.
  destruct (decide (PongGame.state g = PLAYING)) as [Hs|Hs].
  - destruct (PongGame.waiting_for_reset g) eqn:Hw.
    + destruct (update_waiting g g' now Hs Hw E) as (Hpp & Hbp & Hc & _).
      unfold paddles_fit, paddles_on_screen in *.
      rewrite Hpp, Hbp, Hc. split; [exact Hfit|]. split; [auto|].
      intros _ [=].
    + destruct (update_moving g g' now Hs Hw E)
        as (pp & bp & bp' & bc & bc' & b & rng' & Hpp & Hbp & _ & _ & Hbot
            & Hpp' & Hbp' & _ & Hc & _).
      destruct (bot_update_paddle _ _ _ _ _ _ _ _ Hbot) as [target ->].
      assert (Hfit_pp := Hfit pp (or_introl Hpp)).
      assert (Hfit_bp := Hfit bp (or_intror Hbp)).
      assert (Hon : paddles_on_screen g').
      { unfold paddles_on_screen. rewrite Hpp', Hbp', Hc.
        intros p [[= <-] | [= <-]].
        - apply move_on_screen. exact Hfit_pp.
        - apply smooth_move_to_on_screen. exact Hfit_bp. }
      split; [|split; [intros _; exact Hon | intros _ _; exact Hon]].
      unfold paddles_fit. rewrite Hpp', Hbp', Hc.
      intros p [[= <-] | [= <-]].
      * rewrite move_height. exact Hfit_pp.
      * rewrite smooth_move_to_height. exact Hfit_bp.
  - rewrite update_not_playing in E by exact Hs. injection E as <-.
    split; [exact Hfit|]. split; [auto|]. intros; contradiction.
Qed.

(** ** Input events *)

Lemma initialize_state (g g' : PongGame.t) (d : Difficulty) :
  PongGame.initialize_game_objects g d = Py.Ok g' ->
  PongGame.state g' = PongGame.state g
  /\ PongGame.current_difficulty g' = Some d
  /\ PongGame.config g' = PongGame.config g
  /\ PongGame.screen g' = PongGame.screen g.
Proof.
  unfold PongGame.initialize_game_objects. intros H. peel H.
  injection H as <-. game_fields. auto.
Qed.

(** A new match starts with both paddles centred, on the screen. *)
Lemma initialize_paddles (g g' : PongGame.t) (difficulty : Difficulty)
    (c : GameConfig.t) (width height : Z) :
  PongGame.config g = GameConfig.update_screen_size c width height ->
  PongGame.initialize_game_objects g difficulty = Py.Ok g' ->
  paddles_fit g' /\ paddles_on_screen g'.
Proof.
  intros Hc. unfold PongGame.initialize_game_objects.
  intros H. peel H. injection H as <-.
  unfold paddles_fit, paddles_on_screen, on_screen. game_fields.
  rewrite Hc.
  cbn [GameConfig.update_screen_size GameConfig.SCREEN_HEIGHT
       GameConfig.PADDLE_HEIGHT].
  pose proof (int_ratio_bounds (Z.max height GameConfig.MIN_HEIGHT)
                GameConfig.PADDLE_HEIGHT_RATIO) as Hph.
  unfold GameConfig.MIN_HEIGHT in *.
  destruct Hph as [Hlo Hhi];
    [lia | vm_compute; discriminate | vm_compute; discriminate |].
  set (H := Z.max height 400) in *.
  set (PH := Py.int (inject_Z H * GameConfig.PADDLE_HEIGHT_RATIO)) in *.
  clearbody PH. clearbody H.
  assert (Hy0 : (0 <= H / 2 - PH / 2)%Z).
  { assert (PH / 2 <= H / 2)%Z by (apply Z.div_le_mono; lia). lia. }
  assert (Hy1 : (H / 2 - PH / 2 <= H - PH)%Z).
  { pose proof (Z.div_mod H 2 ltac:(lia)).
    pose proof (Z.mod_pos_bound H 2 ltac:(lia)).
    pose proof (Z.div_mod PH 2 ltac:(lia)).
    pose proof (Z.mod_pos_bound PH 2 ltac:(lia)). lia. }
  assert (Hq0 : 0 <= inject_Z (H / 2 - PH / 2)).
  { change 0 with (inject_Z 0). rewrite <- Zle_Qle. exact Hy0. }
  assert (Hq1 : inject_Z (H / 2 - PH / 2) <= inject_Z H - inject_Z PH).
  { unfold Qle, Qminus, Qplus, Qopp, inject_Z. cbn [Qnum Qden]. lia. }
  split; intros p [[= <-] | [= <-]]; unfold Paddle.init; fields;
    try (rewrite <- Zle_Qle; exact Hhi); split; assumption.
Qed.

Lemma resize_frame (g g' : PongGame.t) :
  PongGame.resize_game_objects g = Py.Ok g' ->
  PongGame.state g' = PongGame.state g
  /\ PongGame.score_manager g' = PongGame.score_manager g
  /\ PongGame.config g' = PongGame.config g
  /\ PongGame.screen g' = PongGame.screen g
  /\ PongGame.menu_buttons g' = PongGame.menu_buttons g
  /\ PongGame.pause_buttons g' = PongGame.pause_buttons g
  /\ PongGame.play_again_button g' = PongGame.play_again_button g
  /\ PongGame.keys_pressed g' = PongGame.keys_pressed g.
Proof.
  unfold PongGame.resize_game_objects.
  destruct (PongGame.player_paddle g), (PongGame.bot_paddle g),
    (PongGame.ball g); try (intros [= <-]; tauto).
  intros H. peel H. injection H as <-. game_fields. tauto.
Qed.

(** What [resize_game_objects] makes of the paddle rows and the ball's
    velocity: each [y] is divided by the height of the display surface,
    which [handle_input] has already replaced by the new one, and
    multiplied by the new configured height; the velocity is multiplied
    by the new scaled speed over the unscaled speed of the settings
    entry it was scaled from. *)
Lemma resize_arithmetic (g g' : PongGame.t) (pp bp : Paddle.t) (b : Ball.t) :
  PongGame.player_paddle g = Some pp ->
  PongGame.bot_paddle g = Some bp ->
  PongGame.ball g = Some b ->
  PongGame.resize_game_objects g = Py.Ok g' ->
  let surface_height := inject_Z (snd (PongGame.screen g)) in
  let height := inject_Z (GameConfig.SCREEN_HEIGHT (PongGame.config g)) in
  let width := inject_Z (GameConfig.SCREEN_WIDTH (PongGame.config g)) in
  exists (pp' bp' : Paddle.t) (b' : Ball.t),
    PongGame.player_paddle g' = Some pp'
    /\ PongGame.bot_paddle g' = Some bp'
    /\ PongGame.ball g' = Some b'
    /\ Paddle.y pp' = Paddle.y pp / surface_height * height
    /\ Paddle.y bp' = Paddle.y bp / surface_height * height
    /\ Ball.velocity_x b' == Ball.velocity_x b * (width / 800)
    /\ Ball.velocity_y b' == Ball.velocity_y b * (width / 800).
Proof.
  intros Hpp Hbp Hb. unfold PongGame.resize_game_objects.
  rewrite Hpp, Hbp, Hb. intros H. peel H. injection H as <-.
  repeat match goal with
         | E : Py.truediv _ _ = Py.Ok _ |- _ =>
             apply truediv_inv in E as [? ->]
         end.
  cbv zeta. game_fields. eexists _, _, _.
  split; [reflexivity|]. split; [reflexivity|]. split; [reflexivity|].
  cbn [Paddle.y Ball.velocity_x Ball.velocity_y].
  split; [reflexivity|]. split; [reflexivity|].
  unfold GameConfig.scale_speed.
  split; field; assumption.
Qed.

(** A resize to a height of at least 400 leaves the player's paddle in
    the pixel row it was in. *)
Lemma resize_keeps_row (g g' : PongGame.t) (pp : Paddle.t) (ew eh : Z) :
  PongGame.state g = PLAYING ->
  PongGame.player_paddle g = Some pp ->
  (400 <= eh)%Z ->
  PongGame.handle_event g (pygame.VIDEORESIZE ew eh) = Py.Ok g' ->
  exists pp' : Paddle.t,
    PongGame.player_paddle g' = Some pp' /\ Paddle.y pp' == Paddle.y pp.
Proof.
  intros Hs Hpp Heh. unfold PongGame.handle_event. intros H.
  apply bind_ok in H as (v & E & H). cbv beta in H. game_fields.
  rewrite Hs, Hpp in E.
  rewrite bool_decide_eq_true_2 in E by reflexivity.
  rewrite bool_decide_eq_true_2 in E by eauto.
  cbn [andb] in E.
  assert (Hv : PongGame.state v = PLAYING).
  { apply resize_frame in E as (Hv & _). rewrite Hv. game_fields. exact Hs. }
  rewrite Hv in H. injection H as <-.
  destruct (PongGame.bot_paddle g) as [bp|] eqn:Hbp;
    [destruct (PongGame.ball g) as [b|] eqn:Hb|].
  - eapply resize_arithmetic in E as (pp' & _ & _ & Hpp' & _ & _ & Hy & _);
      game_fields; try eassumption.
    exists pp'. split; [exact Hpp'|]. rewrite Hy.
    cbn [GameConfig.update_screen_size GameConfig.SCREEN_HEIGHT snd].
    unfold GameConfig.MIN_HEIGHT. rewrite Z.max_l by lia.
    field. intros Hz. unfold Qeq in Hz. cbn in Hz. lia.
  - unfold PongGame.resize_game_objects in E. game_fields.
    rewrite Hpp, Hbp, Hb in E. injection E as <-. game_fields.
    exists pp. split; [exact Hpp | reflexivity].
  - unfold PongGame.resize_game_objects in E. game_fields.
    rewrite Hpp, Hbp in E. injection E as <-. game_fields.
    exists pp. split; [exact Hpp | reflexivity].
Qed.

Lemma click_menu_state (buttons : list (pygame.Rect * Difficulty)) :
  forall (g g' : PongGame.t) (pos : Z * Z),
    PongGame.click_menu g pos buttons = Py.Ok g' ->
    PongGame.state g' = PongGame.state g
    \/ (PongGame.state g' = PLAYING
        /\ exists (r : pygame.Rect) (d : Difficulty),
             In (r, d) buttons /\ pygame.collidepoint r pos = true
             /\ PongGame.current_difficulty g' = Some d).
Proof.
  induction buttons as [|[r d] rest IH]; intros g g' pos; cbn [PongGame.click_menu].
  - intros [= <-]. auto.
  - destruct (pygame.collidepoint r pos) eqn:Hhit.
    + intros H. peel H. injection H as <-. game_fields.
      apply initialize_state in E as (_ & Hd & _).
      right. split; [reflexivity|]. exists r, d. cbn. auto.
    + intros H. destruct (IH _ _ _ H) as [Hs | (Hs & r' & d' & Hin & Hc & Hd)].
      * auto.
      * right. split; [exact Hs|]. exists r', d'. cbn. auto.
Qed.

(** ** The session state machine *)

Lemma allowed_same_state (g g' : PongGame.t) (s : Step) :
  PongGame.state g' = PongGame.state g -> allowed g s g'.
Proof.
  intros Hs. unfold allowed. destruct (PongGame.state g); auto.
Qed.

Lemma handle_event_allowed (g g' : PongGame.t) (event : pygame.Event) :
  PongGame.handle_event g event = Py.Ok g' -> allowed g (Input event) g'.
Proof.
  unfold PongGame.handle_event. intros H.
  apply bind_ok in H as (v & E & H). cbv beta in H.
  destruct event as [|ew eh|pos|key|key|].
  - (* QUIT *)
    injection E as <-. apply allowed_same_state.
    destruct (PongGame.state g) eqn:Hs; injection H as <-; exact Hs.
  - (* VIDEORESIZE *)
    assert (Hs : PongGame.state v = PongGame.state g).
    { destruct (_ && _).
      - apply resize_frame in E as (Hs & _). exact Hs.
      - injection E as <-. reflexivity. }
    apply allowed_same_state. rewrite <- Hs.
    destruct (PongGame.state v) eqn:Hv; injection H as <-; exact Hv.
  - (* MOUSEBUTTONDOWN *)
    injection E as <-. unfold allowed.
    destruct (PongGame.state g) eqn:Hs.
    + apply click_menu_state in H as [H | (H & r & d & Hin & Hc & Hd)].
      * left. congruence.
      * right. split; [exact H|]. exists pos, d. split; [reflexivity|].
        split; [exists r; auto | exact Hd].
    + injection H as <-. auto.
    + destruct (PongGame.pause_button_hit g "resume" pos) eqn:Hr.
      * injection H as <-. right. left. game_fields. eauto.
      * destruct (PongGame.pause_button_hit g "new_game" pos) eqn:Hn;
          injection H as <-; game_fields; [right; right; eauto | auto].
    + destruct (PongGame.play_again_hit g pos) eqn:Hp;
        injection H as <-; game_fields; [right; eauto | auto].
  - (* KEYDOWN *)
    injection E as <-. unfold allowed.
    destruct (PongGame.state g) eqn:Hs.
    + injection H as <-. auto.
    + destruct key; cbn in H; injection H as <-; game_fields; auto.
    + destruct key; cbn in H; injection H as <-; game_fields; auto.
    + injection H as <-. auto.
  - (* KEYUP *)
    injection E as <-. unfold allowed.
    destruct (PongGame.state g) eqn:Hs; try (injection H as <-; auto).
    destruct key; cbn in H; injection H as <-; game_fields; auto.
  - (* other events *)
    injection E as <-. apply allowed_same_state.
    destruct (PongGame.state g) eqn:Hs; injection H as <-; exact Hs.
Qed.

Lemma update_allowed (g g' : PongGame.t) (now : Z) :
  PongGame.update g now = Py.Ok g' -> allowed g (Tick now) g'.
Proof.
  intros E.
  destruct (decide (PongGame.state g = PLAYING)) as [Hs|Hs].
  - unfold allowed. rewrite Hs.
    destruct (PongGame.waiting_for_reset g) eqn:Hw.
    + destruct (update_waiting g g' now Hs Hw E) as (_ & _ & _ & Hs' & _).
      left. exact Hs'.
    + destruct (update_moving_state g g' now Hs Hw E)
        as [[Hs' _] | (Hs' & _ & Hwin)].
      * left. exact Hs'.
      * right. left. split; [exact Hs'|]. split; [eauto | exact Hwin].
  - rewrite update_not_playing in E by exact Hs. injection E as <-.
    apply allowed_same_state. reflexivity.
Qed.

Lemma render_allowed (g g' : PongGame.t) :
  PongGame.render g = Py.Ok g' -> allowed g Render g'.
Proof.
  unfold PongGame.render. intros H. apply allowed_same_state.
  destruct (PongGame.state g) eqn:Hs; peel H; injection H as <-;
    game_fields; exact Hs.
Qed.

Lemma step_allowed (g g' : PongGame.t) (s : Step) :
  step g s = Py.Ok g' -> allowed g s g'.
Proof.
  destruct s as [event|now|]; cbn [step].
  - apply handle_event_allowed.
  - apply update_allowed.
  - apply render_allowed.
Qed.

Lemma trace_allowed (steps : list Step) :
  forall (g final : PongGame.t) (tr : list (PongGame.t * Step * PongGame.t)),
    trace g steps = Py.Ok (tr, final) ->
    Forall (fun '(a, s, b) => allowed a s b) tr.
Proof.
  induction steps as [|s rest IH]; intros g final tr; cbn [trace].
  - intros [= <- _]. constructor.
  - intros H. peel H. injection H as <- <-.
    constructor; [apply step_allowed; assumption | eapply IH; eassumption].
Qed.

Lemma trace_app (l1 l2 : list Step) :
  forall (g g1 g2 : PongGame.t) (tr1 tr2 : list (PongGame.t * Step * PongGame.t)),
    trace g l1 = Py.Ok (tr1, g1) ->
    trace g1 l2 = Py.Ok (tr2, g2) ->
    trace g (l1 ++ l2) = Py.Ok (tr1 ++ tr2, g2).
Proof.
  induction l1 as [|s rest IH]; intros g g1 g2 tr1 tr2; cbn [trace app].
  - intros [= <- <-] H2. exact H2.
  - intros H1 H2. peel H1. injection H1 as <- <-.
    rewrite E. cbn [mbind result_bind Py.bind].
    rewrite (IH _ _ _ _ _ E0 H2). reflexivity.
Qed.

(** [handle_input] is the trace of the events before a [QUIT]. *)
Lemma handle_input_trace (events : list pygame.Event) :
  forall (g g' : PongGame.t) (running : bool),
    PongGame.handle_input g events = Py.Ok (g', running) ->
    exists tr, trace g (map Input (before_quit events)) = Py.Ok (tr, g').
Proof.
  induction events as [|event rest IH]; intros g g' running;
    cbn [PongGame.handle_input before_quit map trace].
  - intros [= <- _]. eauto.
  - destruct event; cbn [map trace step];
      try (intros H; peel H; destruct (IH _ _ _ H) as [tr Htr];
           rewrite E; cbn [mbind result_bind Py.bind]; rewrite Htr;
           cbn [mbind result_bind Py.bind]; eauto).
    intros [= <- _]. eauto.
Qed.

(** One iteration of [run] is the trace of its steps. *)
Lemma frame_trace (g g' : PongGame.t) (f : PongGame.Frame) (running : bool) :
  PongGame.frame g f = Py.Ok (g', running) ->
  exists tr, trace g (frame_steps f) = Py.Ok (tr, g').
Proof.
  unfold PongGame.frame, frame_steps. intros H. peel H.
  injection H as <- <-.
  destruct (handle_input_trace _ _ _ _ E) as [tr1 Htr1].
  eexists. eapply trace_app; [exact Htr1|].
  cbn [trace step]. rewrite E0. cbn [mbind result_bind Py.bind].
  rewrite E1. reflexivity.
Qed.

Lemma run_trace (frames : list PongGame.Frame) :
  forall g g' : PongGame.t,
    PongGame.run g frames = Py.Ok g' ->
    exists steps tr, trace g steps = Py.Ok (tr, g').
Proof.
  induction frames as [|f rest IH]; intros g g'; cbn [PongGame.run].
  - intros [= <-]. exists [], []. reflexivity.
  - intros H. peel H.
    destruct (frame_trace _ _ _ _ E) as [tr1 Htr1].
    match type of H with
    | (if ?c then _ else _) = _ => destruct c
    end.
    + destruct (IH _ _ H) as (steps & tr2 & Htr2).
      eexists _, _. eapply trace_app; eassumption.
    + injection H as <-. eauto.
Qed.

(** ** Well-formed games *)

Lemma init_well_formed (rng : random.Random) : well_formed (PongGame.init rng).
Proof.
  unfold well_formed, PongGame.init. game_fields.
  split; [unfold GameConfig.init; eauto|].
  split; [intros [H | H]; discriminate|].
  split; [discriminate|]. split; [discriminate|]. discriminate.
Qed.

Lemma update_well_formed (g g' : PongGame.t) (now : Z) :
  well_formed g -> PongGame.update g now = Py.Ok g' -> well_formed g'.
Proof.
  intros (Hcfg & Hent & Hball & Hbc & Hscorer) E.
  destruct (decide (PongGame.state g = PLAYING)) as [Hs|Hs];
    [|rewrite update_not_playing in E by exact Hs; injection E as <-;
      repeat apply conj; assumption].
  destruct (PongGame.waiting_for_reset g) eqn:Hw.
  - (* the post-score wait *)
    revert E. unfold PongGame.update. rewrite Hs, Hw.
    cbn [bool_decide decide_rel negb].
    destruct (_ <=? _)%Z;
      [|intros [= <-]; unfold well_formed; rewrite Hw;
        repeat apply conj; assumption].
    intros H. peel H. injection H as <-.
    apply reset_position_keeps in E1 as (Hix & _ & Hbs & _).
    unfold well_formed. game_fields.
    split; [exact Hcfg|]. split.
    { intros Hst. destruct (Hent Hst) as (pp & bp & bc & b & ? & ? & ? & ?).
      eauto 10. }
    split.
    { intros b [= <-]. rewrite Hix, Hbs. apply Hball. assumption. }
    split; [exact Hbc|]. discriminate.
  - (* a moving tick *)
    destruct (update_moving g g' now Hs Hw E)
      as (pp & bp & bp' & bc & bc' & b & rng' & Hpp & Hbp & Hbc0 & Hb & Hbot
          & Hpp' & Hbp' & Hbc' & Hc & _).
    destruct (update_moving_ball g g' now Hs Hw E)
      as (b0 & b' & Hb0 & Hb' & (Hix & _ & Hbs & _) & Hflag).
    unfold well_formed. rewrite Hc, Hpp', Hbp', Hbc', Hb'.
    split; [exact Hcfg|]. split; [eauto 10|]. split.
    { intros ? [= <-]. rewrite Hix, Hbs. apply Hball. assumption. }
    split; [|exact Hflag].
    intros ? [= <-]. rewrite (bot_update_max_delay _ _ _ _ _ _ _ _ Hbot).
    apply Hbc. assumption.
Qed.

Lemma render_well_formed (g g' : PongGame.t) :
  well_formed g -> PongGame.render g = Py.Ok g' -> well_formed g'.
Proof.
  intros Hwf. unfold PongGame.render.
  destruct (PongGame.state g) eqn:Hs; intros H; peel H; injection H as <-;
    unfold well_formed in *; game_fields; rewrite ?Hs in *; exact Hwf.
Qed.

Lemma initialize_well_formed (g g' : PongGame.t) (d : Difficulty) :
  well_formed g ->
  PongGame.initialize_game_objects g d = Py.Ok g' ->
  well_formed (PongGame.set_state g' PLAYING).
Proof.
  intros ((c & width & height & Hcfg) & _) H.
  unfold PongGame.initialize_game_objects in H. peel H.
  apply reset_position_keeps in E as (Hix & _ & Hbs & _).
  injection H as <-. unfold well_formed. game_fields.
  split; [eauto|]. split; [eauto 10|]. split.
  { intros b [= <-]. rewrite Hix, Hbs. unfold Ball.init. fields.
    rewrite Hcfg. split; [apply half_width_pos|].
    rewrite <- Hcfg. eapply scale_speed_pos; eauto. }
  split; [|discriminate].
  intros bc [= <-]. apply max_delay_pos.
Qed.

Lemma click_menu_well_formed (buttons : list (pygame.Rect * Difficulty)) :
  forall (g g' : PongGame.t) (pos : Z * Z),
    well_formed g ->
    PongGame.click_menu g pos buttons = Py.Ok g' ->
    well_formed g'.
Proof.
  induction buttons as [|[r d] rest IH]; intros g g' pos Hwf;
    cbn [PongGame.click_menu].
  - intros [= <-]. exact Hwf.
  - destruct (pygame.collidepoint r pos).
    + intros H. peel H. injection H as <-.
      eapply initialize_well_formed; eassumption.
    + apply IH. exact Hwf.
Qed.

Lemma resize_well_formed (g g' : PongGame.t) :
  well_formed g -> PongGame.resize_game_objects g = Py.Ok g' -> well_formed g'.
Proof.
  intros (Hcfg & Hent & Hball & Hbc & Hscorer).
  unfold PongGame.resize_game_objects.
  destruct (PongGame.player_paddle g) as [pp|] eqn:Hpp;
    [destruct (PongGame.bot_paddle g) as [bp|] eqn:Hbp;
     [destruct (PongGame.ball g) as [b|] eqn:Hb|]|];
    try (intros [= <-]; unfold well_formed; rewrite Hpp, ?Hbp, ?Hb;
         repeat apply conj; assumption).
  intros H. peel H. injection H as <-.
  unfold well_formed. game_fields.
  split; [exact Hcfg|]. split.
  { intros Hst. destruct (Hent Hst) as (_ & _ & bc & _ & _ & _ & Hc & _).
    eauto 10. }
  split; [|split; assumption].
  intros ? [= <-]. fields. destruct Hcfg as (c & width & height & Hcfg).
  split.
  - rewrite Hcfg. apply half_width_pos.
  - eapply scale_speed_pos; eauto.
Qed.

Lemma handle_event_well_formed (g g' : PongGame.t) (event : pygame.Event) :
  well_formed g -> PongGame.handle_event g event = Py.Ok g' -> well_formed g'.
Proof.
  intros Hwf. unfold PongGame.handle_event. intros H.
  apply bind_ok in H as (v & E & H). cbv beta in H.
  assert (Hv : well_formed v).
  { destruct event; try (injection E as <-; exact Hwf).
    assert (Hwf1 : well_formed
                     (PongGame.set_config (PongGame.set_screen g (ew, eh))
                        (GameConfig.update_screen_size (PongGame.config g) ew eh))).
    { destruct Hwf as (_ & Hrest). unfold well_formed. game_fields.
      split; [eauto | exact Hrest]. }
    destruct (_ && _).
    - eapply resize_well_formed; eassumption.
    - injection E as <-. exact Hwf1. }
  clear E Hwf.
  pose proof Hv as (Hcfg & Hent & Hball & Hbc & Hscorer).
  destruct (PongGame.state v) eqn:Hs.
  - (* Menu *)
    destruct event; try (injection H as <-; exact Hv).
    eapply click_menu_well_formed; eassumption.
  - (* Playing *)
    destruct event; try (injection H as <-; exact Hv);
      repeat match type of H with
             | (if ?c then _ else _) = _ => destruct c
             end;
      injection H as <-; unfold well_formed; game_fields;
      repeat apply conj; try assumption.
    all: intros _; apply Hent; auto.
  - (* Paused *)
    destruct event; try (injection H as <-; exact Hv);
      repeat match type of H with
             | (if ?c then _ else _) = _ => destruct c
             end;
      injection H as <-; unfold well_formed; game_fields;
      repeat apply conj; try assumption.
    all: try (intros _; apply Hent; auto).
    all: intros [? | ?]; discriminate.
  - (* GameOver *)
    destruct event; try (injection H as <-; exact Hv).
    destruct (PongGame.play_again_hit v mouse_pos);
      injection H as <-; [|exact Hv].
    unfold well_formed. game_fields. repeat apply conj; try assumption.
    intros [? | ?]; discriminate.
Qed.

Lemma step_well_formed (g g' : PongGame.t) (s : Step) :
  well_formed g -> step g s = Py.Ok g' -> well_formed g'.
Proof.
  intros Hwf. destruct s as [event|now|]; cbn [step].
  - apply handle_event_well_formed. exact Hwf.
  - apply update_well_formed. exact Hwf.
  - apply render_well_formed. exact Hwf.
Qed.

(** Every game the loop reaches from a well-formed one, in particular
    from [PongGame.init], is well-formed. *)
Lemma trace_well_formed (steps : list Step) :
  forall (g final : PongGame.t) (tr : list (PongGame.t * Step * PongGame.t)),
    well_formed g -> trace g steps = Py.Ok (tr, final) -> well_formed final.
Proof.
  induction steps as [|s rest IH]; intros g final tr Hwf; cbn [trace].
  - intros [= _ <-]. exact Hwf.
  - intros H. peel H. injection H as _ <-.
    eapply IH; [|eassumption]. eapply step_well_formed; eassumption.
Qed.

(** Fields [well_formed] does not read. *)
Lemma well_formed_menu_buttons (g : PongGame.t)
    (buttons : list (pygame.Rect * Difficulty)) :
  well_formed (PongGame.set_menu_buttons g buttons) -> well_formed g.
Proof. unfold well_formed. game_fields. auto. Qed.

Lemma well_formed_keys_pressed (g : PongGame.t) (keys : gset string) :
  well_formed g -> well_formed (PongGame.set_keys_pressed g keys).
Proof. unfold well_formed. game_fields. auto. Qed.


(** The sample games are games the loop reaches: a fresh session is
    rendered once and the Easy button is clicked. *)
Lemma sample_game_reached :
  exists tr,
    trace (PongGame.init sample_rng)
      [Render; Input (pygame.MOUSEBUTTONDOWN (400%Z, 350%Z))]
    = Py.Ok (tr, PongGame.set_menu_buttons sample_game
                   (UIRenderer.draw_menu (PongGame.config sample_game))).
Proof. eexists. vm_compute. reflexivity. Qed.

Lemma sample_game_well_formed : well_formed sample_game.
Proof.
  destruct sample_game_reached as [tr Htr].
  apply (well_formed_menu_buttons sample_game
           (UIRenderer.draw_menu (PongGame.config sample_game))).
  exact (trace_well_formed _ _ _ _ (init_well_formed sample_rng) Htr).
Qed.

Lemma down_key_game_well_formed : well_formed down_key_game.
Proof.
  unfold down_key_game. apply well_formed_keys_pressed.
  exact sample_game_well_formed.
Qed.


(** ** Invariants of the loop *)

(** What every event of a kind, every tick and every rendering keep, the
    loop keeps over the sessions whose events are of that kind. *)
Lemma handle_input_invariant (P : pygame.Event -> Prop)
    (I : PongGame.t -> Prop) :
  (forall g g' event,
      I g -> P event -> PongGame.handle_event g event = Py.Ok g' -> I g') ->
  forall (events : list pygame.Event) (g g' : PongGame.t) (running : bool),
    I g -> Forall P events ->
    PongGame.handle_input g events = Py.Ok (g', running) -> I g'.
Proof.
  intros Hev. induction events as [|event rest IH]; intros g g' running Hi Hp;
    cbn [PongGame.handle_input].
  - intros [= <- _]. exact Hi.
  - apply Forall_cons in Hp as [Hp Hrest].
    destruct event;
      try (intros H; peel H; eapply IH; [|exact Hrest|exact H];
           eapply Hev; eassumption).
    intros [= <- _]. exact Hi.
Qed.

Lemma run_invariant (P : pygame.Event -> Prop) (I : PongGame.t -> Prop) :
  (forall g g' event,
      I g -> P event -> PongGame.handle_event g event = Py.Ok g' -> I g') ->
  (forall g g' now, I g -> PongGame.update g now = Py.Ok g' -> I g') ->
  (forall g g', I g -> PongGame.render g = Py.Ok g' -> I g') ->
  forall (frames : list PongGame.Frame) (g g' : PongGame.t),
    I g -> Forall (fun f => Forall P (PongGame.events f)) frames ->
    PongGame.run g frames = Py.Ok g' -> I g'.
Proof.
  intros Hev Hup Hre. induction frames as [|f rest IH]; intros g g' Hi Hp;
    cbn [PongGame.run].
  - intros [= <-]. exact Hi.
  - apply Forall_cons in Hp as [Hf Hrest].
    intros H. peel H. unfold PongGame.frame in E. peel E.
    injection E as <- <-.
    match goal with
    | Hr : PongGame.render ?a = Py.Ok ?b |- _ =>
        assert (Hi3 : I b)
          by (eapply Hre; [|exact Hr]; eapply Hup; [|eassumption];
              eapply handle_input_invariant; eassumption)
    end.
    match type of H with
    | (if ?c then _ else _) = _ => destruct c
    end.
    + eapply IH; eassumption.
    + injection H as <-. exact Hi3.
Qed.

Lemma click_menu_paddles (buttons : list (pygame.Rect * Difficulty)) :
  forall (g g' : PongGame.t) (pos : Z * Z),
    well_formed g -> paddles_fit g -> paddles_on_screen g ->
    PongGame.click_menu g pos buttons = Py.Ok g' ->
    paddles_fit g' /\ paddles_on_screen g'.
Proof.
  induction buttons as [|[r d] rest IH]; intros g g' pos Hwf Hfit Hon;
    cbn [PongGame.click_menu].
  - intros [= <-]. split; assumption.
  - destruct (pygame.collidepoint r pos); [|apply IH; assumption].
    intros H. peel H. injection H as <-.
    destruct Hwf as ((c & width & height & Hcfg) & _).
    exact (initialize_paddles g v d c width height Hcfg E).
Qed.

(** Every event but a resize keeps the paddles where they are, or starts
    a match with the paddles centred. *)
Lemma handle_event_paddles (g g' : PongGame.t) (event : pygame.Event) :
  well_formed g /\ paddles_fit g /\ paddles_on_screen g ->
  no_resize event ->
  PongGame.handle_event g event = Py.Ok g' ->
  well_formed g' /\ paddles_fit g' /\ paddles_on_screen g'.
Proof.
  intros (Hwf & Hfit & Hon) Hev E.
  split; [exact (handle_event_well_formed g g' event Hwf E)|].
  revert E. unfold PongGame.handle_event.
  destruct event as [|ew eh|pos|key|key|]; [|contradiction| | | |];
    cbn [mbind result_bind Py.bind];
    destruct (PongGame.state g);
    try (intros [= <-]; split; assumption);
    try (apply click_menu_paddles; assumption);
    repeat match goal with
           | |- context [if ?c then _ else _] => destruct c
           end;
    intros [= <-]; split; assumption.
Qed.

Lemma update_paddles (g g' : PongGame.t) (now : Z) :
  well_formed g /\ paddles_fit g /\ paddles_on_screen g ->
  PongGame.update g now = Py.Ok g' ->
  well_formed g' /\ paddles_fit g' /\ paddles_on_screen g'.
Proof.
  intros (Hwf & Hfit & Hon) E.
  split; [exact (update_well_formed g g' now Hwf E)|].
  destruct (tick_paddles g g' now Hfit E) as (Hfit' & Hkeep & _). auto.
Qed.

Lemma render_paddles (g g' : PongGame.t) :
  well_formed g /\ paddles_fit g /\ paddles_on_screen g ->
  PongGame.render g = Py.Ok g' ->
  well_formed g' /\ paddles_fit g' /\ paddles_on_screen g'.
Proof.
  intros (Hwf & Hfit & Hon) E.
  split; [exact (render_well_formed g g' Hwf E)|].
  revert E. unfold PongGame.render.
  destruct (PongGame.state g); intros H; peel H; injection H as <-;
    split; assumption.
Qed.













(** ** The game: paddles, keys, the post-score wait, the session, resize *)

(** C1. For a paddle whose height is at most the screen height, every
    call of [Paddle.move] and of [Paddle.smooth_move_to] leaves
    [0 <= y <= screen_height - height].  For both paddles of the game: a
    new match starts with the paddles on the screen, every [update]
    keeps them there (and keeps them fitting the screen), and an
    [update] that moves them puts them there.  So in a session whose
    window is never resized both paddles fit the screen and lie on it at
    every tick.  A resize event is where this ends: it rewrites [y] and
    [height] with no boundary check, and the ticks that do not move the
    paddles, those of a post-score wait, leave them where the resize put
    them. *)
Theorem paddle_stays_on_screen :
  (forall (p : Paddle.t) (screen_height direction : Z),
      Paddle.height p <= inject_Z screen_height ->
      on_screen (Paddle.move p direction screen_height) screen_height)
  /\ (forall (p : Paddle.t) (screen_height : Z) (target smoothing : Q),
        Paddle.height p <= inject_Z screen_height ->
        on_screen (Paddle.smooth_move_to p target smoothing screen_height)
          screen_height)
  /\ (forall (g g' : PongGame.t) (difficulty : Difficulty)
             (c : GameConfig.t) (width height : Z),
        PongGame.config g = GameConfig.update_screen_size c width height ->
        PongGame.initialize_game_objects g difficulty = Py.Ok g' ->
        paddles_fit g' /\ paddles_on_screen g')
  /\ (forall (g g' : PongGame.t) (now : Z),
        paddles_fit g ->
        PongGame.update g now = Py.Ok g' ->
        paddles_fit g'
        /\ (paddles_on_screen g -> paddles_on_screen g')
        /\ (PongGame.state g = PLAYING ->
            PongGame.waiting_for_reset g = false ->
            paddles_on_screen g'))
  /\ (forall (frames : list PongGame.Frame) (g g' : PongGame.t),
        well_formed g -> paddles_fit g -> paddles_on_screen g ->
        no_resizes frames ->
        PongGame.run g frames = Py.Ok g' ->
        paddles_fit g' /\ paddles_on_screen g')
  /\ (forall (frames : list PongGame.Frame) (rng : random.Random)
             (g : PongGame.t),
        no_resizes frames ->
        PongGame.run (PongGame.init rng) frames = Py.Ok g ->
        paddles_fit g /\ paddles_on_screen g).
Proof.
  assert (Hrun : forall (frames : list PongGame.Frame) (g g' : PongGame.t),
             well_formed g /\ paddles_fit g /\ paddles_on_screen g ->
             no_resizes frames ->
             PongGame.run g frames = Py.Ok g' ->
             well_formed g' /\ paddles_fit g' /\ paddles_on_screen g').
  { apply (run_invariant no_resize
             (fun g => well_formed g /\ paddles_fit g /\ paddles_on_screen g)).
    - intros g g' event. apply handle_event_paddles.
    - intros g g' now. apply update_paddles.
    - intros g g'. apply render_paddles. }
  split; [|split; [|split; [|split; [|split]]]].
  - intros p screen_height direction. apply move_on_screen.
  - intros p screen_height target smoothing. apply smooth_move_to_on_screen.
  - intros g g' difficulty c width height. apply initialize_paddles.
  - intros g g' now. apply tick_paddles.
  - intros frames g g' Hwf Hfit Hon Hno E.
    apply (Hrun frames g g'); auto.
  - intros frames rng g Hno E.
    apply (Hrun frames (PongGame.init rng) g); [|exact Hno|exact E].
    split; [apply init_well_formed|].
    split; intros p [H | H]; discriminate.
Qed.

(** Witness: the sample paddle driven against the top edge, the bot
    paddle pulled far below the screen, and a frame of the sample game
    with the down key held. *)
Lemma paddle_stays_on_screen_witness :
  on_screen (Paddle.move (Paddle.set_y sample_paddle 3) (-1) 600) 600
  /\ on_screen (Paddle.smooth_move_to sample_paddle 9000 (14 # 100) 600) 600
  /\ exists g' : PongGame.t,
       PongGame.run down_key_game [PongGame.mkFrame [] 16] = Py.Ok g'
       /\ paddles_on_screen g'.
Proof.
  destruct paddle_stays_on_screen as (Hmove & Hsmooth & Hinit & _ & Hrun & _).
  split; [apply Hmove; vm_compute; discriminate|].
  split; [apply Hsmooth; vm_compute; discriminate|].
  destruct (PongGame.run down_key_game [PongGame.mkFrame [] 16])
    as [g'|e] eqn:E; [|vm_compute in E; discriminate].
  exists g'. split; [reflexivity|].
  destruct (PongGame.initialize_game_objects (PongGame.init sample_rng) EASY)
    as [g0|e] eqn:E0; [|vm_compute in E0; discriminate].
  destruct (Hinit (PongGame.init sample_rng) g0 EASY GameConfig.class_defaults
              800%Z 600%Z eq_refl E0) as [Hfit0 Hon0].
  assert (Hsample : down_key_game
                    = PongGame.set_keys_pressed (PongGame.set_state g0 PLAYING)
                        {["down"%string]}).
  { unfold down_key_game, sample_game. rewrite E0. reflexivity. }
  refine (proj2 (Hrun [PongGame.mkFrame [] 16] down_key_game g'
                   down_key_game_well_formed _ _ _ E)).
  - rewrite Hsample. exact Hfit0.
  - rewrite Hsample. exact Hon0.
  - repeat constructor.
Defined.

(** The clause of C1 for all ticks, refuted.  In the session
    [resized_in_wait 800 285] the player scores and the window, 600
    high until then, is made 285 high during the wait.  The configured
    height is clamped to 400 and the paddle height becomes 66, but the
    row of the player's paddle, 250, is divided by the 285 of the new
    surface and multiplied by 400: y = 20000/57, about 350.9, which is
    more than 400 - 66.  The tick of that frame, and every tick until
    the wait is over, leaves the paddle there. *)
Lemma paddle_below_screen_in_wait :
  exists (g : PongGame.t) (pp : Paddle.t),
    PongGame.run (PongGame.init sample_rng) (resized_in_wait 800 285) = Py.Ok g
    /\ PongGame.state g = PLAYING
    /\ PongGame.waiting_for_reset g = true
    /\ PongGame.player_paddle g = Some pp
    /\ GameConfig.SCREEN_HEIGHT (PongGame.config g) = 400%Z
    /\ Paddle.height pp == 66
    /\ Paddle.y pp == 20000 # 57
    /\ Paddle.height pp <= 400
    /\ 400 - Paddle.height pp < Paddle.y pp
    /\ PongGame.update g 66 = Py.Ok g.
Proof.
  destruct (PongGame.run (PongGame.init sample_rng) (resized_in_wait 800 285))
    as [g|e] eqn:E; [|vm_compute in E; discriminate].
  vm_compute in E. injection E as <-.
  eexists _, _. split; [reflexivity|].
  split; [reflexivity|]. split; [reflexivity|]. split; [reflexivity|].
  split; [reflexivity|]. split; [reflexivity|]. split; [reflexivity|].
  split; [vm_compute; discriminate|]. split; [reflexivity|].
  vm_compute. reflexivity.
Qed.







(** C7. Along every sequence of input events, ticks and renderings, the
    session state changes only as follows.  From Menu: only to Playing,
    and only by a click that lands on a difficulty button (the match
    starts at that level).  From Playing: only to GameOver, in a tick
    whose scores report a winner, or to Paused, on the escape key.  From
    GameOver: only to Menu, by a click on the play-again button; never
    directly to Playing.  Every run of the game loop is such a
    sequence. *)
Theorem session_state_machine :
  (forall (g g' : PongGame.t) (s : Step),
      step g s = Py.Ok g' ->
      PongGame.state g = MENU ->
      PongGame.state g' = MENU
      \/ (PongGame.state g' = PLAYING
          /\ exists (pos : Z * Z) (d : Difficulty),
               s = Input (pygame.MOUSEBUTTONDOWN pos)
               /\ menu_click_selects g pos d
               /\ PongGame.current_difficulty g' = Some d))
  /\ (forall (g g' : PongGame.t) (s : Step),
        step g s = Py.Ok g' ->
        PongGame.state g = PLAYING ->
        PongGame.state g' = PLAYING
        \/ (PongGame.state g' = GAME_OVER
            /\ (exists now : Z, s = Tick now)
            /\ ScoreManager.check_winner (PongGame.score_manager g') <> None)
        \/ (PongGame.state g' = PAUSED
            /\ s = Input (pygame.KEYDOWN pygame.K_ESCAPE)))
  /\ (forall (g g' : PongGame.t) (s : Step),
        step g s = Py.Ok g' ->
        PongGame.state g = GAME_OVER ->
        PongGame.state g' <> PLAYING
        /\ (PongGame.state g' = GAME_OVER
            \/ (PongGame.state g' = MENU
                /\ exists pos : Z * Z,
                     s = Input (pygame.MOUSEBUTTONDOWN pos)
                     /\ PongGame.play_again_hit g pos = true)))
  /\ (forall (steps : list Step) (g final : PongGame.t)
             (tr : list (PongGame.t * Step * PongGame.t)),
        trace g steps = Py.Ok (tr, final) ->
        Forall (fun '(a, s, b) => allowed a s b) tr)
  /\ (forall (frames : list PongGame.Frame) (g g' : PongGame.t),
        PongGame.run g frames = Py.Ok g' ->
        exists steps tr, trace g steps = Py.Ok (tr, g')).
Proof.
  split; [|split; [|split; [|split]]].
  - intros g g' s E Hs. apply step_allowed in E.
    unfold allowed in E. rewrite Hs in E. exact E.
  - intros g g' s E Hs. apply step_allowed in E.
    unfold allowed in E. rewrite Hs in E. exact E.
  - intros g g' s E Hs. apply step_allowed in E.
    unfold allowed in E. rewrite Hs in E.
    split; [|exact E]. destruct E as [-> | [-> _]]; discriminate.
  - intros steps g final tr. apply trace_allowed.
  - intros frames. apply run_trace.
Qed.

(** Witness: on the game-over screen a click on the play-again button
    leads to the menu, not into a match. *)
Lemma session_state_machine_witness :
  exists g' : PongGame.t,
    step over_game (Input (pygame.MOUSEBUTTONDOWN (400%Z, 320%Z))) = Py.Ok g'
    /\ PongGame.state g' = MENU
    /\ PongGame.state g' <> PLAYING.
Proof.
  destruct session_state_machine as (_ & _ & Hover & _).
  destruct (PongGame.handle_event over_game
              (pygame.MOUSEBUTTONDOWN (400%Z, 320%Z))) as [g'|e] eqn:E;
    [|vm_compute in E; discriminate].
  exists g'. split; [exact E|].
  destruct (Hover over_game g' (Input (pygame.MOUSEBUTTONDOWN (400%Z, 320%Z))) E)
    as [Hne _]; [reflexivity|].
  split; [|exact Hne].
  vm_compute in E. injection E as <-. reflexivity.
Defined.

(** C3 at the scenario of the specification: the window grows from 800
    by 600 to 1600 by 1200 while the player's paddle is at 0.4 of the
    height (y = 240).  The session state and the scores are unchanged,
    but the paddle stays at y = 240, which is 0.2 of the new height, and
    not at 0.4 * 1200 = 480. *)
Theorem resize_scenario_keeps_pixel_row :
  PongGame.state ratio_game = PLAYING
  /\ PongGame.screen ratio_game = (800%Z, 600%Z)
  /\ exists (pp pp' : Paddle.t) (g' : PongGame.t),
       PongGame.player_paddle ratio_game = Some pp
       /\ Paddle.y pp == (4 # 10) * 600
       /\ PongGame.handle_event ratio_game (pygame.VIDEORESIZE 1600 1200)
          = Py.Ok g'
       /\ GameConfig.SCREEN_HEIGHT (PongGame.config g') = 1200%Z
       /\ PongGame.player_paddle g' = Some pp'
       /\ Paddle.y pp' == 240
       /\ ~ Paddle.y pp' == (4 # 10) * 1200
       /\ PongGame.state g' = PLAYING
       /\ PongGame.score_manager g' = PongGame.score_manager ratio_game.
Proof.
  split; [reflexivity|]. split; [reflexivity|].
  eexists _, _, _.
  split; [vm_compute; reflexivity|]. split; [vm_compute; reflexivity|].
  split; [vm_compute; reflexivity|]. split; [vm_compute; reflexivity|].
  split; [vm_compute; reflexivity|]. split; [vm_compute; reflexivity|].
  split; [vm_compute; discriminate|].
  split; vm_compute; reflexivity.
Qed.

(** The ball's velocity is multiplied by the new width over 800, not by
    the ratio of the new to the old scaled speed: a second resize event
    with the same size leaves the scaled speed as it is and doubles the
    velocity again. *)
Lemma resize_twice_compounds_velocity :
  exists (g1 g2 : PongGame.t) (b1 b2 : Ball.t),
    PongGame.handle_event sample_game (pygame.VIDEORESIZE 1600 1200) = Py.Ok g1
    /\ PongGame.ball g1 = Some b1
    /\ PongGame.handle_event g1 (pygame.VIDEORESIZE 1600 1200) = Py.Ok g2
    /\ PongGame.ball g2 = Some b2
    /\ Ball.base_speed b2 == Ball.base_speed b1
    /\ Ball.velocity_x b2 == 2 * Ball.velocity_x b1
    /\ Qabs (Ball.velocity_x b2) == 2 * Ball.base_speed b2.
Proof.
  eexists _, _, _, _.
  split; [vm_compute; reflexivity|]. split; [vm_compute; reflexivity|].
  split; [vm_compute; reflexivity|]. split; [vm_compute; reflexivity|].
  split; [vm_compute; reflexivity|]. split; vm_compute; reflexivity.
Qed.

(** ** Further properties of the simulation *)

(** X1. Every game the loop of [run] reaches from a fresh [PongGame] is
    well-formed: its configuration was resolved from a window size, a
    match in play or paused has both paddles, the ball and the
    controller, the ball's home abscissa and base speed are positive, the
    controller's maximal delay is not negative, and a post-score wait
    records who scored. *)
Theorem reached_games_well_formed :
  forall (frames : list PongGame.Frame) (rng : random.Random) (g : PongGame.t),
    PongGame.run (PongGame.init rng) frames = Py.Ok g -> well_formed g.
Proof.
  intros frames rng g H. destruct (run_trace _ _ _ H) as (steps & tr & Htr).
  eapply trace_well_formed; [apply init_well_formed | exact Htr].
Qed.

(** Witness: a first frame, then a click on the Easy button. *)
Lemma reached_games_well_formed_witness :
  exists g : PongGame.t,
    PongGame.run (PongGame.init sample_rng)
      [PongGame.mkFrame [] 0;
       PongGame.mkFrame [pygame.MOUSEBUTTONDOWN (400%Z, 350%Z)] 16]
    = Py.Ok g
    /\ PongGame.state g = PLAYING
    /\ well_formed g.
Proof.
  destruct (PongGame.run (PongGame.init sample_rng)
              [PongGame.mkFrame [] 0;
               PongGame.mkFrame [pygame.MOUSEBUTTONDOWN (400%Z, 350%Z)] 16])
    as [g|e] eqn:E; [|vm_compute in E; discriminate].
  exists g. split; [reflexivity|]. split.
  - vm_compute in E. injection E as <-. reflexivity.
  - exact (reached_games_well_formed _ _ _ E).
Defined.

(** X2. A tick changes the scores by at most one point for one side:
    both scores stay, or exactly one of them grows by 1; the winning
    score never changes. *)
Theorem tick_scores_one_side :
  forall (g g' : PongGame.t) (now : Z),
    PongGame.update g now = Py.Ok g' ->
    let s := PongGame.score_manager g in
    let s' := PongGame.score_manager g' in
    ScoreManager.winning_score s' = ScoreManager.winning_score s
    /\ (ScoreManager.get_scores s' = ScoreManager.get_scores s
        \/ ScoreManager.get_scores s'
           = ((ScoreManager.player_score s + 1)%Z, ScoreManager.bot_score s)
        \/ ScoreManager.get_scores s'
           = (ScoreManager.player_score s, (ScoreManager.bot_score s + 1)%Z)).
Proof.
  intros g g' now E. cbv zeta.
  destruct (decide (PongGame.state g = PLAYING)) as [Hs|Hs];
    [|rewrite update_not_playing in E by exact Hs; injection E as <-; auto].
  destruct (PongGame.waiting_for_reset g) eqn:Hw.
  - destruct (update_waiting g g' now Hs Hw E) as (_ & _ & _ & _ & ->). auto.
  - revert E. unfold PongGame.update. rewrite Hs, Hw.
    cbn [bool_decide decide_rel negb]. intros H. peel H.
    finish_tick H; cbn; auto.
Qed.

(** Witness: a quiet tick of the sample game leaves the scores at 0 : 0. *)
Lemma tick_scores_one_side_witness :
  exists g' : PongGame.t,
    PongGame.update sample_game 0 = Py.Ok g'
    /\ ScoreManager.winning_score (PongGame.score_manager g') = 10%Z.
Proof.
  destruct (PongGame.update sample_game 0) as [g'|e] eqn:E;
    [|vm_compute in E; discriminate].
  exists g'. split; [reflexivity|].
  destruct (tick_scores_one_side sample_game g' 0 E) as [Hw _].
  rewrite Hw. reflexivity.
Defined.

(** X3. [check_winner] reports no winner exactly when both scores are
    below the winning score, the player when the player's score has
    reached it (whatever the bot's score), and the bot when only the
    bot's has. *)
Theorem check_winner_cases :
  forall s : ScoreManager.t,
    (ScoreManager.check_winner s = None <->
     (ScoreManager.player_score s < ScoreManager.winning_score s
      /\ ScoreManager.bot_score s < ScoreManager.winning_score s)%Z)
    /\ (ScoreManager.check_winner s = Some "Player"%string <->
        (ScoreManager.winning_score s <= ScoreManager.player_score s)%Z)
    /\ (ScoreManager.check_winner s = Some "Bot"%string <->
        (ScoreManager.player_score s < ScoreManager.winning_score s
         /\ ScoreManager.winning_score s <= ScoreManager.bot_score s)%Z).
Proof.
  intros s. unfold ScoreManager.check_winner.
  destruct (Z.leb_spec (ScoreManager.winning_score s)
              (ScoreManager.player_score s));
    [|destruct (Z.leb_spec (ScoreManager.winning_score s)
                  (ScoreManager.bot_score s))];
    repeat split; intros; try discriminate; try lia; try reflexivity.
Qed.

(** X4. [Ball.move] at the walls: when the advanced ball reaches the top
    edge ([y - radius <= 0]) it is put at [y = radius], when it reaches
    the bottom edge it is put at [y = screen_height - radius], and in
    both cases [velocity_y] changes sign; otherwise [y] advances by
    [velocity_y], which is kept. *)
Theorem ball_move_walls :
  forall (b : Ball.t) (screen_width screen_height : Z),
    let b' := Ball.move b screen_width screen_height in
    let y1 := Ball.y b + Ball.velocity_y b in
    (y1 - Ball.radius b <= 0 ->
     Ball.y b' = Ball.radius b /\ Ball.velocity_y b' == - Ball.velocity_y b)
    /\ (0 < y1 - Ball.radius b ->
        inject_Z screen_height <= y1 + Ball.radius b ->
        Ball.y b' = inject_Z screen_height - Ball.radius b
        /\ Ball.velocity_y b' == - Ball.velocity_y b)
    /\ (0 < y1 - Ball.radius b ->
        y1 + Ball.radius b < inject_Z screen_height ->
        Ball.y b' = y1 /\ Ball.velocity_y b' = Ball.velocity_y b).
Proof.
  intros b screen_width screen_height. unfold Ball.move. cbv zeta. fields.
  destruct (Py.le (Ball.y b + Ball.velocity_y b - Ball.radius b) 0) eqn:Etop;
    [apply le_true in Etop | apply le_false in Etop];
    (destruct (Py.le (inject_Z screen_height)
                 (Ball.y b + Ball.velocity_y b + Ball.radius b)) eqn:Ebot;
     [apply le_true in Ebot | apply le_false in Ebot]);
    cbn [orb]; fields;
    (split; [|split]); intros; try lra;
    (split; [reflexivity|]); try reflexivity; ring.
Qed.

(** Witness: the sample ball flying up from y = 10 with radius 8. *)
Lemma ball_move_walls_witness :
  Ball.y (Ball.move (Ball.set_velocity (Ball.set_pos sample_ball 400 10) 3 (-5))
            800 600) = 8
  /\ Ball.velocity_y
       (Ball.move (Ball.set_velocity (Ball.set_pos sample_ball 400 10) 3 (-5))
          800 600) == 5.
Proof.
  destruct (ball_move_walls
              (Ball.set_velocity (Ball.set_pos sample_ball 400 10) 3 (-5))
              800 600) as (Htop & _).
  destruct Htop as [Hy Hvy]; [vm_compute; discriminate|].
  split; [exact Hy|]. rewrite Hvy. reflexivity.
Defined.

(** X5. Whatever window size is asked for, the resolved configuration
    is at least 600 by 400, its paddle fits the screen height five times,
    paddle and ball have positive sizes, the player's speed is positive,
    and the player's paddle ends more than a ball diameter left of where
    the bot's paddle begins. *)
Theorem config_geometry :
  forall (c : GameConfig.t) (width height : Z),
    let r := GameConfig.update_screen_size c width height in
    (600 <= GameConfig.SCREEN_WIDTH r)%Z
    /\ (400 <= GameConfig.SCREEN_HEIGHT r)%Z
    /\ (66 <= GameConfig.PADDLE_HEIGHT r)%Z
    /\ (5 * GameConfig.PADDLE_HEIGHT r <= GameConfig.SCREEN_HEIGHT r)%Z
    /\ (11 <= GameConfig.PADDLE_WIDTH r)%Z
    /\ (6 <= GameConfig.BALL_RADIUS r)%Z
    /\ 0 < GameConfig.PLAYER_SPEED r
    /\ (GameConfig.PADDLE_OFFSET r + GameConfig.PADDLE_WIDTH r
        + 2 * GameConfig.BALL_RADIUS r
        < GameConfig.SCREEN_WIDTH r - GameConfig.PADDLE_OFFSET r
          - GameConfig.PADDLE_WIDTH r)%Z.
Proof.
  intros c width height r. subst r.
  cbn [GameConfig.update_screen_size GameConfig.SCREEN_WIDTH
       GameConfig.SCREEN_HEIGHT GameConfig.PADDLE_HEIGHT GameConfig.PADDLE_WIDTH
       GameConfig.BALL_RADIUS GameConfig.PLAYER_SPEED GameConfig.PADDLE_OFFSET].
  unfold GameConfig.MIN_WIDTH, GameConfig.MIN_HEIGHT.
  set (W := Z.max width 600). set (H := Z.max height 400).
  assert (HW : (600 <= W)%Z) by (subst W; lia).
  assert (HH : (400 <= H)%Z) by (subst H; lia).
  clearbody W H.
  unfold Py.int, GameConfig.PADDLE_HEIGHT_RATIO, GameConfig.PADDLE_WIDTH_RATIO,
    GameConfig.BALL_RADIUS_RATIO, GameConfig.PADDLE_OFFSET_RATIO,
    GameConfig.PLAYER_SPEED_RATIO.
  cbn [Qnum Qden Qmult inject_Z Pos.mul].
  rewrite !Z.quot_div_nonneg by lia.
  change (Z.pos (1 * 10000)) with 10000%Z.
  change (Z.pos (1 * 100000)) with 100000%Z.
  change (Z.pos (1 * 100)) with 100%Z.
  pose proof (Z.div_mod (H * 1667) 10000 ltac:(lia)).
  pose proof (Z.mod_pos_bound (H * 1667) 10000 ltac:(lia)).
  pose proof (Z.div_mod (W * 1875) 100000 ltac:(lia)).
  pose proof (Z.mod_pos_bound (W * 1875) 100000 ltac:(lia)).
  pose proof (Z.div_mod (W * 1) 100 ltac:(lia)).
  pose proof (Z.mod_pos_bound (W * 1) 100 ltac:(lia)).
  pose proof (Z.div_mod (W * 375) 10000 ltac:(lia)).
  pose proof (Z.mod_pos_bound (W * 375) 10000 ltac:(lia)).
  repeat split; try lia.
  unfold Qlt. cbn. lia.
Qed.

(** X6. [handle_input] answers [False] exactly when a [QUIT] is among the
    events; the events after the first [QUIT] are never handled, and the
    loop of [run] ends with the frame in which it arrived. *)
Theorem handle_input_quit :
  forall (events : list pygame.Event) (g g' : PongGame.t) (running : bool),
    PongGame.handle_input g events = Py.Ok (g', running) ->
    (running = false <-> In pygame.QUIT events)
    /\ PongGame.handle_input g (before_quit events) = Py.Ok (g', true)
    /\ (In pygame.QUIT events ->
        forall later : list pygame.Event,
          PongGame.handle_input g (events ++ later) = Py.Ok (g', false))
    /\ (forall (f : PongGame.Frame) (rest : list PongGame.Frame)
               (g0 g1 : PongGame.t),
          PongGame.frame g0 f = Py.Ok (g1, false) ->
          PongGame.run g0 (f :: rest) = Py.Ok g1).
Proof.
  intros events.
  assert (Hframe : forall (f : PongGame.Frame) (rest : list PongGame.Frame)
                          (g0 g1 : PongGame.t),
             PongGame.frame g0 f = Py.Ok (g1, false) ->
             PongGame.run g0 (f :: rest) = Py.Ok g1).
  { intros f rest g0 g1 E. cbn [PongGame.run]. rewrite E. reflexivity. }
  induction events as [|event rest IH]; intros g g' running;
    cbn [PongGame.handle_input before_quit].
  - intros [= <- <-]. repeat split; try discriminate; try contradiction; auto.
  - destruct event;
      try (intros H; peel H;
           destruct (IH _ _ _ H) as (Hrun & Hbefore & Hlater & _);
           cbn [PongGame.handle_input app]; rewrite E;
           cbn [mbind result_bind Py.bind];
           split;
           [ rewrite Hrun; cbn [In]; split;
             [ auto | intros [? | ?]; [discriminate | assumption] ]
           | split; [exact Hbefore|]; split; [|exact Hframe];
             intros [? | Hin] later; [discriminate | apply Hlater; exact Hin] ]).
    intros [= <- <-]. cbn [In app PongGame.handle_input].
    repeat split; auto.
Qed.

(** Witness: in a frame with a key press, a quit and an escape, the
    escape is not handled. *)
Lemma handle_input_quit_witness :
  exists g' : PongGame.t,
    PongGame.handle_input sample_game
      [pygame.KEYDOWN pygame.K_UP; pygame.QUIT; pygame.KEYDOWN pygame.K_ESCAPE]
    = Py.Ok (g', false)
    /\ PongGame.handle_input sample_game [pygame.KEYDOWN pygame.K_UP]
       = Py.Ok (g', true).
Proof.
  destruct (PongGame.handle_input sample_game
              [pygame.KEYDOWN pygame.K_UP; pygame.QUIT;
               pygame.KEYDOWN pygame.K_ESCAPE]) as [[g' running]|e] eqn:E;
    [|vm_compute in E; discriminate].
  destruct (handle_input_quit _ _ _ _ E) as (Hrun & Hbefore & _).
  exists g'. split; [|exact Hbefore].
  f_equal. f_equal. apply Hrun. cbn. auto.
Defined.

Lemma click_menu_keys (buttons : list (pygame.Rect * Difficulty)) :
  forall (g g' : PongGame.t) (pos : Z * Z),
    PongGame.click_menu g pos buttons = Py.Ok g' ->
    PongGame.keys_pressed g' = PongGame.keys_pressed g.
Proof.
  induction buttons as [|[r d] rest IH]; intros g g' pos;
    cbn [PongGame.click_menu].
  - intros [= <-]. reflexivity.
  - destruct (pygame.collidepoint r pos); [|apply IH].
    unfold PongGame.initialize_game_objects. intros H. peel H.
    injection H as <-. injection E as <-. reflexivity.
Qed.

Lemma handle_event_keys (g g' : PongGame.t) (event : pygame.Event) :
  PongGame.handle_event g event = Py.Ok g' ->
  PongGame.keys_pressed g'
  = match PongGame.state g, event with
    | PLAYING, pygame.KEYDOWN key => key_name key ∪ PongGame.keys_pressed g
    | PLAYING, pygame.KEYUP key => PongGame.keys_pressed g ∖ key_name key
    | _, _ => PongGame.keys_pressed g
    end.
Proof.
  unfold PongGame.handle_event. intros H.
  apply bind_ok in H as (v & E & H). cbv beta in H. revert H.
  destruct event as [|ew eh|pos|key|key|].
  - injection E as <-.
    destruct (PongGame.state g); intros [= <-]; reflexivity.
  - assert (Hv : PongGame.state v = PongGame.state g
                 /\ PongGame.keys_pressed v = PongGame.keys_pressed g).
    { destruct (_ && _).
      - apply resize_frame in E. game_fields. tauto.
      - injection E as <-. auto. }
    destruct Hv as [Hs Hk]. rewrite <- Hs, <- Hk.
    destruct (PongGame.state v); intros [= <-]; reflexivity.
  - injection E as <-. destruct (PongGame.state g) eqn:Hs.
    + apply click_menu_keys.
    + intros [= <-]. reflexivity.
    + repeat match goal with
             | |- (if ?c then _ else _) = _ -> _ => destruct c
             end; intros [= <-]; reflexivity.
    + destruct (PongGame.play_again_hit g pos); intros [= <-]; reflexivity.
  - injection E as <-. destruct (PongGame.state g) eqn:Hs;
      destruct key; cbn; intros Hg; injection Hg as Hg; subst g';
      game_fields; cbn [key_name]; try reflexivity;
      first [apply eq_sym, (left_id_L ∅ (∪)) | apply eq_sym, difference_empty_L].
  - injection E as <-. destruct (PongGame.state g) eqn:Hs;
      destruct key; cbn; intros Hg; injection Hg as Hg; subst g';
      game_fields; cbn [key_name]; try reflexivity;
      first [apply eq_sym, (left_id_L ∅ (∪)) | apply eq_sym, difference_empty_L].
  - injection E as <-.
    destruct (PongGame.state g); intros [= <-]; reflexivity.
Qed.

Lemma update_keys (g g' : PongGame.t) (now : Z) :
  PongGame.update g now = Py.Ok g' ->
  PongGame.keys_pressed g' = PongGame.keys_pressed g.
Proof.
  intros E.
  destruct (decide (PongGame.state g = PLAYING)) as [Hs|Hs];
    [|rewrite update_not_playing in E by exact Hs; injection E as <-;
      reflexivity].
  destruct (PongGame.waiting_for_reset g) eqn:Hw.
  - revert E. unfold PongGame.update. rewrite Hs, Hw.
    cbn [bool_decide decide_rel negb].
    destruct (_ <=? _)%Z; [|intros [= <-]; reflexivity].
    intros H. peel H. injection H as <-. reflexivity.
  - destruct (update_moving g g' now Hs Hw E)
      as (? & ? & ? & ? & ? & ? & ? & _ & _ & _ & _ & _ & _ & _ & _ & _ & Hk).
    exact Hk.
Qed.

Lemma render_keys (g g' : PongGame.t) :
  PongGame.render g = Py.Ok g' ->
  PongGame.keys_pressed g' = PongGame.keys_pressed g.
Proof.
  unfold PongGame.render. intros H.
  destruct (PongGame.state g); peel H; injection H as <-; reflexivity.
Qed.

Lemma step_keys_subset (g g' : PongGame.t) (s : Step) :
  step g s = Py.Ok g' ->
  PongGame.keys_pressed g ⊆ {["up"%string; "down"%string]} ->
  PongGame.keys_pressed g' ⊆ {["up"%string; "down"%string]}.
Proof.
  destruct s as [event|now|]; cbn [step]; intros E Hsub.
  - rewrite (handle_event_keys _ _ _ E).
    destruct (PongGame.state g); destruct event; try exact Hsub;
      destruct key; cbn [key_name];
      first [ apply union_least;
              [first [apply union_subseteq_l | apply union_subseteq_r
                     | apply empty_subseteq] | exact Hsub]
            | etrans; [apply subseteq_difference_l; reflexivity | exact Hsub] ].
  - rewrite (update_keys _ _ _ E). exact Hsub.
  - rewrite (render_keys _ _ E). exact Hsub.
Qed.

Lemma trace_keys_subset (steps : list Step) :
  forall (g final : PongGame.t) (tr : list (PongGame.t * Step * PongGame.t)),
    trace g steps = Py.Ok (tr, final) ->
    PongGame.keys_pressed g ⊆ {["up"%string; "down"%string]} ->
    PongGame.keys_pressed final ⊆ {["up"%string; "down"%string]}.
Proof.
  induction steps as [|s rest IH]; intros g final tr; cbn [trace].
  - intros [= _ <-]. auto.
  - intros H Hsub. peel H. injection H as _ <-.
    eapply IH; [eassumption|]. eapply step_keys_subset; eassumption.
Qed.

(** X7. The pressed-keys set is kept by [handle_input] alone and only
    while Playing: a key-down of W or Up adds 'up', of S or Down adds
    'down', a key-up removes that name, and every other event, every
    tick and every rendering leaves the set as it is (also a key-up that
    arrives while Paused, and the start of a new match).  So in every
    game the loop reaches the set holds nothing but 'up' and 'down'. *)
Theorem key_tracking :
  (forall (g g' : PongGame.t) (event : pygame.Event),
      PongGame.handle_event g event = Py.Ok g' ->
      PongGame.keys_pressed g'
      = match PongGame.state g, event with
        | PLAYING, pygame.KEYDOWN key => key_name key ∪ PongGame.keys_pressed g
        | PLAYING, pygame.KEYUP key => PongGame.keys_pressed g ∖ key_name key
        | _, _ => PongGame.keys_pressed g
        end)
  /\ (forall (g g' : PongGame.t) (now : Z),
        PongGame.update g now = Py.Ok g' ->
        PongGame.keys_pressed g' = PongGame.keys_pressed g)
  /\ (forall g g' : PongGame.t,
        PongGame.render g = Py.Ok g' ->
        PongGame.keys_pressed g' = PongGame.keys_pressed g)
  /\ (forall (frames : list PongGame.Frame) (rng : random.Random)
             (g : PongGame.t),
        PongGame.run (PongGame.init rng) frames = Py.Ok g ->
        PongGame.keys_pressed g ⊆ {["up"%string; "down"%string]}).
Proof.
  split; [exact handle_event_keys|]. split; [exact update_keys|].
  split; [exact render_keys|].
  intros frames rng g H. destruct (run_trace _ _ _ H) as (steps & tr & Htr).
  eapply trace_keys_subset; [exact Htr|]. apply empty_subseteq.
Qed.

(** Witness: S is pressed in the sample game. *)
Lemma key_tracking_witness :
  exists g' : PongGame.t,
    PongGame.handle_event sample_game (pygame.KEYDOWN pygame.K_s) = Py.Ok g'
    /\ PongGame.keys_pressed g'
       = {["down"%string]} ∪ PongGame.keys_pressed sample_game.
Proof.
  destruct key_tracking as (Hkeys & _).
  destruct (PongGame.handle_event sample_game (pygame.KEYDOWN pygame.K_s))
    as [g'|e] eqn:E; [|vm_compute in E; discriminate].
  exists g'. split; [reflexivity|].
  rewrite (Hkeys _ _ _ E).
  change (PongGame.state sample_game) with PLAYING. reflexivity.
Defined.

(** X8. Escape pauses a match in play; while Paused a tick changes
    nothing, whatever the clock shows; and a second Escape gives back
    exactly the game that was paused: entities, scores, keys, generator
    and wait timer are as they were. *)
Theorem pause_resume_round_trip :
  forall g : PongGame.t,
    PongGame.state g = PLAYING ->
    exists paused : PongGame.t,
      PongGame.handle_event g (pygame.KEYDOWN pygame.K_ESCAPE) = Py.Ok paused
      /\ PongGame.state paused = PAUSED
      /\ (forall now : Z, PongGame.update paused now = Py.Ok paused)
      /\ PongGame.handle_event paused (pygame.KEYDOWN pygame.K_ESCAPE)
         = Py.Ok g.
Proof.
  intros g Hs. exists (PongGame.set_state g PAUSED).
  split; [unfold PongGame.handle_event; cbn; rewrite Hs; reflexivity|].
  split; [reflexivity|].
  split; [intros now; apply update_not_playing; discriminate|].
  unfold PongGame.handle_event. cbn. f_equal.
  destruct g. cbn in *. subst. reflexivity.
Qed.

(** Witness: the sample game is paused and resumed. *)
Lemma pause_resume_round_trip_witness :
  exists paused : PongGame.t,
    PongGame.handle_event sample_game (pygame.KEYDOWN pygame.K_ESCAPE)
    = Py.Ok paused
    /\ PongGame.update paused 5000 = Py.Ok paused
    /\ PongGame.handle_event paused (pygame.KEYDOWN pygame.K_ESCAPE)
       = Py.Ok sample_game.
Proof.
  destruct (pause_resume_round_trip sample_game)
    as (paused & Hpause & _ & Htick & Hresume); [reflexivity|].
  exists paused. split; [exact Hpause|]. split; [apply Htick | exact Hresume].
Defined.

(** The sizes and offsets the button layout is made of, by their bounds
    in a resolved configuration. *)
Lemma layout_bounds (c : GameConfig.t) (width height : Z) :
  let cfg := GameConfig.update_screen_size c width height in
  let W := GameConfig.SCREEN_WIDTH cfg in
  let H := GameConfig.SCREEN_HEIGHT cfg in
  let BW := GameConfig.BUTTON_WIDTH cfg in
  let BH := GameConfig.BUTTON_HEIGHT cfg in
  let BS := GameConfig.BUTTON_SPACING cfg in
  (0 < BW /\ 0 < BH /\ 0 <= BS
   /\ 0 <= W / 2 - BW / 2 /\ W / 2 - BW / 2 + BW <= W
   /\ 0 <= Py.int (inject_Z H * (40 # 100))
   /\ Py.int (inject_Z H * (40 # 100)) + 3 * (BH + BS) + BH <= H
   /\ 0 <= Py.int (inject_Z H * (45 # 100))
   /\ Py.int (inject_Z H * (45 # 100)) + (BH + BS) + BH <= H
   /\ 0 <= Py.int (inject_Z H * (5 # 10))
   /\ Py.int (inject_Z H * (5 # 10)) + BH <= H)%Z.
Proof.
  cbv zeta.
  cbn [GameConfig.update_screen_size GameConfig.SCREEN_WIDTH
       GameConfig.SCREEN_HEIGHT GameConfig.BUTTON_WIDTH GameConfig.BUTTON_HEIGHT
       GameConfig.BUTTON_SPACING].
  unfold GameConfig.MIN_WIDTH, GameConfig.MIN_HEIGHT.
  set (W := Z.max width 600). set (H := Z.max height 400).
  assert (HW : (600 <= W)%Z) by (subst W; lia).
  assert (HH : (400 <= H)%Z) by (subst H; lia).
  clearbody W H.
  unfold Py.int, GameConfig.BUTTON_WIDTH_RATIO, GameConfig.BUTTON_HEIGHT_RATIO,
    GameConfig.BUTTON_SPACING_RATIO.
  cbn [Qnum Qden Qmult inject_Z Pos.mul].
  rewrite !Z.quot_div_nonneg by lia.
  change (Z.pos (1 * 100)) with 100%Z.
  change (Z.pos (1 * 10)) with 10%Z.
  pose proof (Z.div_mod (W * 25) 100 ltac:(lia)).
  pose proof (Z.mod_pos_bound (W * 25) 100 ltac:(lia)).
  pose proof (Z.div_mod (H * 1) 10 ltac:(lia)).
  pose proof (Z.mod_pos_bound (H * 1) 10 ltac:(lia)).
  pose proof (Z.div_mod (H * 5) 100 ltac:(lia)).
  pose proof (Z.mod_pos_bound (H * 5) 100 ltac:(lia)).
  pose proof (Z.div_mod (H * 40) 100 ltac:(lia)).
  pose proof (Z.mod_pos_bound (H * 40) 100 ltac:(lia)).
  pose proof (Z.div_mod (H * 45) 100 ltac:(lia)).
  pose proof (Z.mod_pos_bound (H * 45) 100 ltac:(lia)).
  pose proof (Z.div_mod (H * 5) 10 ltac:(lia)).
  pose proof (Z.mod_pos_bound (H * 5) 10 ltac:(lia)).
  pose proof (Z.div_mod W 2 ltac:(lia)).
  pose proof (Z.mod_pos_bound W 2 ltac:(lia)).
  pose proof (Z.div_mod ((W * 25) / 100) 2 ltac:(lia)).
  pose proof (Z.mod_pos_bound ((W * 25) / 100) 2 ltac:(lia)).
  repeat split; lia.
Qed.

(** No point lies in two buttons of the menu. *)
Lemma menu_buttons_disjoint (c : GameConfig.t) (width height : Z) :
  forall (r1 r2 : pygame.Rect) (d1 d2 : Difficulty) (pos : Z * Z),
    In (r1, d1)
       (UIRenderer.draw_menu (GameConfig.update_screen_size c width height)) ->
    In (r2, d2)
       (UIRenderer.draw_menu (GameConfig.update_screen_size c width height)) ->
    pygame.collidepoint r1 pos = true ->
    pygame.collidepoint r2 pos = true ->
    d1 = d2.
Proof.
  pose proof (layout_bounds c width height) as Hb. cbv zeta in Hb.
  set (cfg := GameConfig.update_screen_size c width height) in *.
  unfold UIRenderer.draw_menu, UIRenderer.button_at. cbv zeta.
  set (W := GameConfig.SCREEN_WIDTH cfg) in *.
  set (H := GameConfig.SCREEN_HEIGHT cfg) in *.
  set (BW := GameConfig.BUTTON_WIDTH cfg) in *.
  set (BH := GameConfig.BUTTON_HEIGHT cfg) in *.
  set (BS := GameConfig.BUTTON_SPACING cfg) in *.
  set (start := Py.int (inject_Z H * (40 # 100))) in *.
  set (x0 := (W / 2 - BW / 2)%Z) in *.
  clearbody W H BW BH BS start x0.
  intros r1 r2 d1 d2 [px py] Hin1 Hin2. cbn [In] in Hin1, Hin2.
  unfold pygame.collidepoint. cbn [fst snd].
  rewrite !andb_true_iff, !Z.leb_le, !Z.ltb_lt.
  repeat destruct Hin1 as [[= <- <-] | Hin1]; try contradiction;
    repeat destruct Hin2 as [[= <- <-] | Hin2]; try contradiction;
    cbn [pygame.left pygame.top pygame.w pygame.h];
    intros; try reflexivity; exfalso; lia.
Qed.

(** X9. In every resolved configuration [draw_menu] returns four
    buttons, for Very Easy, Easy, Medium and Hard in this order, each of
    the configured button size and wholly on the screen, and no point
    lies in two of them: a click can select at most one difficulty. *)
Theorem menu_buttons_layout :
  forall (c : GameConfig.t) (width height : Z),
    let cfg := GameConfig.update_screen_size c width height in
    map snd (UIRenderer.draw_menu cfg) = [VERY_EASY; EASY; MEDIUM; HARD]
    /\ (forall (r : pygame.Rect) (d : Difficulty),
          In (r, d) (UIRenderer.draw_menu cfg) ->
          rect_on_screen r (GameConfig.SCREEN_WIDTH cfg)
            (GameConfig.SCREEN_HEIGHT cfg)
          /\ pygame.w r = GameConfig.BUTTON_WIDTH cfg
          /\ pygame.h r = GameConfig.BUTTON_HEIGHT cfg)
    /\ (forall (r1 r2 : pygame.Rect) (d1 d2 : Difficulty) (pos : Z * Z),
          In (r1, d1) (UIRenderer.draw_menu cfg) ->
          In (r2, d2) (UIRenderer.draw_menu cfg) ->
          pygame.collidepoint r1 pos = true ->
          pygame.collidepoint r2 pos = true ->
          d1 = d2).
Proof.
  intros c width height cfg.
  split; [reflexivity|]. split; [|apply menu_buttons_disjoint].
  pose proof (layout_bounds c width height) as Hb. cbv zeta in Hb.
  fold cfg in Hb.
  unfold UIRenderer.draw_menu, UIRenderer.button_at, rect_on_screen. cbv zeta.
  set (W := GameConfig.SCREEN_WIDTH cfg) in *.
  set (H := GameConfig.SCREEN_HEIGHT cfg) in *.
  set (BW := GameConfig.BUTTON_WIDTH cfg) in *.
  set (BH := GameConfig.BUTTON_HEIGHT cfg) in *.
  set (BS := GameConfig.BUTTON_SPACING cfg) in *.
  set (start := Py.int (inject_Z H * (40 # 100))) in *.
  set (x0 := (W / 2 - BW / 2)%Z) in *.
  clearbody W H BW BH BS start x0.
  intros r d Hin. cbn [In] in Hin.
  repeat destruct Hin as [[= <- <-] | Hin]; try contradiction;
    cbn [pygame.left pygame.top pygame.w pygame.h]; lia.
Qed.

(** Escape pauses a match in play. *)
Lemma escape_pauses (g : PongGame.t) :
  PongGame.state g = PLAYING ->
  PongGame.handle_event g (pygame.KEYDOWN pygame.K_ESCAPE)
  = Py.Ok (PongGame.set_state g PAUSED).
Proof.
  intros Hs. unfold PongGame.handle_event. cbn. rewrite Hs. reflexivity.
Qed.

Lemma well_formed_game_over (g : PongGame.t) :
  well_formed g -> well_formed (PongGame.set_state g GAME_OVER).
Proof.
  intros (Hcfg & _ & Hball & Hbc & Hscorer). unfold well_formed. game_fields.
  split; [exact Hcfg|]. split; [intros [H | H]; discriminate|].
  split; [exact Hball|]. split; assumption.
Qed.

(** X10. Once the pause screen has been rendered, the game holds a
    Resume and a New Game button, both on the screen and without a
    common point, and a click on Resume continues the match, a click on
    New Game leads to the menu, and a click elsewhere does nothing. *)
Theorem pause_screen_clicks :
  forall (g g' : PongGame.t) (pos : Z * Z),
    well_formed g ->
    PongGame.state g = PAUSED ->
    PongGame.render g = Py.Ok g' ->
    exists resume new_game : pygame.Rect,
      PongGame.pause_buttons g' !! "resume"%string = Some resume
      /\ PongGame.pause_buttons g' !! "new_game"%string = Some new_game
      /\ rect_on_screen resume
           (GameConfig.SCREEN_WIDTH (PongGame.config g'))
           (GameConfig.SCREEN_HEIGHT (PongGame.config g'))
      /\ rect_on_screen new_game
           (GameConfig.SCREEN_WIDTH (PongGame.config g'))
           (GameConfig.SCREEN_HEIGHT (PongGame.config g'))
      /\ (pygame.collidepoint resume pos = true ->
          pygame.collidepoint new_game pos = false)
      /\ PongGame.handle_event g' (pygame.MOUSEBUTTONDOWN pos)
         = Py.Ok (if pygame.collidepoint resume pos
                  then PongGame.set_state g' PLAYING
                  else if pygame.collidepoint new_game pos
                       then PongGame.set_state g' MENU
                       else g').
Proof.
  intros g g' pos ((c & width & height & Hcfg) & _) Hs.
  unfold PongGame.render. rewrite Hs. intros H. peel H. injection H as <-.
  game_fields.
  pose proof (layout_bounds c width height) as Hb. cbv zeta in Hb.
  rewrite <- Hcfg in Hb.
  unfold UIRenderer.draw_pause_menu. cbv zeta.
  set (start := Py.int (inject_Z _ * (45 # 100))) in *.
  exists (UIRenderer.button_at (PongGame.config g) start 0),
         (UIRenderer.button_at (PongGame.config g) start 1).
  split; [rewrite lookup_insert_ne by discriminate; apply lookup_insert_eq|].
  split; [apply lookup_insert_eq|].
  unfold PongGame.handle_event, PongGame.pause_button_hit. game_fields.
  cbn [mbind result_bind Py.bind]. game_fields. rewrite Hs.
  rewrite lookup_insert_ne by discriminate. rewrite !lookup_insert_eq.
  repeat apply conj;
    try (repeat match goal with
                | |- context [pygame.collidepoint ?r ?p] =>
                    destruct (pygame.collidepoint r p)
                end; reflexivity);
    unfold UIRenderer.button_at, rect_on_screen, pygame.collidepoint;
    cbn [pygame.left pygame.top pygame.w pygame.h]; try lia.
Qed.

(** Witness: the sample game, paused. *)
Lemma pause_screen_clicks_witness :
  exists (g' : PongGame.t) (resume : pygame.Rect),
    PongGame.render (PongGame.set_state sample_game PAUSED) = Py.Ok g'
    /\ PongGame.pause_buttons g' !! "resume"%string = Some resume
    /\ rect_on_screen resume
         (GameConfig.SCREEN_WIDTH (PongGame.config g'))
         (GameConfig.SCREEN_HEIGHT (PongGame.config g')).
Proof.
  destruct (PongGame.render (PongGame.set_state sample_game PAUSED))
    as [g'|e] eqn:E; [|vm_compute in E; discriminate].
  assert (Hwf : well_formed (PongGame.set_state sample_game PAUSED)).
  { apply (handle_event_well_formed sample_game _
             (pygame.KEYDOWN pygame.K_ESCAPE) sample_game_well_formed).
    apply escape_pauses. reflexivity. }
  destruct (pause_screen_clicks (PongGame.set_state sample_game PAUSED) g'
              (400%Z, 290%Z) Hwf eq_refl E)
    as (resume & new_game & Hr & _ & Hon & _).
  exists g', resume. split; [reflexivity|]. split; assumption.
Defined.

(** X11. Once the game-over screen has been rendered, the game holds a
    Play Again button on the screen, of positive size, and a click leads
    to the menu exactly when it lands on the button. *)
Theorem game_over_screen_click :
  forall (g g' : PongGame.t) (pos : Z * Z),
    well_formed g ->
    PongGame.state g = GAME_OVER ->
    PongGame.render g = Py.Ok g' ->
    exists button : pygame.Rect,
      PongGame.play_again_button g' = Some button
      /\ rect_on_screen button
           (GameConfig.SCREEN_WIDTH (PongGame.config g'))
           (GameConfig.SCREEN_HEIGHT (PongGame.config g'))
      /\ PongGame.handle_event g' (pygame.MOUSEBUTTONDOWN pos)
         = Py.Ok (if pygame.collidepoint button pos
                  then PongGame.set_state g' MENU
                  else g').
Proof.
  intros g g' pos ((c & width & height & Hcfg) & _) Hs.
  unfold PongGame.render. rewrite Hs. intros [= <-]. game_fields.
  pose proof (layout_bounds c width height) as Hb. cbv zeta in Hb.
  rewrite <- Hcfg in Hb.
  exists (UIRenderer.draw_game_over (PongGame.config g)).
  split; [reflexivity|].
  unfold PongGame.handle_event, PongGame.play_again_hit. game_fields.
  cbn [mbind result_bind Py.bind]. game_fields. rewrite Hs.
  unfold UIRenderer.draw_game_over, rect_on_screen, pygame.truthy.
  cbn [pygame.left pygame.top pygame.w pygame.h].
  split; [lia|].
  replace (negb (_ =? 0)%Z) with true
    by (symmetry; apply negb_true_iff, Z.eqb_neq; lia).
  replace (negb (_ =? 0)%Z) with true
    by (symmetry; apply negb_true_iff, Z.eqb_neq; lia).
  cbn [andb]. destruct (pygame.collidepoint _ _); reflexivity.
Qed.

(** Witness: the sample game with the match declared over. *)
Lemma game_over_screen_click_witness :
  exists (g' : PongGame.t) (button : pygame.Rect),
    PongGame.render (PongGame.set_state sample_game GAME_OVER) = Py.Ok g'
    /\ PongGame.play_again_button g' = Some button
    /\ rect_on_screen button
         (GameConfig.SCREEN_WIDTH (PongGame.config g'))
         (GameConfig.SCREEN_HEIGHT (PongGame.config g')).
Proof.
  destruct (PongGame.render (PongGame.set_state sample_game GAME_OVER))
    as [g'|e] eqn:E; [|vm_compute in E; discriminate].
  destruct (game_over_screen_click (PongGame.set_state sample_game GAME_OVER)
              g' (400%Z, 320%Z)
              (well_formed_game_over sample_game sample_game_well_formed)
              eq_refl E)
    as (button & Hb & Hon & _).
  exists g', button. split; [reflexivity|]. split; assumption.
Defined.

(** The serve [reset_position] makes when no target is given. *)
Lemma serve_speed (b : Ball.t) (direction : Z) (rng : random.Random) :
  exists (b' : Ball.t) (rng' : random.Random),
    Ball.reset_position b direction None rng = Py.Ok (b', rng')
    /\ (1 # 2) * Qabs (Ball.base_speed b) <= Qabs (Ball.velocity_y b')
    /\ Qabs (Ball.velocity_y b') <= Qabs (Ball.base_speed b)
    /\ ((direction = 0)%Z ->
        Qabs (Ball.velocity_x b') == Qabs (Ball.base_speed b))
    /\ ((direction <> 0)%Z ->
        Ball.velocity_x b' = Ball.base_speed b * inject_Z direction)
    /\ Ball.x b' = Ball.initial_x b /\ Ball.y b' = Ball.initial_y b
    /\ same_ball_constants b b'.
Proof.
  unfold Ball.reset_position. cbv zeta.
  assert (Hd : (direction = 0)%Z ->
               let d := fst (random.choice2 (-1) 1 rng) in (d = -1 \/ d = 1)%Z)
    by (intros _; apply choice2_sign).
  destruct (direction =? 0)%Z eqn:Ed;
    [apply Z.eqb_eq in Ed | apply Z.eqb_neq in Ed].
  - specialize (Hd Ed). cbv zeta in Hd.
    destruct (random.choice2 (-1) 1 rng) as [d rng1]. cbn [fst] in Hd.
    pose proof (choice2_sign rng1) as Hs.
    destruct (random.choice2 (-1) 1 rng1) as [s rng2]. cbn [fst] in Hs.
    pose proof (uniform_range (5 # 10) 1 rng2 ltac:(discriminate)) as [Hlo Hhi].
    destruct (random.uniform (5 # 10) 1 rng2) as [u rng3]. cbn [fst] in *.
    eexists _, _. split; [reflexivity|]. fields.
    rewrite Qabs_Qmult, (Qabs_times_sign _ s Hs), (Qabs_pos u) by lra.
    pose proof (Qabs_times_sign (Ball.base_speed b) d Hd) as Hvx.
    pose proof (Qabs_nonneg (Ball.base_speed b)) as Ha.
    set (a := Qabs (Ball.base_speed b)) in *. clearbody a.
    assert (0 <= a * (u - (1 # 2))) by (apply Qmult_le_0_compat; lra).
    assert (0 <= a * (1 - u)) by (apply Qmult_le_0_compat; lra).
    split; [lra|]. split; [lra|].
    split; [intros _; exact Hvx|].
    split; [intros Hne; contradiction|].
    unfold same_ball_constants. fields. repeat split; reflexivity.
  - pose proof (choice2_sign rng) as Hs.
    destruct (random.choice2 (-1) 1 rng) as [s rng2]. cbn [fst] in Hs.
    pose proof (uniform_range (5 # 10) 1 rng2 ltac:(discriminate)) as [Hlo Hhi].
    destruct (random.uniform (5 # 10) 1 rng2) as [u rng3]. cbn [fst] in *.
    eexists _, _. split; [reflexivity|]. fields.
    rewrite Qabs_Qmult, (Qabs_times_sign _ s Hs), (Qabs_pos u) by lra.
    pose proof (Qabs_nonneg (Ball.base_speed b)) as Ha.
    set (a := Qabs (Ball.base_speed b)) in *. clearbody a.
    assert (0 <= a * (u - (1 # 2))) by (apply Qmult_le_0_compat; lra).
    assert (0 <= a * (1 - u)) by (apply Qmult_le_0_compat; lra).
    split; [lra|]. split; [lra|].
    split; [intros He; contradiction|].
    split; [intros _; reflexivity|].
    unfold same_ball_constants. fields. repeat split; reflexivity.
Qed.

(** X12. [Ball.reset_position] without a target never raises, whatever
    the direction argument, and serves from the home position at a
    vertical speed between half the base speed and the base speed, up or
    down: a first serve is never horizontal once the base speed is not
    zero.  The horizontal speed is the base speed times the direction,
    drawn from -1 and 1 when the direction given is 0. *)
Theorem serve_without_target :
  forall (b : Ball.t) (direction : Z) (rng : random.Random),
    exists (b' : Ball.t) (rng' : random.Random),
      Ball.reset_position b direction None rng = Py.Ok (b', rng')
      /\ Ball.x b' = Ball.initial_x b /\ Ball.y b' = Ball.initial_y b
      /\ (1 # 2) * Qabs (Ball.base_speed b) <= Qabs (Ball.velocity_y b')
      /\ Qabs (Ball.velocity_y b') <= Qabs (Ball.base_speed b)
      /\ (~ Ball.base_speed b == 0 -> ~ Ball.velocity_y b' == 0)
      /\ ((direction = 0)%Z ->
          Qabs (Ball.velocity_x b') == Qabs (Ball.base_speed b))
      /\ ((direction <> 0)%Z ->
          Ball.velocity_x b' = Ball.base_speed b * inject_Z direction).
Proof.
  intros b direction rng.
  destruct (serve_speed b direction rng)
    as (b' & rng' & E & Hlo & Hhi & Hzero & Hdir & Hx & Hy & _).
  exists b', rng'. repeat apply conj; try assumption.
  intros Hbase Hvy. rewrite Hvy in Hlo. apply Hbase.
  apply Qabs_zero_iff.
  pose proof (Qabs_nonneg (Ball.base_speed b)).
  change (Qabs 0) with 0 in Hlo. lra.
Qed.

(** What [initialize_game_objects] sets up, in a resolved configuration. *)
Lemma initialize_new_match (g : PongGame.t) (d : Difficulty)
    (c : GameConfig.t) (width height : Z) :
  PongGame.config g = GameConfig.update_screen_size c width height ->
  exists (g' : PongGame.t) (pp bp : Paddle.t) (b : Ball.t),
    PongGame.initialize_game_objects g d = Py.Ok g'
    /\ PongGame.state g' = PongGame.state g
    /\ PongGame.config g' = PongGame.config g
    /\ PongGame.keys_pressed g' = PongGame.keys_pressed g
    /\ PongGame.current_difficulty g' = Some d
    /\ PongGame.bot_controller g' = Some (BotController.init d)
    /\ ScoreManager.get_scores (PongGame.score_manager g') = (0%Z, 0%Z)
    /\ ScoreManager.winning_score (PongGame.score_manager g')
       = ScoreManager.winning_score (PongGame.score_manager g)
    /\ PongGame.waiting_for_reset g' = false
    /\ PongGame.player_paddle g' = Some pp
    /\ PongGame.bot_paddle g' = Some bp
    /\ PongGame.ball g' = Some b
    /\ Paddle.y pp = Paddle.y bp
    /\ Paddle.height pp = Paddle.height bp
    /\ Paddle.x pp = inject_Z (GameConfig.PADDLE_OFFSET (PongGame.config g))
    /\ Paddle.x bp + Paddle.width bp
       == inject_Z (GameConfig.SCREEN_WIDTH (PongGame.config g))
          - Paddle.x pp
    /\ Paddle.velocity pp = 0 /\ Paddle.velocity bp = 0
    /\ Paddle.speed pp = GameConfig.PLAYER_SPEED (PongGame.config g)
    /\ Paddle.speed bp
       = GameConfig.scale_speed (PongGame.config g)
           (GameConfig.bot_speed (GameConfig.DIFFICULTY_SETTINGS EASY))
    /\ Ball.base_speed b
       = GameConfig.scale_speed (PongGame.config g)
           (GameConfig.ball_speed (GameConfig.DIFFICULTY_SETTINGS EASY))
    /\ Ball.x b = inject_Z (GameConfig.SCREEN_WIDTH (PongGame.config g) / 2)
    /\ Ball.y b = inject_Z (GameConfig.SCREEN_HEIGHT (PongGame.config g) / 2)
    /\ Qabs (Ball.velocity_x b) == Ball.base_speed b
    /\ (1 # 2) * Ball.base_speed b <= Qabs (Ball.velocity_y b)
    /\ Qabs (Ball.velocity_y b) <= Ball.base_speed b.
Proof.
  intros Hcfg. unfold PongGame.initialize_game_objects. cbv zeta. game_fields.
  match goal with
  | |- context [Ball.reset_position ?b0 0 None ?r] =>
      destruct (serve_speed b0 0 r)
        as (b' & rng' & E & Hlo & Hhi & Hvx & _ & Hx & Hy & _ & _ & Hbs & _);
      rewrite E
  end.
  cbn [mbind result_bind Py.bind]. specialize (Hvx eq_refl).
  assert (Hpos : 0 < Ball.base_speed b').
  { rewrite Hbs. unfold Ball.init. fields.
    exact (scale_speed_pos c (PongGame.config g) width height
             (GameConfig.game_objects_Difficulty d)
             GameConfig.ball_speed Hcfg (or_introl eq_refl)). }
  unfold Ball.init in Hlo, Hhi, Hvx, Hx, Hy, Hbs. fields.
  rewrite <- Hbs in Hlo, Hhi, Hvx.
  rewrite (Qabs_pos (Ball.base_speed b')) in Hlo, Hhi, Hvx by lra.
  eexists _, _, _, b'. split; [reflexivity|]. game_fields.
  unfold Paddle.init, ScoreManager.reset, ScoreManager.get_scores. fields.
  cbn [ScoreManager.player_score ScoreManager.bot_score
       ScoreManager.winning_score GameConfig.get_difficulty_settings].
  repeat apply conj; try reflexivity; try assumption.
  fields. unfold Qminus. rewrite <- inject_Z_opp, <- !inject_Z_plus.
  rewrite inject_Z_injective. lia.
Qed.

(** A click on a button of a list without overlaps starts a match at
    that button's difficulty. *)
Lemma click_menu_selected (buttons : list (pygame.Rect * Difficulty)) :
  forall (g : PongGame.t) (pos : Z * Z) (r : pygame.Rect) (d : Difficulty),
    (forall (r1 r2 : pygame.Rect) (d1 d2 : Difficulty),
        In (r1, d1) buttons -> In (r2, d2) buttons ->
        pygame.collidepoint r1 pos = true ->
        pygame.collidepoint r2 pos = true -> d1 = d2) ->
    In (r, d) buttons ->
    pygame.collidepoint r pos = true ->
    PongGame.click_menu g pos buttons
    = (g' ← PongGame.initialize_game_objects g d;
       Py.Ok (PongGame.set_state g' PLAYING)).
Proof.
  induction buttons as [|[r0 d0] rest IH]; intros g pos r d Huniq Hin Hhit;
    [contradiction|].
  cbn [PongGame.click_menu].
  destruct (pygame.collidepoint r0 pos) eqn:Hhit0.
  - rewrite (Huniq r0 r d0 d (or_introl eq_refl) Hin Hhit0 Hhit). reflexivity.
  - destruct Hin as [[= -> ->] | Hin]; [congruence|].
    apply (IH g pos r d); [|exact Hin | exact Hhit].
    intros r1 r2 d1 d2 H1 H2. apply Huniq; right; assumption.
Qed.

(** X13. A click on a button of the rendered menu starts a match at
    that button's difficulty and never raises: the state is Playing, the
    controller is the one of the difficulty, the scores are 0 : 0, no
    wait is pending, both paddles stand at the same height at rest,
    mirrored at the two sides, and the ball is served from the centre of
    the screen with a vertical speed between half its base speed and all
    of it.  The base speed is the scaled ball speed of the Easy entry of
    the settings table whatever level was clicked: the settings are
    looked up with the [Difficulty] of game.py, which is not the class
    that keys the table, so the lookup answers its default.  Keys
    recorded as held stay recorded. *)
Theorem menu_click_starts_match :
  forall (g g' : PongGame.t) (r : pygame.Rect) (d : Difficulty) (pos : Z * Z),
    well_formed g ->
    PongGame.state g = MENU ->
    PongGame.render g = Py.Ok g' ->
    In (r, d) (PongGame.menu_buttons g') ->
    pygame.collidepoint r pos = true ->
    exists (g2 : PongGame.t) (pp bp : Paddle.t) (b : Ball.t),
      PongGame.handle_event g' (pygame.MOUSEBUTTONDOWN pos) = Py.Ok g2
      /\ PongGame.state g2 = PLAYING
      /\ PongGame.current_difficulty g2 = Some d
      /\ PongGame.bot_controller g2 = Some (BotController.init d)
      /\ ScoreManager.get_scores (PongGame.score_manager g2) = (0%Z, 0%Z)
      /\ PongGame.waiting_for_reset g2 = false
      /\ PongGame.keys_pressed g2 = PongGame.keys_pressed g
      /\ PongGame.config g2 = PongGame.config g
      /\ PongGame.player_paddle g2 = Some pp
      /\ PongGame.bot_paddle g2 = Some bp
      /\ PongGame.ball g2 = Some b
      /\ Paddle.y pp = Paddle.y bp
      /\ Paddle.height pp = Paddle.height bp
      /\ Paddle.x bp + Paddle.width bp
         == inject_Z (GameConfig.SCREEN_WIDTH (PongGame.config g)) - Paddle.x pp
      /\ Paddle.velocity pp = 0 /\ Paddle.velocity bp = 0
      /\ paddles_on_screen g2
      /\ Ball.x b = inject_Z (GameConfig.SCREEN_WIDTH (PongGame.config g) / 2)
      /\ Ball.y b = inject_Z (GameConfig.SCREEN_HEIGHT (PongGame.config g) / 2)
      /\ Ball.base_speed b
         = GameConfig.scale_speed (PongGame.config g)
             (GameConfig.ball_speed (GameConfig.DIFFICULTY_SETTINGS EASY))
      /\ Qabs (Ball.velocity_x b) == Ball.base_speed b
      /\ (1 # 2) * Ball.base_speed b <= Qabs (Ball.velocity_y b)
      /\ Qabs (Ball.velocity_y b) <= Ball.base_speed b.
Proof.
  intros g g' r d pos ((c & width & height & Hcfg) & _) Hs.
  unfold PongGame.render. rewrite Hs. intros [= <-]. game_fields.
  intros Hin Hhit.
  set (gm := PongGame.set_menu_buttons g
               (UIRenderer.draw_menu (PongGame.config g))).
  assert (Hcfgm : PongGame.config gm
                  = GameConfig.update_screen_size c width height)
    by exact Hcfg.
  destruct (initialize_new_match gm d c width height Hcfgm)
    as (g1 & pp & bp & b & E & Hst & Hc & Hk & Hd & Hbc & Hsc & _ & Hw & Hpp
        & Hbp & Hb & Hy & Hh & _ & Hmirror & Hvp & Hvb & _ & _ & Hbs & Hbx
        & Hby & Hvx & Hlo & Hhi).
  destruct (initialize_paddles gm g1 d c width height Hcfgm E) as [_ Hon].
  exists (PongGame.set_state g1 PLAYING), pp, bp, b.
  split.
  { unfold PongGame.handle_event. cbn [mbind result_bind Py.bind].
    replace (PongGame.state gm) with MENU by (symmetry; exact Hs).
    replace (PongGame.menu_buttons gm)
      with (UIRenderer.draw_menu (PongGame.config g)) by reflexivity.
    rewrite (click_menu_selected _ gm pos r d); [| |exact Hin|exact Hhit].
    - rewrite E. reflexivity.
    - rewrite Hcfg. intros r1 r2 d1 d2.
      apply (menu_buttons_disjoint c width height). }
  assert (Hon2 : paddles_on_screen (PongGame.set_state g1 PLAYING))
    by exact Hon.
  game_fields.
  change (PongGame.config gm) with (PongGame.config g) in *.
  change (PongGame.keys_pressed gm) with (PongGame.keys_pressed g) in *.
  repeat apply conj; try assumption; reflexivity.
Qed.

(** Witness: the menu of a fresh session, clicked on Easy. *)
Lemma menu_click_starts_match_witness :
  exists g' g2 : PongGame.t,
    PongGame.render (PongGame.init sample_rng) = Py.Ok g'
    /\ PongGame.handle_event g' (pygame.MOUSEBUTTONDOWN (400%Z, 350%Z))
       = Py.Ok g2
    /\ PongGame.state g2 = PLAYING
    /\ PongGame.current_difficulty g2 = Some EASY.
Proof.
  destruct (PongGame.render (PongGame.init sample_rng)) as [g'|e] eqn:E;
    [|vm_compute in E; discriminate].
  assert (Hin : In (pygame.mkRect 300 330 200 60, EASY)
                  (PongGame.menu_buttons g')).
  { assert (E' := E). vm_compute in E'. injection E' as <-.
    right. left. reflexivity. }
  destruct (menu_click_starts_match (PongGame.init sample_rng) g'
              (pygame.mkRect 300 330 200 60) EASY (400%Z, 350%Z)
              (init_well_formed sample_rng) eq_refl E Hin eq_refl)
    as (g2 & pp & bp & b & Hev & Hst & Hd & _).
  exists g', g2. split; [reflexivity|]. repeat split; assumption.
Defined.

(** X14. [Paddle.smooth_move_to] with a smoothing factor between 0 and 1
    moves a paddle that is on the screen toward the target and never
    past it: the new [y] lies between the old [y] and the target, at most
    the fraction [smoothing] of the way; and it is exactly that fraction
    of the way when the target itself is a position on the screen. *)
Theorem smooth_move_never_overshoots :
  forall (p : Paddle.t) (target s : Q) (screen_height : Z),
    0 <= s -> s <= 1 -> on_screen p screen_height ->
    let p' := Paddle.smooth_move_to p target s screen_height in
    Qabs (Paddle.y p' - Paddle.y p) <= s * Qabs (target - Paddle.y p)
    /\ Qabs (target - Paddle.y p') <= Qabs (target - Paddle.y p)
    /\ (Paddle.y p <= target ->
        Paddle.y p <= Paddle.y p' /\ Paddle.y p' <= target)
    /\ (target <= Paddle.y p ->
        target <= Paddle.y p' /\ Paddle.y p' <= Paddle.y p)
    /\ (0 <= target -> target <= inject_Z screen_height - Paddle.height p ->
        Paddle.y p' == Paddle.y p + (target - Paddle.y p) * s).
Proof.
  intros p target s screen_height Hs0 Hs1 Hon.
  destruct (smooth_step p target s screen_height Hs0 Hs1 Hon)
    as (Hup & Hdown & Hexact).
  cbv zeta in *.
  set (y' := Paddle.y (Paddle.smooth_move_to p target s screen_height)) in *.
  clearbody y'.
  repeat apply conj.
  - destruct (Qlt_le_dec (Paddle.y p) target) as [Hlt|Hge].
    + destruct (Hup ltac:(lra)) as (H1 & H2 & H3).
      rewrite !Qabs_pos by lra. lra.
    + destruct (Hdown Hge) as (H1 & H2 & H3).
      rewrite !Qabs_neg by lra. lra.
  - destruct (Qlt_le_dec (Paddle.y p) target) as [Hlt|Hge].
    + destruct (Hup ltac:(lra)) as (H1 & H2 & H3).
      rewrite !Qabs_pos by lra. lra.
    + destruct (Hdown Hge) as (H1 & H2 & H3).
      rewrite !Qabs_neg by lra. lra.
  - intros Hle. destruct (Hup Hle) as (H1 & H2 & _). split; assumption.
  - intros Hle. destruct (Hdown Hle) as (H1 & H2 & _). split; assumption.
  - exact Hexact.
Qed.

(** Witness: the sample paddle, a quarter of the way to the top. *)
Lemma smooth_move_never_overshoots_witness :
  Paddle.y (Paddle.smooth_move_to sample_paddle 50 (1 # 4) 600) == 200.
Proof.
  destruct (smooth_move_never_overshoots sample_paddle 50 (1 # 4) 600)
    as (_ & _ & _ & _ & Hexact);
    [discriminate | discriminate | split; vm_compute; discriminate |].
  rewrite Hexact by (vm_compute; discriminate). reflexivity.
Defined.

(** X15. While the reaction delay is pending, the controller's paddle
    closes in on a target on the screen geometrically: after [n] smooth
    steps the distance left is [(1 - smoothing) ^ n] times the distance
    at the start, so the paddle stays on its side of the target and, for
    a smoothing factor below 1, never reaches it. *)
Theorem approach_is_geometric :
  forall (n : nat) (p : Paddle.t) (s : Q) (screen_height : Z),
    0 <= s -> s <= 1 -> on_screen p screen_height ->
    0 <= Paddle.target_y p ->
    Paddle.target_y p <= inject_Z screen_height - Paddle.height p ->
    let p' := approach n p s screen_height in
    Paddle.y p' - Paddle.target_y p
    == (1 - s) ^ Z.of_nat n * (Paddle.y p - Paddle.target_y p)
    /\ on_screen p' screen_height
    /\ Paddle.target_y p' = Paddle.target_y p.
Proof.
  induction n as [|n IH]; intros p s screen_height Hs0 Hs1 Hon Ht0 Ht1;
    cbv zeta.
  - cbn [approach]. change ((1 - s) ^ Z.of_nat 0) with 1.
    split; [ring|]. split; [exact Hon|reflexivity].
  - cbn [approach].
    set (p1 := Paddle.smooth_move_to p (Paddle.target_y p) s screen_height).
    assert (Ht : Paddle.target_y p1 = Paddle.target_y p)
      by apply smooth_move_to_target.
    assert (Hh : Paddle.height p1 = Paddle.height p)
      by apply smooth_move_to_height.
    destruct (smooth_step p (Paddle.target_y p) s screen_height Hs0 Hs1 Hon)
      as (_ & _ & Hy).
    specialize (Hy Ht0 Ht1). fold p1 in Hy.
    assert (Hon1 : on_screen p1 screen_height).
    { apply smooth_move_to_on_screen. destruct Hon. lra. }
    destruct (IH p1 s screen_height Hs0 Hs1 Hon1) as (Hd & Hon' & Ht').
    { rewrite Ht. exact Ht0. }
    { rewrite Ht, Hh. exact Ht1. }
    split; [|split; [exact Hon' | rewrite Ht'; exact Ht]].
    rewrite Ht in Hd. rewrite Hd, Hy.
    rewrite Nat2Z.inj_succ, <- Z.add_1_r.
    rewrite Qpower_plus' by lia.
    change ((1 - s) ^ 1) with (1 - s). ring.
Qed.

(** Witness: four steps of the sample paddle toward y = 90 at a
    smoothing of one half leave a sixteenth of the distance. *)
Lemma approach_is_geometric_witness :
  Paddle.y (approach 4 (Paddle.set_target_y sample_paddle 90) (1 # 2) 600) - 90
  == (1 # 16) * (250 - 90).
Proof.
  destruct (approach_is_geometric 4 (Paddle.set_target_y sample_paddle 90)
              (1 # 2) 600) as (Hd & _);
    [discriminate | discriminate | split; vm_compute; discriminate
     | discriminate | vm_compute; discriminate |].
  exact Hd.
Defined.

(** [smooth_move_to] reads and writes neither [speed] nor [velocity]. *)
Lemma smooth_move_to_speed (x y w h : Q) (c : Color) (sp v t target s : Q)
    (screen_height : Z) (speed : Q) :
  Paddle.smooth_move_to (Paddle.mk x y w h c speed v t) target s screen_height
  = let p' := Paddle.smooth_move_to (Paddle.mk x y w h c sp v t) target s
                screen_height in
    Paddle.mk (Paddle.x p') (Paddle.y p') (Paddle.width p') (Paddle.height p')
      (Paddle.color p') speed (Paddle.velocity p') (Paddle.target_y p').
Proof.
  unfold Paddle.smooth_move_to. cbv zeta. fields.
  destruct (Py.lt (y + (target - y) * s) 0); [reflexivity|].
  destruct (Py.lt (inject_Z screen_height) (y + (target - y) * s + h));
    reflexivity.
Qed.

Lemma smooth_move_to_keeps (p : Paddle.t) (target s : Q) (screen_height : Z) :
  Paddle.speed (Paddle.smooth_move_to p target s screen_height) = Paddle.speed p
  /\ Paddle.velocity (Paddle.smooth_move_to p target s screen_height)
     = Paddle.velocity p.
Proof.
  unfold Paddle.smooth_move_to. cbv zeta.
  destruct (Py.lt _ _); [split; reflexivity|].
  destruct (Py.lt _ _); split; reflexivity.
Qed.

(** X16. The controller steers the paddle by its smoothing factor only:
    the paddle's [speed] attribute, which a [bot_speed] entry of the
    settings table fills, has no effect on where the controller moves
    it. *)
Theorem bot_ignores_paddle_speed :
  forall (bc bc' : BotController.t) (p p' : Paddle.t) (b : Ball.t)
         (screen_height : Z) (rng rng' : random.Random) (speed : Q),
    BotController.update bc p b screen_height rng = Py.Ok (bc', p', rng') ->
    BotController.update bc
      (Paddle.mk (Paddle.x p) (Paddle.y p) (Paddle.width p) (Paddle.height p)
         (Paddle.color p) speed (Paddle.velocity p) (Paddle.target_y p))
      b screen_height rng
    = Py.Ok (bc',
             Paddle.mk (Paddle.x p') (Paddle.y p') (Paddle.width p')
               (Paddle.height p') (Paddle.color p') speed (Paddle.velocity p')
               (Paddle.target_y p'),
             rng')
    /\ Paddle.speed p' = Paddle.speed p
    /\ Paddle.velocity p' = Paddle.velocity p.
Proof.
  intros bc bc' p p' b screen_height rng rng' speed E.
  split.
  - revert E. destruct p as [x y w h c sp v t].
    unfold BotController.update. cbv zeta. fields.
    destruct (0 <? BotController.reaction_delay bc)%Z.
    + intros [= <- <- <-].
      rewrite (smooth_move_to_speed x y w h c sp v t). reflexivity.
    + destruct (random.random rng) as [roll rng1].
      destruct (Py.lt _ roll).
      * destruct (random.uniform _ _ rng1) as [e rng2].
        intros H. peel H. rewrite E. cbn [mbind result_bind Py.bind].
        injection H as <- <- <-.
        rewrite (smooth_move_to_speed x y w h c sp v t). reflexivity.
      * intros H. peel H. rewrite E. cbn [mbind result_bind Py.bind].
        injection H as <- <- <-.
        rewrite (smooth_move_to_speed x y w h c sp v t). reflexivity.
  - destruct (bot_update_paddle _ _ _ _ _ _ _ _ E) as [target ->].
    apply smooth_move_to_keeps.
Qed.

(** Witness: the sample paddle under a fresh Easy controller, at speed 1
    instead of 7. *)
Lemma bot_ignores_paddle_speed_witness :
  exists (bc' : BotController.t) (p' : Paddle.t) (rng' : random.Random),
    BotController.update (BotController.init EASY) sample_paddle sample_ball 600
      sample_rng = Py.Ok (bc', p', rng')
    /\ Paddle.speed p' = 7.
Proof.
  destruct (BotController.update (BotController.init EASY) sample_paddle
              sample_ball 600 sample_rng) as [[[bc' p'] rng']|e] eqn:E;
    [|vm_compute in E; discriminate].
  exists bc', p', rng'. split; [reflexivity|].
  destruct (bot_ignores_paddle_speed _ _ _ _ _ _ _ _ 1 E) as (_ & Hs & _).
  rewrite Hs. reflexivity.
Defined.

Lemma init_match_scores (rng : random.Random) : match_scores (PongGame.init rng).
Proof.
  unfold match_scores, PongGame.init, ScoreManager.init. cbv zeta. game_fields.
  cbn [ScoreManager.player_score ScoreManager.bot_score
       ScoreManager.winning_score].
  unfold GameConfig.WINNING_SCORE. lia.
Qed.

Lemma update_match_scores (g g' : PongGame.t) (now : Z) :
  match_scores g -> PongGame.update g now = Py.Ok g' -> match_scores g'.
Proof.
  intros Hm E.
  destruct (decide (PongGame.state g = PLAYING)) as [Hs|Hs];
    [|rewrite update_not_playing in E by exact Hs; injection E as <-;
      exact Hm].
  destruct (PongGame.waiting_for_reset g) eqn:Hw.
  - destruct (update_waiting g g' now Hs Hw E) as (_ & _ & _ & Hs' & Hsc).
    unfold match_scores in *. rewrite Hs', Hsc. rewrite Hs in Hm. exact Hm.
  - revert E. unfold PongGame.update. rewrite Hs, Hw.
    cbn [bool_decide decide_rel negb]. intros H. peel H.
    unfold match_scores in *. rewrite Hs in Hm. cbv zeta in Hm.
    unfold GameConfig.WINNING_SCORE in *.
    finish_tick H; rewrite ?Hs;
      unfold ScoreManager.check_winner, ScoreManager.increment_bot_score,
        ScoreManager.increment_player_score in *;
      cbn [ScoreManager.player_score ScoreManager.bot_score
           ScoreManager.winning_score] in *;
      repeat match type of W with
             | context [(?a <=? ?b)%Z] => destruct (Z.leb_spec a b)
             end;
      try discriminate; try (injection W as <-); cbv zeta;
      try lia;
      (split; [lia|]; split; [lia|]; split; [lia|]);
      first [ left; split; [lia|]; split; [lia|reflexivity]
            | right; split; [lia|]; split; [lia|reflexivity] ].
Qed.

Lemma render_match_scores (g g' : PongGame.t) :
  match_scores g -> PongGame.render g = Py.Ok g' -> match_scores g'.
Proof.
  intros Hm. unfold PongGame.render.
  destruct (PongGame.state g) eqn:Hs; intros H; peel H; injection H as <-;
    unfold match_scores in *; game_fields; rewrite ?Hs in *; exact Hm.
Qed.

Lemma click_menu_match_scores (buttons : list (pygame.Rect * Difficulty)) :
  forall (g g' : PongGame.t) (pos : Z * Z),
    match_scores g ->
    PongGame.state g = MENU ->
    PongGame.click_menu g pos buttons = Py.Ok g' ->
    match_scores g'.
Proof.
  induction buttons as [|[r d] rest IH]; intros g g' pos Hm Hs;
    cbn [PongGame.click_menu].
  - intros [= <-]. exact Hm.
  - destruct (pygame.collidepoint r pos); [|apply IH; assumption].
    intros H. peel H. injection H as <-.
    unfold PongGame.initialize_game_objects in E. peel E.
    injection E as <-. unfold match_scores in *. game_fields.
    unfold ScoreManager.reset.
    cbn [ScoreManager.player_score ScoreManager.bot_score
         ScoreManager.winning_score].
    cbv zeta in *. unfold GameConfig.WINNING_SCORE in *. lia.
Qed.

Lemma handle_event_match_scores (g g' : PongGame.t) (event : pygame.Event) :
  match_scores g -> PongGame.handle_event g event = Py.Ok g' -> match_scores g'.
Proof.
  intros Hm. unfold PongGame.handle_event. intros H.
  apply bind_ok in H as (v & E & H). cbv beta in H.
  assert (Hv : match_scores v).
  { destruct event; try (injection E as <-; exact Hm).
    game_fields.
    destruct (bool_decide (PongGame.state g = PLAYING)) eqn:Hp;
      cbn [andb] in E.
    - apply bool_decide_eq_true in Hp.
      destruct (bool_decide _) in E.
      + apply resize_frame in E as (Hs & Hsc & _).
        game_fields. unfold match_scores in *. rewrite Hs, Hsc, Hp.
        rewrite Hp in Hm. exact Hm.
      + injection E as <-. exact Hm.
    - injection E as <-. exact Hm. }
  clear E Hm.
  destruct (PongGame.state v) eqn:Hs.
  - destruct event; try (injection H as <-; exact Hv).
    eapply click_menu_match_scores; eassumption.
  - unfold match_scores in *. rewrite Hs in Hv.
    destruct event; try (injection H as <-; game_fields; rewrite Hs; exact Hv).
    + repeat match type of H with
             | context [if ?c then _ else _] => destruct c
             end; injection H as <-; game_fields; rewrite ?Hs; cbv zeta in *;
        tauto.
    + repeat match type of H with
             | context [if ?c then _ else _] => destruct c
             end; injection H as <-; game_fields; rewrite ?Hs; exact Hv.
  - unfold match_scores in *. rewrite Hs in Hv.
    destruct event; try (injection H as <-; game_fields; rewrite Hs; exact Hv).
    + repeat match type of H with
             | context [if ?c then _ else _] => destruct c
             end; injection H as <-; game_fields; rewrite ?Hs; cbv zeta in *;
        tauto.
    + repeat match type of H with
             | context [if ?c then _ else _] => destruct c
             end; injection H as <-; game_fields; rewrite ?Hs; cbv zeta in *;
        tauto.
  - unfold match_scores in *. rewrite Hs in Hv.
    destruct event; try (injection H as <-; game_fields; rewrite Hs; exact Hv).
    destruct (PongGame.play_again_hit v mouse_pos); injection H as <-;
      game_fields; rewrite ?Hs; cbv zeta in *; tauto.
Qed.

Lemma trace_match_scores (steps : list Step) :
  forall (g final : PongGame.t) (tr : list (PongGame.t * Step * PongGame.t)),
    match_scores g -> trace g steps = Py.Ok (tr, final) -> match_scores final.
Proof.
  induction steps as [|s rest IH]; intros g final tr Hm; cbn [trace].
  - intros [= _ <-]. exact Hm.
  - intros H. peel H. injection H as _ <-.
    eapply IH; [|eassumption].
    destruct s as [event|now|]; cbn [step] in E.
    + eapply handle_event_match_scores; eassumption.
    + eapply update_match_scores; eassumption.
    + eapply render_match_scores; eassumption.
Qed.

(** X17. In every game the loop of [run] reaches from a fresh
    [PongGame], the scores go with the session state: both lie between 0
    and the winning score of 10; in a match in play or paused neither
    side has reached 10; and when the match is over exactly one side
    stands at 10, the other below, and the winner shown is that side. *)
Theorem reached_scores_match_state :
  forall (frames : list PongGame.Frame) (rng : random.Random) (g : PongGame.t),
    PongGame.run (PongGame.init rng) frames = Py.Ok g ->
    match_scores g
    /\ (PongGame.state g = GAME_OVER ->
        (ScoreManager.get_scores (PongGame.score_manager g)
         = (10%Z, ScoreManager.bot_score (PongGame.score_manager g))
         /\ PongGame.winner g = Some "Player"%string)
        \/ (ScoreManager.get_scores (PongGame.score_manager g)
            = (ScoreManager.player_score (PongGame.score_manager g), 10%Z)
            /\ PongGame.winner g = Some "Bot"%string)).
Proof.
  intros frames rng g H. destruct (run_trace _ _ _ H) as (steps & tr & Htr).
  assert (Hm : match_scores g)
    by (eapply trace_match_scores; [apply init_match_scores | exact Htr]).
  split; [exact Hm|]. intros Hs.
  unfold match_scores in Hm. rewrite Hs in Hm. cbv zeta in Hm.
  unfold GameConfig.WINNING_SCORE, ScoreManager.get_scores in *.
  destruct Hm as (Hg & _ & _ & [(Hp & _ & Hw) | (Hb & _ & Hw)]).
  - left. split; [|exact Hw]. f_equal. lia.
  - right. split; [|exact Hw]. f_equal. lia.
Qed.

(** Witness: a first frame, then a click on the Easy button. *)
Lemma reached_scores_match_state_witness :
  exists g : PongGame.t,
    PongGame.run (PongGame.init sample_rng)
      [PongGame.mkFrame [] 0;
       PongGame.mkFrame [pygame.MOUSEBUTTONDOWN (400%Z, 350%Z)] 16]
    = Py.Ok g
    /\ match_scores g.
Proof.
  destruct (PongGame.run (PongGame.init sample_rng)
              [PongGame.mkFrame [] 0;
               PongGame.mkFrame [pygame.MOUSEBUTTONDOWN (400%Z, 350%Z)] 16])
    as [g|e] eqn:E; [|vm_compute in E; discriminate].
  exists g. split; [reflexivity|].
  exact (proj1 (reached_scores_match_state _ _ _ E)).
Defined.

(** X18. A resize event in a match in play, to a window of positive
    size, never raises in a well-formed game and refits every entity to
    the new configuration: both paddles get its paddle size and their
    columns at the two sides, the player's paddle its speed, the ball its
    radius and the new centre as home.  The ball's base speed and the
    bot paddle's speed become the scaled speeds of the Easy entry of the
    settings table, whatever level is being played: the lookup is made
    with the [Difficulty] of game.py, which is not the class that keys
    the table.  State, scores and held keys are as before. *)
Theorem resize_in_play_refits_entities :
  forall (g : PongGame.t) (ew eh : Z),
    well_formed g ->
    PongGame.state g = PLAYING ->
    (0 < ew)%Z -> (0 < eh)%Z ->
    exists (g' : PongGame.t) (pp bp : Paddle.t) (b : Ball.t),
      PongGame.handle_event g (pygame.VIDEORESIZE ew eh) = Py.Ok g'
      /\ PongGame.config g'
         = GameConfig.update_screen_size (PongGame.config g) ew eh
      /\ PongGame.state g' = PLAYING
      /\ PongGame.score_manager g' = PongGame.score_manager g
      /\ PongGame.keys_pressed g' = PongGame.keys_pressed g
      /\ PongGame.player_paddle g' = Some pp
      /\ PongGame.bot_paddle g' = Some bp
      /\ PongGame.ball g' = Some b
      /\ Paddle.height pp
         = inject_Z (GameConfig.PADDLE_HEIGHT (PongGame.config g'))
      /\ Paddle.height bp = Paddle.height pp
      /\ Paddle.width pp
         = inject_Z (GameConfig.PADDLE_WIDTH (PongGame.config g'))
      /\ Paddle.width bp = Paddle.width pp
      /\ Paddle.x pp = inject_Z (GameConfig.PADDLE_OFFSET (PongGame.config g'))
      /\ Paddle.x bp + Paddle.width bp
         == inject_Z (GameConfig.SCREEN_WIDTH (PongGame.config g')) - Paddle.x pp
      /\ Paddle.speed pp = GameConfig.PLAYER_SPEED (PongGame.config g')
      /\ Ball.radius b = inject_Z (GameConfig.BALL_RADIUS (PongGame.config g'))
      /\ Ball.initial_x b
         = inject_Z (GameConfig.SCREEN_WIDTH (PongGame.config g') / 2)
      /\ Ball.initial_y b
         = inject_Z (GameConfig.SCREEN_HEIGHT (PongGame.config g') / 2)
      /\ Ball.base_speed b
         = GameConfig.scale_speed (PongGame.config g')
             (GameConfig.ball_speed (GameConfig.DIFFICULTY_SETTINGS EASY))
      /\ Paddle.speed bp
         = GameConfig.scale_speed (PongGame.config g')
             (GameConfig.bot_speed (GameConfig.DIFFICULTY_SETTINGS EASY)).
Proof.
  intros g ew eh (_ & Hent & _) Hs Hew Heh.
  destruct (Hent (or_introl Hs)) as (pp & bp & bc & b & Hpp & Hbp & Hbc & Hb).
  unfold PongGame.handle_event. game_fields. rewrite Hs, Hpp.
  rewrite bool_decide_eq_true_2 by reflexivity.
  rewrite bool_decide_eq_true_2 by eauto. cbn [andb].
  unfold PongGame.resize_game_objects. game_fields. rewrite Hpp, Hbp, Hb.
  cbn [fst snd].
  assert (Hw : ~ inject_Z ew == 0)
    by (unfold Qeq; cbn [Qnum Qden inject_Z]; lia).
  assert (Hh : ~ inject_Z eh == 0)
    by (unfold Qeq; cbn [Qnum Qden inject_Z]; lia).
  rewrite !(truediv_ok _ (inject_Z eh)) by exact Hh.
  rewrite !(truediv_ok _ (inject_Z ew)) by exact Hw.
  cbn [mbind result_bind Py.bind].
  rewrite truediv_ok
    by (destruct (PongGame.current_difficulty g) as [d|]; discriminate).
  cbn [mbind result_bind Py.bind]. game_fields. rewrite Hs.
  eexists _, _, _, _. split; [reflexivity|]. game_fields. fields.
  repeat apply conj; try reflexivity; try exact Hs;
    try (destruct (PongGame.current_difficulty g); reflexivity).
  fields. unfold Qminus. rewrite <- inject_Z_opp, <- !inject_Z_plus.
  rewrite inject_Z_injective. lia.
Qed.

(** Witness: the sample game, resized to 1600 by 1200. *)
Lemma resize_in_play_refits_entities_witness :
  exists (g' : PongGame.t) (pp : Paddle.t),
    PongGame.handle_event sample_game (pygame.VIDEORESIZE 1600 1200) = Py.Ok g'
    /\ PongGame.player_paddle g' = Some pp
    /\ Paddle.height pp
       = inject_Z (GameConfig.PADDLE_HEIGHT (PongGame.config g')).
Proof.
  destruct (resize_in_play_refits_entities sample_game 1600 1200
              sample_game_well_formed eq_refl eq_refl eq_refl)
    as (g' & pp & bp & b & E & _ & _ & _ & _ & Hpp & _ & _ & Hh & _).
  exists g', pp. split; [exact E|]. split; assumption.
Defined.

(** What a resize event does outside a match in play. *)
Lemma resize_outside_play (g : PongGame.t) (ew eh : Z) :
  PongGame.state g <> PLAYING ->
  PongGame.handle_event g (pygame.VIDEORESIZE ew eh)
  = Py.Ok (PongGame.set_config (PongGame.set_screen g (ew, eh))
             (GameConfig.update_screen_size (PongGame.config g) ew eh)).
Proof.
  intros Hs. unfold PongGame.handle_event. game_fields.
  rewrite bool_decide_eq_false_2 by exact Hs. cbn [andb].
  cbn [mbind result_bind Py.bind]. game_fields.
  destruct (PongGame.state g); reflexivity.
Qed.

(** X19. A resize event reaches the entities only while the match is in
    play.  When the player pauses, resizes the window and resumes within
    one batch of events, the configuration is the one of the new window
    but both paddles and the ball are exactly as they were, with the size
    and the position they had in the old window; nothing refits them
    later, since [resize_game_objects] runs on resize events only. *)
Theorem resize_while_paused_skips_entities :
  forall (g : PongGame.t) (ew eh : Z),
    PongGame.state g = PLAYING ->
    exists g' : PongGame.t,
      PongGame.handle_input g
        [pygame.KEYDOWN pygame.K_ESCAPE; pygame.VIDEORESIZE ew eh;
         pygame.KEYDOWN pygame.K_ESCAPE]
      = Py.Ok (g', true)
      /\ PongGame.state g' = PLAYING
      /\ PongGame.config g'
         = GameConfig.update_screen_size (PongGame.config g) ew eh
      /\ PongGame.player_paddle g' = PongGame.player_paddle g
      /\ PongGame.bot_paddle g' = PongGame.bot_paddle g
      /\ PongGame.ball g' = PongGame.ball g
      /\ PongGame.bot_controller g' = PongGame.bot_controller g
      /\ PongGame.score_manager g' = PongGame.score_manager g.
Proof.
  intros g ew eh Hs. cbn [PongGame.handle_input].
  rewrite (escape_pauses g Hs). cbn [mbind result_bind Py.bind].
  rewrite resize_outside_play by discriminate.
  cbn [mbind result_bind Py.bind].
  eexists. split; [reflexivity|]. game_fields. repeat apply conj; reflexivity.
Qed.

(** Witness: the sample game, shrunk to 600 by 400 during a pause; the
    paddle keeps the height of the 800 by 600 window. *)
Lemma resize_while_paused_skips_entities_witness :
  exists g' : PongGame.t,
    PongGame.handle_input sample_game
      [pygame.KEYDOWN pygame.K_ESCAPE; pygame.VIDEORESIZE 600 400;
       pygame.KEYDOWN pygame.K_ESCAPE]
    = Py.Ok (g', true)
    /\ PongGame.player_paddle g' = PongGame.player_paddle sample_game.
Proof.
  destruct (resize_while_paused_skips_entities sample_game 600 400 eq_refl)
    as (g' & E & _ & _ & Hpp & _).
  exists g'. split; assumption.
Defined.

Lemma resize_returns (g : PongGame.t) :
  (0 < fst (PongGame.screen g))%Z -> (0 < snd (PongGame.screen g))%Z ->
  exists g' : PongGame.t, PongGame.resize_game_objects g = Py.Ok g'.
Proof.
  intros Hew Heh. unfold PongGame.resize_game_objects.
  destruct (PongGame.player_paddle g) as [pp|]; [|eauto].
  destruct (PongGame.bot_paddle g) as [bp|]; [|eauto].
  destruct (PongGame.ball g) as [b|]; [|eauto].
  assert (Hw : ~ inject_Z (fst (PongGame.screen g)) == 0)
    by (unfold Qeq; cbn [Qnum Qden inject_Z]; lia).
  assert (Hh : ~ inject_Z (snd (PongGame.screen g)) == 0)
    by (unfold Qeq; cbn [Qnum Qden inject_Z]; lia).
  rewrite !(truediv_ok _ (inject_Z (snd (PongGame.screen g)))) by exact Hh.
  rewrite !(truediv_ok _ (inject_Z (fst (PongGame.screen g)))) by exact Hw.
  cbn [mbind result_bind Py.bind].
  rewrite truediv_ok
    by (destruct (PongGame.current_difficulty g) as [d|]; discriminate).
  cbn [mbind result_bind Py.bind]. eauto.
Qed.

Lemma initialize_returns (g : PongGame.t) (d : Difficulty) :
  exists g' : PongGame.t, PongGame.initialize_game_objects g d = Py.Ok g'.
Proof.
  unfold PongGame.initialize_game_objects. cbv zeta. game_fields.
  match goal with
  | |- context [Ball.reset_position ?b0 0 None ?r] =>
      destruct (serve_speed b0 0 r) as (b' & rng' & E & _); rewrite E
  end.
  cbn [mbind result_bind Py.bind]. eauto.
Qed.

Lemma click_menu_returns (buttons : list (pygame.Rect * Difficulty)) :
  forall (g : PongGame.t) (pos : Z * Z),
    exists g' : PongGame.t, PongGame.click_menu g pos buttons = Py.Ok g'.
Proof.
  induction buttons as [|[r d] rest IH]; intros g pos; cbn [PongGame.click_menu];
    [eauto|].
  destruct (pygame.collidepoint r pos); [|apply IH].
  destruct (initialize_returns g d) as [g' E]. rewrite E.
  cbn [mbind result_bind Py.bind]. eauto.
Qed.

Lemma handle_event_returns (g : PongGame.t) (event : pygame.Event) :
  resize_positive event ->
  exists g' : PongGame.t, PongGame.handle_event g event = Py.Ok g'.
Proof.
  intros Hpos. unfold PongGame.handle_event.
  destruct event as [|ew eh|pos|key|key|].
  2: { cbv zeta. destruct Hpos as [Hew Heh].
       match goal with
       | |- context [if ?c then PongGame.resize_game_objects _ else _] =>
           destruct c
       end.
       - destruct (resize_returns
                     (PongGame.set_config (PongGame.set_screen g (ew, eh))
                        (GameConfig.update_screen_size
                           (PongGame.config (PongGame.set_screen g (ew, eh)))
                           ew eh)))
           as [v E]; [exact Hew | exact Heh |].
         rewrite E. cbn [mbind result_bind Py.bind].
         destruct (PongGame.state v); eauto.
       - cbn [mbind result_bind Py.bind].
         destruct (PongGame.state _); eauto. }
  all: cbn [mbind result_bind Py.bind];
    destruct (PongGame.state g); eauto;
    try apply click_menu_returns;
    repeat match goal with
           | |- context [if ?c then _ else _] => destruct c
           end; eauto.
Qed.

Lemma update_wait_returns (g : PongGame.t) (now : Z) :
  well_formed g ->
  PongGame.state g = PLAYING ->
  PongGame.waiting_for_reset g = true ->
  exists g' : PongGame.t, PongGame.update g now = Py.Ok g'.
Proof.
  intros (_ & Hent & Hball & _) Hs Hw.
  destruct (Hent (or_introl Hs)) as (pp & bp & bc & b & Hpp & Hbp & Hbc & Hb).
  destruct (Hball b Hb) as [Hix _].
  unfold PongGame.update. rewrite Hs, Hw, Hpp, Hbp, Hb.
  rewrite bool_decide_eq_true_2 by reflexivity. cbn [negb].
  destruct (GameConfig.RESET_DELAY_MS <=? now - PongGame.reset_timer g)%Z;
    [|eauto].
  destruct (bool_decide (PongGame.last_scorer g = Some "bot"%string));
    cbn [mbind result_bind Py.bind Py.attr].
  - destruct (reset_position_aimed b (-1) (Paddle.y pp + Paddle.height pp / 2)
                (PongGame.rng g)) as (b' & E & _); [auto | lra |].
    rewrite E. cbn [mbind result_bind Py.bind]. eauto.
  - destruct (reset_position_aimed b 1 (Paddle.y bp + Paddle.height bp / 2)
                (PongGame.rng g)) as (b' & E & _); [auto | lra |].
    rewrite E. cbn [mbind result_bind Py.bind]. eauto.
Qed.

Lemma update_total (g : PongGame.t) (now : Z) :
  well_formed g -> exists g' : PongGame.t, PongGame.update g now = Py.Ok g'.
Proof.
  intros Hwf.
  destruct (decide (PongGame.state g = PLAYING)) as [Hs|Hs];
    [|rewrite update_not_playing by exact Hs; eauto].
  destruct (PongGame.waiting_for_reset g) eqn:Hw;
    [apply update_wait_returns; assumption|].
  destruct Hwf as (_ & Hent & _ & Hmax & _).
  destruct (Hent (or_introl Hs)) as (pp & bp & bc & b & Hpp & Hbp & Hbc & Hb).
  eapply update_returns; try eassumption. right. apply Hmax. exact Hbc.
Qed.

Lemma render_total (g : PongGame.t) :
  well_formed g -> exists g' : PongGame.t, PongGame.render g = Py.Ok g'.
Proof.
  intros (_ & Hent & _). unfold PongGame.render.
  destruct (PongGame.state g) eqn:Hs; eauto.
  - destruct (Hent (or_introl eq_refl))
      as (pp & bp & bc & b & Hpp & Hbp & Hbc & Hb).
    rewrite Hpp, Hbp, Hb. cbn. eauto.
  - destruct (Hent (or_intror eq_refl))
      as (pp & bp & bc & b & Hpp & Hbp & Hbc & Hb).
    rewrite Hpp, Hbp, Hb. cbn. eauto.
Qed.

Lemma handle_input_total (events : list pygame.Event) :
  forall g : PongGame.t,
    well_formed g ->
    Forall resize_positive events ->
    exists (g' : PongGame.t) (running : bool),
      PongGame.handle_input g events = Py.Ok (g', running) /\ well_formed g'.
Proof.
  induction events as [|event rest IH]; intros g Hwf Hpos;
    cbn [PongGame.handle_input]; [eauto|].
  apply Forall_cons in Hpos as [Hev Hrest].
  destruct (handle_event_returns g event Hev) as [g1 E].
  pose proof (handle_event_well_formed g g1 event Hwf E) as Hwf1.
  destruct (IH g1 Hwf1 Hrest) as (g' & running & E' & Hwf').
  destruct event; try (rewrite E; cbn [mbind result_bind Py.bind]; eauto).
  eauto.
Qed.

Lemma frame_total (g : PongGame.t) (f : PongGame.Frame) :
  well_formed g ->
  Forall resize_positive (PongGame.events f) ->
  exists (g' : PongGame.t) (running : bool),
    PongGame.frame g f = Py.Ok (g', running) /\ well_formed g'.
Proof.
  intros Hwf Hpos. unfold PongGame.frame.
  destruct (handle_input_total _ g Hwf Hpos) as (g1 & running & E1 & Hwf1).
  rewrite E1. cbn [mbind result_bind Py.bind].
  destruct (update_total g1 (PongGame.ticks f) Hwf1) as [g2 E2].
  pose proof (update_well_formed _ _ _ Hwf1 E2) as Hwf2.
  rewrite E2. cbn [mbind result_bind Py.bind].
  destruct (render_total g2 Hwf2) as [g3 E3].
  pose proof (render_well_formed _ _ Hwf2 E3) as Hwf3.
  rewrite E3. cbn [mbind result_bind Py.bind]. eauto.
Qed.

Lemma run_total (frames : list PongGame.Frame) :
  forall g : PongGame.t,
    well_formed g ->
    Forall (fun f => Forall resize_positive (PongGame.events f)) frames ->
    exists g' : PongGame.t, PongGame.run g frames = Py.Ok g'.
Proof.
  induction frames as [|f rest IH]; intros g Hwf Hpos; cbn [PongGame.run];
    [eauto|].
  apply Forall_cons in Hpos as [Hf Hrest].
  destruct (frame_total g f Hwf Hf) as (g1 & running & E & Hwf1).
  rewrite E. cbn [mbind result_bind Py.bind].
  destruct running; [apply IH; assumption | eauto].
Qed.

(** X20. The game loop never raises: from a fresh [PongGame], whatever
    the events, the clock readings and the draws of the generator, every
    frame returns, as long as each resize event carries a window of
    positive size.  No division by zero in a relaunch, a bounce or a
    resize, no entity missing where one is used, no empty range in the
    draw of a reaction delay. *)
Theorem run_never_raises :
  forall (frames : list PongGame.Frame) (rng : random.Random),
    Forall (fun f => Forall resize_positive (PongGame.events f)) frames ->
    exists g : PongGame.t, PongGame.run (PongGame.init rng) frames = Py.Ok g.
Proof.
  intros frames rng Hpos.
  apply run_total; [apply init_well_formed | exact Hpos].
Qed.

(** Witness: a session with a click on Easy, a key, a resize and a
    pause. *)
Lemma run_never_raises_witness :
  exists g : PongGame.t,
    PongGame.run (PongGame.init sample_rng)
      [PongGame.mkFrame [] 0;
       PongGame.mkFrame [pygame.MOUSEBUTTONDOWN (400%Z, 350%Z)] 16;
       PongGame.mkFrame [pygame.KEYDOWN pygame.K_UP;
                         pygame.VIDEORESIZE 1000 700] 33;
       PongGame.mkFrame [pygame.KEYDOWN pygame.K_ESCAPE] 50]
    = Py.Ok g.
Proof.
  apply run_never_raises.
  repeat (apply Forall_cons; split); try apply Forall_nil;
    cbn [PongGame.events];
    repeat (apply Forall_cons; split); try apply Forall_nil;
    cbn [resize_positive]; try exact I; lia.
Defined.

Lemma ball_move_rows (b : Ball.t) (screen_width screen_height : Z) :
  2 * Ball.radius b <= inject_Z screen_height ->
  Ball.radius b <= Ball.y (Ball.move b screen_width screen_height)
  /\ Ball.y (Ball.move b screen_width screen_height)
     <= inject_Z screen_height - Ball.radius b.
Proof.
  intros Hfit. unfold Ball.move. cbv zeta. fields.
  destruct (Py.le (Ball.y b + Ball.velocity_y b - Ball.radius b) 0) eqn:Etop;
    [apply le_true in Etop | apply le_false in Etop];
    (destruct (Py.le (inject_Z screen_height)
                 (Ball.y b + Ball.velocity_y b + Ball.radius b)) eqn:Ebot;
     [apply le_true in Ebot | apply le_false in Ebot]);
    cbn [orb]; fields; lra.
Qed.

Lemma ball_move_columns (b : Ball.t) (screen_width screen_height : Z) :
  Ball.x (Ball.move b screen_width screen_height)
  = Ball.x b + Ball.velocity_x b
  /\ Ball.velocity_x (Ball.move b screen_width screen_height)
     = Ball.velocity_x b.
Proof.
  unfold Ball.move. cbv zeta.
  repeat match goal with |- context [if ?c then _ else _] => destruct c end;
    split; reflexivity.
Qed.

Lemma maybe_bounce_motion (c : bool) (b b' : Ball.t) (p : Paddle.t) :
  (if c then Ball.bounce_off_paddle b p else Py.Ok b) = Py.Ok b' ->
  Ball.x b' = Ball.x b /\ Ball.y b' = Ball.y b
  /\ Qabs (Ball.velocity_x b') == Qabs (Ball.velocity_x b).
Proof.
  destruct c.
  - unfold Ball.bounce_off_paddle. intros H. peel H. injection H as <-.
    fields. split; [reflexivity|]. split; [reflexivity|].
    assert (E1 : Ball.velocity_x b * (-1 # 1) == - Ball.velocity_x b) by ring.
    rewrite E1. apply Qabs_opp.
  - intros [= <-]. repeat split; reflexivity.
Qed.

(** X21. A tick of a match in play, outside the post-score wait, moves
    the ball one step: unless a point is scored in this tick, [x] has
    advanced by the old [velocity_x], the horizontal speed
    [|velocity_x|] is what it was, whether the ball bounced off a wall, a
    paddle or nothing, and a ball that fits the screen height lies
    within it, between [radius] and [screen_height - radius].  When a
    point is scored the ball rests instead, with both velocities 0. *)
Theorem tick_ball_motion :
  forall (g g' : PongGame.t) (now : Z),
    PongGame.state g = PLAYING ->
    PongGame.waiting_for_reset g = false ->
    PongGame.update g now = Py.Ok g' ->
    exists b b' : Ball.t,
      PongGame.ball g = Some b
      /\ PongGame.ball g' = Some b'
      /\ (PongGame.waiting_for_reset g' = false ->
          Ball.x b' = Ball.x b + Ball.velocity_x b
          /\ Qabs (Ball.velocity_x b') == Qabs (Ball.velocity_x b)
          /\ (2 * Ball.radius b
              <= inject_Z (GameConfig.SCREEN_HEIGHT (PongGame.config g)) ->
              Ball.radius b <= Ball.y b'
              /\ Ball.y b'
                 <= inject_Z (GameConfig.SCREEN_HEIGHT (PongGame.config g))
                    - Ball.radius b))
      /\ (PongGame.waiting_for_reset g' = true ->
          Ball.velocity_x b' = 0 /\ Ball.velocity_y b' = 0).
Proof.
  intros g g' now Hs Hw. unfold PongGame.update. rewrite Hs, Hw.
  cbn [bool_decide decide_rel negb].
  intros H. peel H.
  apply maybe_bounce_motion in E4 as (Hx4 & Hy4 & Hv4).
  apply maybe_bounce_motion in E5 as (Hx5 & Hy5 & Hv5).
  destruct (ball_move_columns v2
              (GameConfig.SCREEN_WIDTH (PongGame.config g))
              (GameConfig.SCREEN_HEIGHT (PongGame.config g))) as [Hmx Hmv].
  pose proof (ball_move_rows v2
                (GameConfig.SCREEN_WIDTH (PongGame.config g))
                (GameConfig.SCREEN_HEIGHT (PongGame.config g))) as Hrows.
  exists v2.
  finish_tick H; eexists; (split; [eassumption|]); (split; [reflexivity|]);
    split; intros Hflag; try discriminate; try congruence;
    fields; try (split; reflexivity).
  all: split; [congruence|]; split;
    [ rewrite Hv5, Hv4, Hmv; reflexivity
    | intros Hfit; rewrite Hy5, Hy4; exact (Hrows Hfit) ].
Qed.

(** Witness: a tick of the sample game. *)
Lemma tick_ball_motion_witness :
  exists (g' : PongGame.t) (b b' : Ball.t),
    PongGame.update sample_game 16 = Py.Ok g'
    /\ PongGame.ball sample_game = Some b
    /\ PongGame.ball g' = Some b'.
Proof.
  destruct (PongGame.update sample_game 16) as [g'|e] eqn:E;
    [|vm_compute in E; discriminate].
  destruct (tick_ball_motion sample_game g' 16 eq_refl eq_refl E)
    as (b & b' & Hb & Hb' & _).
  exists g', b, b'. split; [reflexivity|]. split; assumption.
Defined.

(** X22. The difficulty tables are ordered the way the menu orders the
    levels: on a higher level the ball and the bot's configured speed
    are faster, the controller smooths more per tick, errs less often and
    by less, and waits at most fewer ticks before it looks at the ball
    again. *)
Theorem harder_is_harder :
  forall d1 d2 : Difficulty,
    (level d1 < level d2)%Z ->
    GameConfig.ball_speed (GameConfig.DIFFICULTY_SETTINGS d1)
    < GameConfig.ball_speed (GameConfig.DIFFICULTY_SETTINGS d2)
    /\ GameConfig.bot_speed (GameConfig.DIFFICULTY_SETTINGS d1)
       < GameConfig.bot_speed (GameConfig.DIFFICULTY_SETTINGS d2)
    /\ BotController.smoothing_factor (BotController.init d1)
       < BotController.smoothing_factor (BotController.init d2)
    /\ BotController.accuracy (BotController.init d1)
       < BotController.accuracy (BotController.init d2)
    /\ BotController.error_range d2 < BotController.error_range d1
    /\ (BotController.max_reaction_delay (BotController.init d2)
        < BotController.max_reaction_delay (BotController.init d1))%Z.
Proof.
  intros d1 d2 Hlt.
  destruct d1, d2; cbn in Hlt; try lia; repeat apply conj; reflexivity.
Qed.

(** Witness: Easy against Hard. *)
Lemma harder_is_harder_witness :
  BotController.smoothing_factor (BotController.init EASY)
  < BotController.smoothing_factor (BotController.init HARD).
Proof.
  destruct (harder_is_harder EASY HARD) as (_ & _ & Hs & _);
    [reflexivity | exact Hs].
Defined.
